(** * Agent orchestration and conversation context

    A shallow embedding of the agent manager of the super-app server
    (class [AgentManager], the base class [BaseAgent] and the agents
    [FoodieAgent], [RideNowAgent] and [AskMeAgent]) together with the
    properties of the routing state machine.

    JavaScript objects that are shared and mutated in place (the
    per-user conversation context) live in an explicit object heap; the
    [Map] from user identifiers to contexts holds references into it.
    Asynchronous calls are run to completion one after the other: a turn
    is modelled as a sequential computation in a state-and-exception
    monad (a rejected promise is a thrown error).  Timestamps are
    integers, a string is the UTF-8 encoding of the JavaScript string,
    and every reading of [Date.now()] takes the next value of a clock
    that the outside world provides. *)

From Stdlib Require Import ZArith String Ascii List Bool Lia Sorted.
From stdpp Require Import base option list gmap strings pretty.

Local Open Scope string_scope.
Local Open Scope Z_scope.

(** ** JavaScript values and helpers *)

Module Js.

(** The result of evaluating a call: a value or a thrown error, the
    latter identified by its [message]. *)
Inductive Outcome (A : Type) : Type :=
| Ok (a : A)
| Throw (e : string).
Arguments Ok {A} a.
Arguments Throw {A} e.

(** Primitive values stored in free-form objects. *)
Inductive Val : Type :=
| VStr (s : string)
| VNum (z : Z)
| VBool (b : bool).

(** A plain object: keys in insertion order. *)
Definition Object := list (string * Val).

Fixpoint get (o : Object) (k : string) : option Val :=
  match o with
  | [] => None
  | (k', v) :: o' => if String.eqb k' k then Some v else get o' k
  end.

(** [o[k] = v]: an existing key keeps its place. *)
Fixpoint set (o : Object) (k : string) (v : Val) : Object :=
  match o with
  | [] => [(k, v)]
  | (k', v') :: o' =>
      if String.eqb k' k then (k, v) :: o' else (k', v') :: set o' k v
  end.

(** [{...a, ...b}]. *)
Definition spread (a b : Object) : Object :=
  fold_left (fun acc kv => set acc (fst kv) (snd kv)) b a.

(** A property that the code both tests and calls: it may hold a
    boolean, a method, or be absent. *)
Inductive Prop_ : Type :=
| PUndefined
| PBool (b : bool)
| PMethod (result : bool).

Definition truthy (p : Prop_) : bool :=
  match p with
  | PUndefined => false
  | PBool b => b
  | PMethod _ => true
  end.

(** [p()]: only a method can be called. *)
Definition call (what : string) (p : Prop_) : Outcome bool :=
  match p with
  | PMethod r => Ok r
  | _ => Throw (what +:+ " is not a function")
  end.

(** Truthiness of a string-or-null value: [null], [undefined] and the
    empty string are falsy. *)
Definition truthy_str (s : option string) : bool :=
  match s with
  | Some s => negb (String.eqb s "")
  | None => false
  end.

Definition dquote : string := String (ascii_of_nat 34) EmptyString.
Definition nl : string := String (ascii_of_nat 10) EmptyString.

(** [String.prototype.toLowerCase] on the letters of ASCII; the bytes
    of the other characters are left as they are. *)
Definition lower_ascii (c : ascii) : ascii :=
  let n := nat_of_ascii c in
  if ((65 <=? n)%nat && (n <=? 90)%nat)%bool then ascii_of_nat (n + 32) else c.

Fixpoint toLowerCase (s : string) : string :=
  match s with
  | EmptyString => EmptyString
  | String c s' => String (lower_ascii c) (toLowerCase s')
  end.

(** [String.prototype.trim] strips white space and line terminators
    from both ends.  These are their encodings in UTF-8: tab, line
    feed, vertical tab, form feed, carriage return and space; the
    no-break space U+00A0; the space separators U+1680, U+2000 to
    U+200A, U+202F, U+205F and U+3000; the line and paragraph
    separators U+2028 and U+2029; the byte order mark U+FEFF. *)
Definition white_space : list (list ascii) :=
  map (map ascii_of_nat)
    [ [9]; [10]; [11]; [12]; [13]; [32];
      [194; 160];
      [225; 154; 128];
      [226; 128; 128]; [226; 128; 129]; [226; 128; 130]; [226; 128; 131];
      [226; 128; 132]; [226; 128; 133]; [226; 128; 134]; [226; 128; 135];
      [226; 128; 136]; [226; 128; 137]; [226; 128; 138];
      [226; 128; 168]; [226; 128; 169];
      [226; 128; 175];
      [226; 129; 159];
      [227; 128; 128];
      [239; 187; 191] ]%nat.

(** [l] without its prefix [p], when it has that prefix. *)
Fixpoint strip_prefix (p l : list ascii) : option (list ascii) :=
  match p, l with
  | [], _ => Some l
  | a :: p', b :: l' => if Ascii.eqb a b then strip_prefix p' l' else None
  | _ :: _, [] => None
  end.

(** [l] without the first of the [patterns] that it starts with. *)
Fixpoint strip_first (patterns : list (list ascii)) (l : list ascii)
    : option (list ascii) :=
  match patterns with
  | [] => None
  | p :: patterns' =>
      match strip_prefix p l with
      | Some rest => Some rest
      | None => strip_first patterns' l
      end
  end.

(** Stripping as long as a pattern matches; no pattern is empty, so
    [fuel] as long as the text is enough. *)
Fixpoint strip_all (fuel : nat) (patterns : list (list ascii)) (l : list ascii)
    : list ascii :=
  match fuel with
  | O => l
  | S fuel' =>
      match strip_first patterns l with
      | Some rest => strip_all fuel' patterns rest
      | None => l
      end
  end.

Definition trimStart (l : list ascii) : list ascii :=
  strip_all (length l) white_space l.

(** The end of the text is the start of the reversed text; a
    character of several bytes ends well-formed text only as a whole. *)
Definition trimEnd (l : list ascii) : list ascii :=
  rev (strip_all (length l) (map (@rev ascii) white_space) (rev l)).

Definition trim (s : string) : string :=
  string_of_list_ascii (trimEnd (trimStart (list_ascii_of_string s))).

(** [hay.includes(needle)]. *)
Fixpoint includes (hay needle : string) : bool :=
  (String.prefix needle hay
   || match hay with
      | EmptyString => false
      | String _ hay' => includes hay' needle
      end)%bool.

(** [arr.join(sep)]. *)
Fixpoint join (sep : string) (l : list string) : string :=
  match l with
  | [] => ""
  | [x] => x
  | x :: l' => x +:+ sep +:+ join sep l'
  end.

(** [arr.slice(-n)]. *)
Definition slice_last {A} (n : nat) (l : list A) : list A :=
  skipn (length l - n) l.

(** A string-or-undefined value inside a template literal. *)
Definition show (s : option string) : string :=
  match s with Some s => s | None => "undefined" end.

End Js.

Export Js(Outcome, Ok, Throw).

(** [value || other] on strings that may be [null], [undefined] or
    empty. *)
Definition or_else (value other : option string) : option string :=
  if Js.truthy_str value then value else other.

(** The evaluation of an identifier that no enclosing scope
    declares. *)
Definition unbound {A} (identifier : string) : Outcome A :=
  Throw (identifier +:+ " is not defined").

(** ** Data model *)

(** The [context] object of a handoff directive: [fromAgent] plus the
    remaining keys. *)
Record HandoffContext : Type := {
  fromAgent : option string;
  hc_rest : Js.Object
}.

(** [handoffContext = {}]. *)
Definition empty_handoffContext : HandoffContext :=
  {| fromAgent := None; hc_rest := [] |}.

(** The handoff directive of a response, as [BaseAgent.createHandoff]
    builds it.  A [context] left [undefined] is [None]. *)
Record Handoff : Type := {
  targetAgent : string;
  reason : string;
  hd_context : option HandoffContext;
  autoHandoff : bool
}.

(** A structured UI directive. *)
Definition Action := Js.Object.

(** What an agent returns for a turn.  Every field may be absent. *)
Record AgentResponse : Type := {
  message : option string;
  actions : option (list Action);
  suggestions : option (list string);
  handoff : option Handoff;
  metadata : option Js.Object;
  error : option bool
}.

(** The entries pushed on [context.history]. *)
Inductive HistoryEntry : Type :=
| UserEntry (content : string) (timestamp : Z)
| AgentEntry (agent : string) (content : option string) (timestamp : Z)
    (md : Js.Object)
| HandoffEntry (from to : string) (content : option string) (timestamp : Z)
    (md : Js.Object).

Definition entry_type (h : HistoryEntry) : string :=
  match h with
  | UserEntry _ _ => "user"
  | AgentEntry _ _ _ _ => "agent"
  | HandoffEntry _ _ _ _ _ => "handoff"
  end.

Definition entry_content (h : HistoryEntry) : option string :=
  match h with
  | UserEntry c _ => Some c
  | AgentEntry _ c _ _ => c
  | HandoffEntry _ _ c _ _ => c
  end.

(** The per-user conversation context.  [None] stands for [null] and for
    a field that was never assigned. *)
Record ConversationContext : Type := {
  currentAgent : option string;
  history : list HistoryEntry;
  handoffRequested : bool;
  lastActivity : Z;
  handoffTarget : option string;
  handoffReason : option string;
  handoffContext : option HandoffContext
}.

Definition set_currentAgent (a : option string) (c : ConversationContext) :=
  {| currentAgent := a; history := history c;
     handoffRequested := handoffRequested c; lastActivity := lastActivity c;
     handoffTarget := handoffTarget c; handoffReason := handoffReason c;
     handoffContext := handoffContext c |}.

Definition set_lastActivity (t : Z) (c : ConversationContext) :=
  {| currentAgent := currentAgent c; history := history c;
     handoffRequested := handoffRequested c; lastActivity := t;
     handoffTarget := handoffTarget c; handoffReason := handoffReason c;
     handoffContext := handoffContext c |}.

Definition push_history (h : HistoryEntry) (c : ConversationContext) :=
  {| currentAgent := currentAgent c; history := history c ++ [h];
     handoffRequested := handoffRequested c; lastActivity := lastActivity c;
     handoffTarget := handoffTarget c; handoffReason := handoffReason c;
     handoffContext := handoffContext c |}.

Definition set_handoff (req : bool) (target why : option string)
    (c : ConversationContext) :=
  {| currentAgent := currentAgent c; history := history c;
     handoffRequested := req; lastActivity := lastActivity c;
     handoffTarget := target; handoffReason := why;
     handoffContext := handoffContext c |}.

Definition set_handoffContext (hc : HandoffContext) (c : ConversationContext) :=
  {| currentAgent := currentAgent c; history := history c;
     handoffRequested := handoffRequested c; lastActivity := lastActivity c;
     handoffTarget := handoffTarget c; handoffReason := handoffReason c;
     handoffContext := Some hc |}.

(** The part of the user profile the manager reads: the JSON text of
    [userProfile.preferences], when the profile has preferences. *)
Record Profile : Type := {
  preferences : option string
}.

(** The agent contract.  [Ext] is the world outside the orchestrator as
    an agent sees it during one call: the replies of the completion
    service, the agent's private per-user task state, its clock.  The
    methods of an agent are functions of it. *)
Record Agent (Ext : Type) : Type := {
  agentName : string;
  capabilities : list string;
  isActive : Js.Prop_;
  canHandle : string -> ConversationContext -> Outcome bool;
  processMessage :
    Ext -> string -> ConversationContext -> option Profile ->
    Outcome AgentResponse;
  handleHandoff :
    Ext -> HandoffContext -> ConversationContext -> Outcome AgentResponse;
  handleError : Ext -> string -> string -> Outcome AgentResponse
}.
Arguments agentName {Ext} _.
Arguments capabilities {Ext} _.
Arguments isActive {Ext} _.
Arguments canHandle {Ext} _ _ _.
Arguments processMessage {Ext} _ _ _ _ _.
Arguments handleHandoff {Ext} _ _ _ _.
Arguments handleError {Ext} _ _ _ _.

(** What the intent handler selected inside the [try] block of a domain
    agent hands to [formatResponse]: text, actions and suggestions.  The
    handlers themselves (restaurant search, fare estimates, ...) are
    business logic outside the orchestration core. *)
Record Reply : Type := {
  rp_message : string;
  rp_actions : list Action;
  rp_suggestions : list string
}.

(** ** The user document *)

Module User.

(** An entry of [addresses]; [addr_id] is the [_id] that the database
    gives the subdocument.  The coordinates and the landmark, which no
    handler reads, are left out. *)
Record Address : Type := {
  addr_id : string;
  addr_label : string;
  street : string;
  city : string;
  addr_state : string;
  pincode : string;
  addr_isDefault : bool
}.

(** An entry of [paymentMethods]. *)
Record PaymentMethod : Type := {
  pm_id : string;
  pm_type : string;
  pm_provider : option string;
  pm_identifier : string;
  pm_isDefault : bool;
  pm_metadata : option Js.Object
}.

(** [preferences.ride] and [preferences.dietary], as far as the
    agents read them. *)
Record RidePreferences : Type := {
  preferredRideType : option string
}.

Record DietaryPreferences : Type := {
  vegetarian : bool
}.

Record Preferences : Type := {
  dietary : option DietaryPreferences;
  ride : option RidePreferences
}.

(** An entry of [conversationHistory]. *)
Record Conversation : Type := {
  agentType : string;
  conv_context : Js.Object;
  conv_timestamp : Z
}.

(** The fields of the user document that the agents and the routes
    read and write. *)
Record t : Type := {
  addresses : list Address;
  paymentMethods : list PaymentMethod;
  preferences : option Preferences;
  conversationHistory : list Conversation;
  totalOrders : Z;
  favoriteAgents : list string
}.

(** [addresses.find(addr => addr.isDefault) || addresses[0]]. *)
Definition getDefaultAddress (user : t) : option Address :=
  match List.find addr_isDefault (addresses user) with
  | Some addr => Some addr
  | None => head (addresses user)
  end.

(** [paymentMethods.find(pm => pm.isDefault) || paymentMethods[0]]. *)
Definition getDefaultPaymentMethod (user : t) : option PaymentMethod :=
  match List.find pm_isDefault (paymentMethods user) with
  | Some pm => Some pm
  | None => head (paymentMethods user)
  end.

(** What the routes rely on in a subdocument of an array of the user
    document: its [_id] and its [isDefault] flag. *)
Class Subdocument (A : Type) : Type := {
  _id : A -> string;
  isDefault : A -> bool;
  setDefault : bool -> A -> A
}.

#[global] Instance address_subdocument : Subdocument Address := {|
  _id := addr_id;
  isDefault := addr_isDefault;
  setDefault := fun b a =>
    {| addr_id := addr_id a; addr_label := addr_label a; street := street a;
       city := city a; addr_state := addr_state a; pincode := pincode a;
       addr_isDefault := b |}
|}.

#[global] Instance paymentMethod_subdocument : Subdocument PaymentMethod := {|
  _id := pm_id;
  isDefault := pm_isDefault;
  setDefault := fun b pm =>
    {| pm_id := pm_id pm; pm_type := pm_type pm; pm_provider := pm_provider pm;
       pm_identifier := pm_identifier pm; pm_isDefault := b;
       pm_metadata := pm_metadata pm |}
|}.
End User.

(** ** BaseAgent *)

Module BaseAgent.
Section WithExt.
Variable Ext : Type.
(** [Date.now()] as read inside an agent during a call. *)
Variable agent_now : Ext -> Z.

(** [processMessage] of the base class: subclasses must override it. *)
Definition processMessage (_ : Ext) (_ : string) (_ : ConversationContext)
    (_ : option Profile) : Outcome AgentResponse :=
  Throw "processMessage method must be implemented by subclass".

(** [canHandle]: the default accepts every message. *)
Definition canHandle (_ : string) (_ : ConversationContext) : Outcome bool :=
  Ok true.

(** [generateWelcomeMessage]. *)
Definition generateWelcomeMessage (name : string) (caps : list string) : string :=
  "Hi! I'm " +:+ name +:+ ". I can help you with " +:+ Js.join ", " caps
  +:+ ". How can I assist you today?".

(** [generateSuggestions]: none by default. *)
Definition generateSuggestions (_ : HandoffContext) : list string := [].

(** [handleHandoff], over the [generateSuggestions] of the class. *)
Definition handleHandoff (name : string) (caps : list string)
    (suggest : HandoffContext -> list string)
    (_ : Ext) (hc : HandoffContext) (_ : ConversationContext)
    : Outcome AgentResponse :=
  Ok {| message := Some (generateWelcomeMessage name caps);
        actions := Some [];
        suggestions := Some (suggest hc);
        handoff := None; metadata := None; error := None |}.

(** [handleError]: an apology with a top-level [error] flag. *)
Definition handleError (_ : string) (_ : string) : AgentResponse :=
  {| message := Some "I apologize, but I'm having trouble processing your request. Let me try to help you in a different way.";
     actions := None; suggestions := None; handoff := None;
     metadata := None;
     error := Some true |}.

(** [formatResponse(message, actions, suggestions, metadata)]. *)
Definition formatResponse (name : string) (now : Z) (msg : string)
    (acts : list Action) (sugg : list string) (md : Js.Object)
    : AgentResponse :=
  {| message := Some msg;
     actions := Some acts;
     suggestions := Some sugg;
     handoff := None;
     metadata :=
       Some (Js.spread [("agent", Js.VStr name); ("timestamp", Js.VNum now)] md);
     error := None |}.

(** [createHandoff]: an object holding only the directive. *)
Definition createHandoff (name target why : string) (rest : Js.Object)
    (auto : bool) : AgentResponse :=
  {| message := None; actions := None; suggestions := None;
     handoff :=
       Some {| targetAgent := target; reason := why;
               hd_context := Some {| fromAgent := Some name; hc_rest := rest |};
               autoHandoff := auto |};
     metadata := None; error := None |}.

(** The descriptor snapshot of [getStatus]; [lastActivity] is the
    agent's private field, refreshed by [updateActivity]. *)
Record Status : Type := {
  st_name : string;
  st_capabilities : list string;
  st_isActive : Js.Prop_;
  st_lastActivity : Z
}.

Definition getStatus (a : Agent Ext) (agent_lastActivity : Z) : Status :=
  {| st_name := agentName a; st_capabilities := capabilities a;
     st_isActive := isActive a; st_lastActivity := agent_lastActivity |}.

(** The body shared by the [processMessage] of the domain agents:
    the [try] block runs the selected intent handler, whose result
    goes through [formatResponse]; the [catch] block answers through
    the [handleError] of the class.  A handler that the class does not
    define, or one that reads a variable that is not in scope, throws
    inside the [try] block like any other failure.  The call of
    [updateActivity] in front of the [try] block writes the agent's
    private [lastActivity], which the manager never reads. *)
Definition processMessage_with
    (name : string)
    (handlers : Ext -> string -> ConversationContext -> option Profile -> Outcome Reply)
    (onError : Ext -> string -> string -> AgentResponse)
    (x : Ext) (msg : string) (ctx : ConversationContext)
    (profile : option Profile) : Outcome AgentResponse :=
  match handlers x msg ctx profile with
  | Ok r =>
      Ok (formatResponse name (agent_now x) (rp_message r) (rp_actions r)
            (rp_suggestions r) [])
  | Throw e => Ok (onError x msg e)
  end.

(** [constructor(openai, agentName, capabilities)], with the methods
    of the subclass. *)
Definition new (name : string) (caps : list string)
    (can : string -> ConversationContext -> Outcome bool)
    (process : Ext -> string -> ConversationContext -> option Profile ->
               Outcome AgentResponse)
    (onHandoff : Ext -> HandoffContext -> ConversationContext ->
                 Outcome AgentResponse)
    (onError : Ext -> string -> string -> AgentResponse) : Agent Ext :=
  Build_Agent Ext name caps (Js.PBool true) can process onHandoff
    (fun x m e => Ok (onError x m e)).
End WithExt.
End BaseAgent.

(** [suggestionMap[stage] || suggestionMap['initial']] with
    [stage = context.stage || 'initial']: a stage that is not one of the
    listed strings selects the initial suggestions. *)
Definition stage_of (hc : HandoffContext) : string :=
  match Js.get (hc_rest hc) "stage" with
  | Some (Js.VStr s) => if String.eqb s "" then "initial" else s
  | _ => "initial"
  end.

Fixpoint suggestion_lookup (m : list (string * list string)) (stage : string)
    : option (list string) :=
  match m with
  | [] => None
  | (k, v) :: m' => if String.eqb k stage then Some v else suggestion_lookup m' stage
  end.

(** ** FoodieAgent *)

Module FoodieAgent.
Section WithExt.
Variable Ext : Type.
Variable agent_now : Ext -> Z.
(** The intent handlers run inside the [try] block. *)
Variable handlers :
  Ext -> string -> ConversationContext -> option Profile -> Outcome Reply.

Definition name : string := "Foodie AI".

Definition capabilities : list string :=
  ["food ordering"; "restaurant recommendations"; "cuisine suggestions";
   "dietary preferences"; "food delivery tracking"].

Definition foodKeywords : list string :=
  ["food"; "order"; "restaurant"; "eat"; "hungry"; "delivery"; "menu";
   "cuisine"; "dish"; "meal"; "breakfast"; "lunch"; "dinner"; "snack";
   "pizza"; "burger"; "biryani"; "curry"; "chinese"; "italian"].

Definition canHandle (msg : string) (_ : ConversationContext) : Outcome bool :=
  Ok (existsb
        (fun keyword => Js.includes (Js.toLowerCase msg) (Js.toLowerCase keyword))
        foodKeywords).

Definition suggestionMap : list (string * list string) :=
  [("initial", ["Popular restaurants"; "Order again"; "Cuisine categories"; "Deals & offers"]);
   ("restaurant_selection", ["View menu"; "Check reviews"; "Filter by rating"; "Delivery time"]);
   ("menu_browse", ["Add to cart"; "View categories"; "Popular items"; "Chef's special"]);
   ("cart", ["Proceed to checkout"; "Add more items"; "Apply coupon"; "Modify quantity"]);
   ("checkout", ["Confirm order"; "Change address"; "Payment options"; "Add instructions"])].

Definition generateSuggestions (hc : HandoffContext) : list string :=
  match suggestion_lookup suggestionMap (stage_of hc) with
  | Some l => l
  | None => ["Popular restaurants"; "Order again"; "Cuisine categories"; "Deals & offers"]
  end.

Definition processMessage :=
  BaseAgent.processMessage_with Ext agent_now name handlers
    (fun _ => BaseAgent.handleError).

Definition new : Agent Ext :=
  BaseAgent.new Ext name capabilities canHandle processMessage
    (BaseAgent.handleHandoff Ext name capabilities generateSuggestions)
    (fun _ => BaseAgent.handleError).
End WithExt.

(** *** The order handlers *)

(** What [analyzeIntent] returned, as far as the order handlers read
    it: [analysis.intent] and the entities [cuisine], [food_item],
    [category], [item_name] (strings) and [quantity] (a whole
    number), where the analysis has them.  Prices, quantities and
    totals are whole numbers throughout, as in the menus. *)
Record Analysis : Type := {
  intent : string;
  cuisine : option string;
  food_item : option string;
  category : option string;
  item_name : option string;
  quantity : option Z
}.

(** A restaurant; the rating is carried as the text that the replies
    print. *)
Record Restaurant : Type := {
  restaurant_id : string;
  restaurant_name : string;
  restaurant_cuisine : string;
  rating : string;
  deliveryTime : Z;
  priceRange : string;
  specialties : list string;
  isVeg : bool;
  hasVegOptions : bool
}.

Definition mockRestaurants : list Restaurant :=
  [ {| restaurant_id := "rest_1"; restaurant_name := "Spice Garden";
       restaurant_cuisine := "Indian"; rating := "4.2"; deliveryTime := 35;
       priceRange := "â‚¹â‚¹"; specialties := ["Biryani"; "Curry"; "Tandoor"];
       isVeg := false; hasVegOptions := true |};
    {| restaurant_id := "rest_2"; restaurant_name := "Green Bowl";
       restaurant_cuisine := "Healthy"; rating := "4.5"; deliveryTime := 25;
       priceRange := "â‚¹â‚¹â‚¹";
       specialties := ["Salads"; "Smoothies"; "Quinoa Bowl"];
       isVeg := true; hasVegOptions := true |};
    {| restaurant_id := "rest_3"; restaurant_name := "Burger Hub";
       restaurant_cuisine := "American"; rating := "4"; deliveryTime := 30;
       priceRange := "â‚¹â‚¹"; specialties := ["Burgers"; "Fries"; "Shakes"];
       isVeg := false; hasVegOptions := true |} ].

Record MenuItem : Type := {
  item_id : string;
  item_label : string;
  price : Z;
  item_category : string;
  item_isVeg : bool
}.

Definition mockMenus : list (string * list MenuItem) :=
  [ ("rest_1",
     [ {| item_id := "item_1"; item_label := "Chicken Biryani"; price := 280;
          item_category := "Main Course"; item_isVeg := false |};
       {| item_id := "item_2"; item_label := "Paneer Butter Masala"; price := 220;
          item_category := "Main Course"; item_isVeg := true |};
       {| item_id := "item_3"; item_label := "Garlic Naan"; price := 60;
          item_category := "Bread"; item_isVeg := true |};
       {| item_id := "item_4"; item_label := "Raita"; price := 80;
          item_category := "Sides"; item_isVeg := true |} ]);
    ("rest_2",
     [ {| item_id := "item_5"; item_label := "Quinoa Power Bowl"; price := 320;
          item_category := "Main Course"; item_isVeg := true |};
       {| item_id := "item_6"; item_label := "Green Smoothie"; price := 180;
          item_category := "Beverages"; item_isVeg := true |};
       {| item_id := "item_7"; item_label := "Avocado Toast"; price := 250;
          item_category := "Breakfast"; item_isVeg := true |} ]) ].

(** An entry of the cart: [{...item, quantity}]. *)
Record CartItem : Type := {
  cart_item : MenuItem;
  cart_quantity : Z
}.

(** [orderState.preferences] once [handleFoodOrder] has assigned
    it. *)
Record OrderPreferences : Type := {
  pref_location : string;
  pref_cuisine : option string;
  pref_item : option string
}.

(** The per-user order state; [order_preferences] is [None] for the
    empty object of a new state. *)
Record OrderState : Type := {
  stage : string;
  order_preferences : option OrderPreferences;
  selectedItems : list CartItem;
  restaurant : option Restaurant;
  total : Z
}.

(** The state of a user of whom [orderStates] holds nothing. *)
Definition initialOrderState : OrderState :=
  {| stage := "initial"; order_preferences := None; selectedItems := [];
     restaurant := None; total := 0 |}.

(** The actions of the replies of the order handlers. *)
Inductive FoodAction : Type :=
| LocationInput
| RestaurantSelection (restaurants : list Restaurant)
| MenuDisplay (menu : list MenuItem)
| AddToCartButtons (items : list MenuItem)
| CartUpdate (items : list CartItem) (total : Z)
| AddressInput
| OrderConfirmation (items : list CartItem) (restaurant : option Restaurant)
    (total : Z) (address : User.Address).

(** The arguments of a call of [formatResponse]. *)
Record FoodReply : Type := {
  fr_message : string;
  fr_actions : list FoodAction;
  fr_suggestions : list string
}.

(** [searchRestaurants]; the body reads [cuisine] and
    [userPreferences] only. *)
Definition searchRestaurants (cuisine : option string)
    (userPreferences : option User.DietaryPreferences) : list Restaurant :=
  let filtered := mockRestaurants in
  let filtered :=
    match or_else cuisine None with
    | Some cuisine =>
        List.filter
          (fun r =>
             Js.includes (Js.toLowerCase (restaurant_cuisine r)) (Js.toLowerCase cuisine)
             || existsb
                  (fun s => Js.includes (Js.toLowerCase s) (Js.toLowerCase cuisine))
                  (specialties r))
          filtered
    | None => filtered
    end in
  if from_option User.vegetarian false userPreferences then
    List.filter (fun r => isVeg r || hasVegOptions r) filtered
  else filtered.

(** [mockMenus[restaurantId] || []], for an identifier that names no
    property of [Object.prototype]. *)
Definition getRestaurantMenu (restaurantId : option string) : list MenuItem :=
  default [] (snd <$> List.find (fun entry => String.eqb (fst entry) (Js.show restaurantId))
                        mockMenus).

(** [formatMenuItems]. *)
Definition formatMenuItems (menuItems : list MenuItem) : string :=
  Js.join (Js.nl +:+ Js.nl)
    (map
       (fun item =>
          "ðŸ½ï¸ **" +:+ item_label item +:+ "** "
          +:+ (if item_isVeg item then "ðŸ¥¬" else "ðŸ–")
          +:+ Js.nl +:+ "â‚¹" +:+ pretty (price item) +:+ " â€¢ "
          +:+ item_category item)
       menuItems).

(** One line of a cart or of an order summary. *)
Definition cartLine (item : CartItem) : string :=
  pretty (cart_quantity item) +:+ "x " +:+ item_label (cart_item item)
  +:+ " - â‚¹" +:+ pretty (price (cart_item item) * cart_quantity item).

(** [formatCartSummary]. *)
Definition formatCartSummary (items : list CartItem) (total : Z) : string :=
  if (length items =? 0)%nat then "Your cart is empty"
  else
    "**Your Cart:**" +:+ Js.nl +:+ Js.join Js.nl (map cartLine items)
    +:+ Js.nl +:+ Js.nl +:+ "**Total: â‚¹" +:+ pretty total +:+ "**".

(** [items.reduce((sum, item) => sum + (item.price * item.quantity),
    0)]. *)
Definition cartTotal (items : list CartItem) : Z :=
  fold_left (fun sum item => sum + price (cart_item item) * cart_quantity item) items 0.

(** [selectedItems[existingIndex].quantity += quantity], for the
    first entry with the identifier [id]. *)
Fixpoint addQuantity (id : string) (quantity : Z) (items : list CartItem)
    : list CartItem :=
  match items with
  | [] => []
  | entry :: rest =>
      if String.eqb (item_id (cart_item entry)) id then
        {| cart_item := cart_item entry;
           cart_quantity := cart_quantity entry + quantity |} :: rest
      else entry :: addQuantity id quantity rest
  end.

(** The cart after [item] has been added [quantity] times. *)
Definition addToCart (item : MenuItem) (quantity : Z) (items : list CartItem)
    : list CartItem :=
  if existsb (fun entry => String.eqb (item_id (cart_item entry)) (item_id item)) items
  then addQuantity (item_id item) quantity items
  else (items ++ [{| cart_item := item; cart_quantity := quantity |}])%list.

Section Handlers.
(** The matcher of [BaseAgent.extractLocation], which returns the
    matched text or [null], and [Math.round(subtotal * 0.05)], which
    the handler computes in floating point. *)
Variable extractLocation : string -> option string.
Variable gst_of : Z -> Z.

(** [item || cuisine || 'food']. *)
Definition wanted (analysis : Analysis) : string :=
  default "food" (or_else (or_else (food_item analysis) (cuisine analysis)) None).

(** [handleFoodOrder]: the reply, and the state that the handler
    puts into [orderStates], if it does. *)
Definition handleFoodOrder (message : string) (analysis : Analysis)
    (orderState : OrderState) (userProfile : option User.t)
    : FoodReply * option OrderState :=
  let location :=
    or_else
      (or_else (extractLocation message)
         (match userProfile with
          | Some user => User.city <$> head (User.addresses user)
          | None => None
          end))
      None in
  match location with
  | None =>
      ({| fr_message := "I'd love to help you order food! Could you please tell me your location or select from your saved addresses?";
          fr_actions := [LocationInput];
          fr_suggestions := ["Use my current location"; "Select saved address"] |},
       None)
  | Some location =>
      let restaurants :=
        searchRestaurants (cuisine analysis)
          (match userProfile with
           | Some user =>
               match User.preferences user with
               | Some preferences => User.dietary preferences
               | None => None
               end
           | None => None
           end) in
      if (length restaurants =? 0)%nat then
        ({| fr_message :=
              "I couldn't find any restaurants serving " +:+ wanted analysis
              +:+ " in " +:+ location
              +:+ ". Would you like me to suggest some popular options instead?";
            fr_actions := [];
            fr_suggestions :=
              ["Show popular restaurants"; "Try different cuisine"; "Change location"] |},
         None)
      else
        let orderState :=
          {| stage := "restaurant_selection";
             order_preferences :=
               Some {| pref_location := location; pref_cuisine := cuisine analysis;
                       pref_item := food_item analysis |};
             selectedItems := selectedItems orderState;
             restaurant := restaurant orderState;
             total := total orderState |} in
        let restaurantList :=
          Js.join Js.nl
            (imap
               (fun i r =>
                  pretty (S i) +:+ ". " +:+ restaurant_name r +:+ " - "
                  +:+ restaurant_cuisine r +:+ " (" +:+ rating r +:+ "â­) - "
                  +:+ pretty (deliveryTime r) +:+ " mins")
               (take 5 restaurants)) in
        ({| fr_message :=
              "Here are some great restaurants for " +:+ wanted analysis
              +:+ " in " +:+ location +:+ ":" +:+ Js.nl +:+ Js.nl +:+ restaurantList
              +:+ Js.nl +:+ Js.nl +:+ "Which restaurant would you like to order from?";
            fr_actions := [RestaurantSelection (take 5 restaurants)];
            fr_suggestions := map restaurant_name (take 3 restaurants) |},
         Some orderState)
  end.

(** [handleMenuBrowse]. *)
Definition handleMenuBrowse (message : string) (analysis : Analysis)
    (orderState : OrderState) : FoodReply :=
  match restaurant orderState with
  | None =>
      {| fr_message := "Please select a restaurant first to view their menu.";
         fr_actions := [];
         fr_suggestions := ["Show restaurants"; "Search restaurants"] |}
  | Some chosen =>
      let menu := getRestaurantMenu (Some (restaurant_id chosen)) in
      let category := default "all" (or_else (category analysis) None) in
      let filteredMenu :=
        if String.eqb category "all" then menu
        else
          List.filter
            (fun item =>
               Js.includes (Js.toLowerCase (item_category item))
                 (Js.toLowerCase category))
            menu in
      {| fr_message :=
           "Here's the menu from " +:+ restaurant_name chosen +:+ ":"
           +:+ Js.nl +:+ Js.nl +:+ formatMenuItems filteredMenu;
         fr_actions := [MenuDisplay filteredMenu; AddToCartButtons filteredMenu];
         fr_suggestions := ["Add to cart"; "View categories"; "Filter by veg/non-veg"] |}
  end.

(** [handleAddToCart]: the reply, and the state that the handler
    puts into [orderStates], if it does. *)
Definition handleAddToCart (message : string) (analysis : Analysis)
    (orderState : OrderState) : FoodReply * option OrderState :=
  let quantity :=
    match quantity analysis with
    | Some q => if q =? 0 then 1 else q
    | None => 1
    end in
  match or_else (item_name analysis) None with
  | None =>
      ({| fr_message := "Which item would you like to add to your cart?";
          fr_actions := [];
          fr_suggestions :=
            match restaurant orderState with
            | Some _ => ["View menu"; "Popular items"]
            | None => ["Select restaurant"]
            end |},
       None)
  | Some itemName =>
      let menu := getRestaurantMenu (restaurant_id <$> restaurant orderState) in
      match
        List.find
          (fun i => Js.includes (Js.toLowerCase (item_label i)) (Js.toLowerCase itemName))
          menu
      with
      | None =>
          ({| fr_message :=
                "I couldn't find " +:+ Js.dquote +:+ itemName +:+ Js.dquote
                +:+ " on the menu. Would you like to see similar items or browse the full menu?";
              fr_actions := [];
              fr_suggestions := ["View menu"; "Search items"; "Popular items"] |},
           None)
      | Some item =>
          let items := addToCart item quantity (selectedItems orderState) in
          let orderState :=
            {| stage := stage orderState;
               order_preferences := order_preferences orderState;
               selectedItems := items;
               restaurant := restaurant orderState;
               total := cartTotal items |} in
          ({| fr_message :=
                "Added " +:+ pretty quantity +:+ "x " +:+ item_label item
                +:+ " to your cart! ðŸ›’" +:+ Js.nl +:+ Js.nl
                +:+ formatCartSummary items (cartTotal items);
              fr_actions := [CartUpdate items (cartTotal items)];
              fr_suggestions :=
                ["Add more items"; "Proceed to checkout"; "View cart"; "Remove items"] |},
           Some orderState)
      end
  end.

Definition emptyCartReply : FoodReply :=
  {| fr_message := "Your cart is empty. Would you like to browse restaurants and add some delicious items?";
     fr_actions := [];
     fr_suggestions := ["Browse restaurants"; "Popular dishes"; "Cuisines"] |}.

(** [handleCheckout]. *)
Definition handleCheckout (message : string) (analysis : Analysis)
    (orderState : OrderState) (userProfile : option User.t) : FoodReply :=
  if (length (selectedItems orderState) =? 0)%nat then emptyCartReply
  else
    match userProfile ≫= User.getDefaultAddress with
    | None =>
        {| fr_message := "I need a delivery address to complete your order. Please add your delivery address.";
           fr_actions := [AddressInput];
           fr_suggestions := ["Use current location"; "Add new address"] |}
    | Some deliveryAddress =>
        let subtotal := total orderState in
        let deliveryFee := if 200 <? subtotal then 0 else 40 in
        let gst := gst_of subtotal in
        let grandTotal := subtotal + deliveryFee + gst in
        let orderSummary :=
          Js.nl +:+ "ðŸ“‹ **Order Summary**" +:+ Js.nl
          +:+ Js.join Js.nl (map cartLine (selectedItems orderState)) +:+ Js.nl
          +:+ Js.nl +:+ "ðŸ’° **Bill Details**" +:+ Js.nl
          +:+ "Subtotal: â‚¹" +:+ pretty subtotal +:+ Js.nl
          +:+ "Delivery Fee: â‚¹" +:+ pretty deliveryFee +:+ Js.nl
          +:+ "GST (5%): â‚¹" +:+ pretty gst +:+ Js.nl
          +:+ "**Total: â‚¹" +:+ pretty grandTotal +:+ "**" +:+ Js.nl
          +:+ Js.nl +:+ "ðŸ“ **Delivery Address**" +:+ Js.nl
          +:+ User.street deliveryAddress +:+ ", " +:+ User.city deliveryAddress
          +:+ Js.nl +:+ Js.nl +:+ "ðŸ• **Estimated Delivery**: 35-45 mins"
          +:+ Js.nl +:+ "    " in
        {| fr_message :=
             orderSummary +:+ Js.nl +:+ Js.nl
             +:+ "Everything looks good? Shall I place your order?";
           fr_actions :=
             [OrderConfirmation (selectedItems orderState) (restaurant orderState)
                grandTotal deliveryAddress];
           fr_suggestions :=
             ["Confirm Order"; "Modify items"; "Change address"; "Apply coupon"] |}
    end.

(** One turn of the agent, as far as the order state goes: the
    message with its analysis and the profile of the user, and what
    the handlers that never touch [orderStates] ([restaurant_search],
    [track_order], the general query) answer when the analysis selects
    one of them. *)
Record Turn : Type := {
  turn_message : string;
  turn_analysis : Analysis;
  turn_profile : option User.t;
  turn_other : Outcome FoodReply
}.

(** The [try] block of [processMessage].  The key of the order state
    is [context.userId || 'anonymous'] when it is read and
    [orderState.userId || 'anonymous'] when it is written: neither the
    context objects of the manager nor the order states have a
    [userId]. *)
Definition tryBlock (turn : Turn) (orderStates : gmap string OrderState)
    : Outcome FoodReply * gmap string OrderState :=
  let message := turn_message turn in
  let analysis := turn_analysis turn in
  let userProfile := turn_profile turn in
  let orderState := default initialOrderState (orderStates !! "anonymous") in
  let put (result : FoodReply * option OrderState) :=
    (Ok (fst result),
     match snd result with
     | Some orderState => <["anonymous" := orderState]> orderStates
     | None => orderStates
     end) in
  if String.eqb (intent analysis) "order_food" then
    put (handleFoodOrder message analysis orderState userProfile)
  else if String.eqb (intent analysis) "menu_browse" then
    (Ok (handleMenuBrowse message analysis orderState), orderStates)
  else if String.eqb (intent analysis) "add_to_cart" then
    put (handleAddToCart message analysis orderState)
  else if String.eqb (intent analysis) "modify_order" then
    (Throw "this.handleModifyOrder is not a function", orderStates)
  else if String.eqb (intent analysis) "checkout" then
    (Ok (handleCheckout message analysis orderState userProfile), orderStates)
  else if String.eqb (intent analysis) "dietary_preferences" then
    (Throw "this.handleDietaryPreferences is not a function", orderStates)
  else (turn_other turn, orderStates).

(** The order states after the turns. *)
Definition after (turns : list Turn) (orderStates : gmap string OrderState)
    : gmap string OrderState :=
  fold_left (fun states turn => snd (tryBlock turn states)) turns orderStates.
End Handlers.

(** No restaurant is selected and the cart is empty. *)
Definition nothing_selected (orderState : OrderState) : Prop :=
  restaurant orderState = None
  /\ selectedItems orderState = []
  /\ total orderState = 0.
End FoodieAgent.

(** ** RideNowAgent *)

Module RideNowAgent.
Section WithExt.
Variable Ext : Type.
Variable agent_now : Ext -> Z.
Variable handlers :
  Ext -> string -> ConversationContext -> option Profile -> Outcome Reply.

Definition name : string := "RideNow AI".

Definition capabilities : list string :=
  ["cab booking"; "ride sharing"; "transportation options";
   "fare estimation"; "ride tracking"].

Definition rideKeywords : list string :=
  ["cab"; "taxi"; "ride"; "book"; "uber"; "ola"; "auto"; "rickshaw";
   "transport"; "travel"; "pickup"; "drop"; "fare"; "driver";
   "airport"; "station"; "go to"; "take me to"].

Definition canHandle (msg : string) (_ : ConversationContext) : Outcome bool :=
  Ok (existsb
        (fun keyword => Js.includes (Js.toLowerCase msg) (Js.toLowerCase keyword))
        rideKeywords).

Definition suggestionMap : list (string * list string) :=
  [("initial", ["Book a ride"; "Get fare estimate"; "Nearby cabs"; "Schedule ride"]);
   ("ride_selection", ["Book this ride"; "Compare fares"; "Check driver details"; "Modify route"]);
   ("booking_confirmed", ["Track ride"; "Call driver"; "Share trip"; "Cancel ride"]);
   ("ride_active", ["Track live"; "Contact driver"; "Report issue"; "Share location"])].

Definition generateSuggestions (hc : HandoffContext) : list string :=
  match suggestion_lookup suggestionMap (stage_of hc) with
  | Some l => l
  | None => ["Book a ride"; "Get fare estimate"; "Nearby cabs"; "Schedule ride"]
  end.

Definition processMessage :=
  BaseAgent.processMessage_with Ext agent_now name handlers
    (fun _ => BaseAgent.handleError).

Definition new : Agent Ext :=
  BaseAgent.new Ext name capabilities canHandle processMessage
    (BaseAgent.handleHandoff Ext name capabilities generateSuggestions)
    (fun _ => BaseAgent.handleError).
End WithExt.

(** *** The booking handler *)

(** [analysis.entities]: the analysis is the parsed answer of the
    completion service, which need not have the field.  Entities
    that are an object hold a [destination], a string when they
    have one; a number, a string or a boolean in the place of the
    entities reads as an object without [destination]. *)
Inductive Entities : Type :=
| EntitiesUndefined
| EntitiesNull
| EntitiesOf (destination : option string).

(** What [analyzeIntent] returned, as far as the booking handler
    reads it: [analysis.intent] and [analysis.entities]. *)
Record Analysis : Type := {
  intent : string;
  entities : Entities
}.

(** The destination that the analysis names, if any. *)
Definition entity_destination (analysis : Analysis) : option string :=
  match entities analysis with
  | EntitiesOf destination => destination
  | _ => None
  end.

(** [analysis.entities.destination]: reading a property of
    [undefined] or of [null] throws a TypeError. *)
Definition read_destination (analysis : Analysis) : Outcome (option string) :=
  match entities analysis with
  | EntitiesOf destination => Ok destination
  | EntitiesUndefined =>
      Throw "Cannot read properties of undefined (reading 'destination')"
  | EntitiesNull =>
      Throw "Cannot read properties of null (reading 'destination')"
  end.

Record Ride : Type := {
  ride_id : string;
  ride_type : string;
  ride_provider : string;
  fare : Z;
  estimatedTime : Z;
  capacity : Z;
  features : list string
}.

Definition mockRides : list Ride :=
  [ {| ride_id := "ride_1"; ride_type := "Economy"; ride_provider := "Ola";
       fare := 185; estimatedTime := 25; capacity := 4;
       features := ["AC"; "GPS Tracking"] |};
    {| ride_id := "ride_2"; ride_type := "Premium"; ride_provider := "Uber";
       fare := 285; estimatedTime := 22; capacity := 4;
       features := ["AC"; "Leather Seats"; "GPS Tracking"] |};
    {| ride_id := "ride_3"; ride_type := "Shared"; ride_provider := "Ola";
       fare := 95; estimatedTime := 35; capacity := 2;
       features := ["AC"; "Shared Ride"] |};
    {| ride_id := "ride_4"; ride_type := "Auto"; ride_provider := "Ola";
       fare := 65; estimatedTime := 30; capacity := 3;
       features := ["Open Air"; "Budget Friendly"] |} ].

(** A place of a ride: a saved address of the profile, or the object
    [{name}] built from a text. *)
Inductive Place : Type :=
| SavedAddress (address : User.Address)
| NamedPlace (name : string).

(** [place.name] inside a template literal: an address has no
    [name]. *)
Definition place_name (place : Place) : string :=
  match place with
  | NamedPlace name => name
  | SavedAddress _ => "undefined"
  end.

(** The per-user ride state. *)
Record RideState : Type := {
  stage : string;
  pickup : option Place;
  destination : option Place;
  selectedRide : option Ride;
  preferences : Js.Object;
  bookingTime : option string;
  availableRides : option (list Ride)
}.

(** The state of a user of whom [rideStates] holds nothing. *)
Definition initialRideState : RideState :=
  {| stage := "initial"; pickup := None; destination := None;
     selectedRide := None; preferences := []; bookingTime := None;
     availableRides := None |}.

Definition set_pickup (place : Place) (rideState : RideState) : RideState :=
  {| stage := stage rideState; pickup := Some place;
     destination := destination rideState; selectedRide := selectedRide rideState;
     preferences := preferences rideState; bookingTime := bookingTime rideState;
     availableRides := availableRides rideState |}.

Definition set_destination (place : Place) (rideState : RideState) : RideState :=
  {| stage := stage rideState; pickup := pickup rideState;
     destination := Some place; selectedRide := selectedRide rideState;
     preferences := preferences rideState; bookingTime := bookingTime rideState;
     availableRides := availableRides rideState |}.

Definition set_bookingTime (time : string) (rideState : RideState) : RideState :=
  {| stage := stage rideState; pickup := pickup rideState;
     destination := destination rideState; selectedRide := selectedRide rideState;
     preferences := preferences rideState; bookingTime := Some time;
     availableRides := availableRides rideState |}.

Definition set_selection (rides : list Ride) (rideState : RideState) : RideState :=
  {| stage := "ride_selection"; pickup := pickup rideState;
     destination := destination rideState; selectedRide := selectedRide rideState;
     preferences := preferences rideState; bookingTime := bookingTime rideState;
     availableRides := Some rides |}.

(** The actions of the replies of the booking handler. *)
Inductive RideAction : Type :=
| LocationInput (field : string)
| RideSelection (rides : list Ride)
| FareComparison (rides : list Ride).

(** The arguments of a call of [formatResponse]. *)
Record RideReply : Type := {
  rr_message : string;
  rr_actions : list RideAction;
  rr_suggestions : list string
}.

(** [validateRideRequirements]. *)
Definition validateRideRequirements (rideState : RideState) : list string :=
  (match pickup rideState with Some _ => [] | None => ["pickup location"] end
   ++ match destination rideState with Some _ => [] | None => ["destination"] end)%list.

(** [askForMissingInfo]. *)
Definition askForMissingInfo (missingFields : list string) (rideState : RideState)
    : RideReply :=
  let field := head missingFields in
  if bool_decide (field = Some "pickup location") then
    {| rr_message := "Where would you like to be picked up from?";
       rr_actions := [LocationInput "pickup"];
       rr_suggestions := ["Current location"; "Home"; "Work"; "Enter manually"] |}
  else if bool_decide (field = Some "destination") then
    {| rr_message := "Where would you like to go?";
       rr_actions := [LocationInput "destination"];
       rr_suggestions :=
         ["Popular destinations"; "Airport"; "Railway station"; "Enter manually"] |}
  else
    {| rr_message := "I need more information: " +:+ Js.join ", " missingFields;
       rr_actions := [];
       rr_suggestions := ["Start over"; "Help"] |}.

(** [rides.sort((a, b) => a.fare - b.fare)]: the sort is stable. *)
Fixpoint insert_by_fare (ride : Ride) (sorted : list Ride) : list Ride :=
  match sorted with
  | [] => [ride]
  | ride' :: rest =>
      if fare ride <=? fare ride' then ride :: sorted
      else ride' :: insert_by_fare ride rest
  end.

Definition sort_by_fare (rides : list Ride) : list Ride :=
  fold_right insert_by_fare [] rides.

(** The body of [getAvailableRides] on the rides at hand:
    [userPreferences] left [undefined] is the empty object. *)
Definition selectRides (rides : list Ride)
    (userPreferences : option User.RidePreferences) : list Ride :=
  let preferredRideType :=
    match userPreferences with
    | Some preferences => User.preferredRideType preferences
    | None => None
    end in
  if Js.truthy_str preferredRideType then
    List.filter
      (fun ride =>
         String.eqb (Js.toLowerCase (ride_type ride))
           (Js.toLowerCase (default "" preferredRideType)))
      rides
  else sort_by_fare rides.

(** [getAvailableRides]. *)
Definition getAvailableRides (pickup destination : option Place)
    (userPreferences : option User.RidePreferences) : list Ride :=
  selectRides mockRides userPreferences.

(** The reply that lists the rides. *)
Definition rideOptions (availableRides : list Ride) : string :=
  Js.join Js.nl
    (imap
       (fun i ride =>
          pretty (S i) +:+ ". " +:+ ride_type ride +:+ " - ₹" +:+ pretty (fare ride)
          +:+ " (" +:+ pretty (estimatedTime ride) +:+ " mins) - "
          +:+ ride_provider ride)
       availableRides).

Definition ridesReply (rideState : RideState) (availableRides : list Ride)
    : RideReply :=
  {| rr_message :=
       "🚗 **Available rides from "
       +:+ from_option place_name "undefined" (pickup rideState)
       +:+ " to " +:+ from_option place_name "undefined" (destination rideState)
       +:+ ":**" +:+ Js.nl +:+ Js.nl +:+ rideOptions availableRides
       +:+ Js.nl +:+ Js.nl +:+ "Which ride would you prefer?";
     rr_actions := [RideSelection availableRides; FareComparison availableRides];
     rr_suggestions :=
       map (fun r => ride_type r +:+ " - ₹" +:+ pretty (fare r))
         (take 3 availableRides) |}.

Definition noRidesReply : RideReply :=
  {| rr_message := "I'm sorry, no rides are available for your route right now. Would you like me to check alternative options or try again later?";
     rr_actions := [];
     rr_suggestions := ["Try again"; "Check alternative routes"; "Schedule for later"] |}.

Section Handlers.
(** The matchers of [BaseAgent.extractLocation],
    [RideNowAgent.extractDestination] and [BaseAgent.extractTime],
    which return the matched text or [null]. *)
Variables extractLocation extractDestination extractTime : string -> option string.

(** [handleRideBooking]: the outcome, the ride state object after
    the assignments of the handler, and the entry that the handler
    puts into [rideStates], if it gets that far.  The destination is
    read before the first assignment.  The handler has no
    binding for [userId]: its parameters are [message], [analysis],
    [rideState] and [userProfile], and the module declares
    [BaseAgent], [axios] and [logger]. *)
Definition handleRideBooking (message : string) (analysis : Analysis)
    (rideState : RideState) (userProfile : option User.t)
    : Outcome RideReply * RideState * option (string * RideState) :=
  let pickup : option Place :=
    match or_else (extractLocation message) None with
    | Some name => Some (NamedPlace name)
    | None =>
        match userProfile with
        | Some user => option_map SavedAddress (head (User.addresses user))
        | None => None
        end
    end in
  match read_destination analysis with
  | Throw e => (Throw e, rideState, None)
  | Ok entity =>
  let destination :=
    or_else (or_else entity (extractDestination message)) None in
  let rideTime := or_else (extractTime message) None in
  let rideState := from_option set_pickup id pickup rideState in
  let rideState :=
    from_option (fun name => set_destination (NamedPlace name)) id destination rideState in
  let rideState := from_option set_bookingTime id rideTime rideState in
  let missing := validateRideRequirements rideState in
  if (0 <? length missing)%nat then
    (Ok (askForMissingInfo missing rideState), rideState, None)
  else
    let availableRides :=
      getAvailableRides (RideNowAgent.pickup rideState)
        (RideNowAgent.destination rideState)
        (match userProfile with
         | Some user =>
             match User.preferences user with
             | Some preferences => User.ride preferences
             | None => None
             end
         | None => None
         end) in
    if (length availableRides =? 0)%nat then (Ok noRidesReply, rideState, None)
    else
      let rideState := set_selection availableRides rideState in
      match unbound "userId" with
      | Throw e => (Throw e, rideState, None)
      | Ok userId =>
          (Ok (ridesReply rideState availableRides), rideState,
           Some (userId, rideState))
      end
  end.

(** [context.userId || 'anonymous']: the context objects of the
    manager have no [userId]. *)
Definition userId_of (context : ConversationContext) : string := "anonymous".

(** The [book_ride] case of the [try] block of [processMessage]: the
    ride state of the user is the stored object, which the
    assignments of the handler change in place, or a new object that
    [rideStates] does not hold. *)
Definition bookRide (message : string) (analysis : Analysis)
    (context : ConversationContext) (userProfile : option User.t)
    (rideStates : gmap string RideState)
    : Outcome RideReply * gmap string RideState :=
  let userId := userId_of context in
  let rideState := default initialRideState (rideStates !! userId) in
  let '(outcome, rideState', put) :=
    handleRideBooking message analysis rideState userProfile in
  let rideStates :=
    match rideStates !! userId with
    | Some _ => <[userId := rideState']> rideStates
    | None => rideStates
    end in
  (outcome,
   match put with
   | Some (key, value) => <[key := value]> rideStates
   | None => rideStates
   end).
End Handlers.
End RideNowAgent.

(** ** AskMeAgent *)

Module AskMeAgent.
Section WithExt.
Variable Ext : Type.
Variable agent_now : Ext -> Z.
Variable handlers :
  Ext -> string -> ConversationContext -> option Profile -> Outcome Reply.

Definition name : string := "AskMe AI".

Definition capabilities : list string :=
  ["general questions"; "casual conversation"; "help and support";
   "information lookup"; "recommendations"].

(** The fallback agent handles anything. *)
Definition canHandle (_ : string) (_ : ConversationContext) : Outcome bool :=
  Ok true.

Definition handleHandoff (_ : Ext) (hc : HandoffContext)
    (_ : ConversationContext) : Outcome AgentResponse :=
  Ok {| message :=
          Some ("Hi! I'm AskMe AI. I've taken over from "
                +:+ Js.show (fromAgent hc)
                +:+ " to help you with general questions or guide you to other services. What can I help you with?");
        actions :=
          Some [ (("type", Js.VStr "agent_handoff_complete")
                  :: match fromAgent hc with
                     | Some f => [("fromAgent", Js.VStr f)]
                     | None => []
                     end
                  ++ [("toAgent", Js.VStr "AskMe AI")])%list ];
        suggestions :=
          Some ["What can you help me with?"; "Show app features";
                "Get recommendations"; "How to use other agents"];
        handoff := None; metadata := None; error := None |}.

Definition errorText : string :=
  "I apologize, but I encountered an issue while processing your request. Let me try to help you in a different way. 

Here are some things I can definitely help you with:
• General questions about the app
• Connecting you to specialized agents
• App features and guidance
• Troubleshooting common issues

What would you like to try?".

(** [handleError]: a formatted reply with suggestions. *)
Definition handleError (x : Ext) (_ : string) (_ : string) : AgentResponse :=
  BaseAgent.formatResponse name (agent_now x) errorText []
    ["Try again"; "Show app features"; "Connect to food agent";
     "Connect to ride agent"; "Get help"] [].

Definition processMessage :=
  BaseAgent.processMessage_with Ext agent_now name handlers handleError.

Definition new : Agent Ext :=
  BaseAgent.new Ext name capabilities canHandle processMessage
    handleHandoff handleError.
End WithExt.
End AskMeAgent.

(** ** AgentManager *)

Module AgentManager.

Inductive LogLevel : Type := Info | Warn | Error.

(** What a call into the manager does to the outside: the log lines
    of the manager and its requests to the completion service
    ([openai.chat.completions.create] in [determineAgent]), the latter
    with the content of the user message of the request.  What the
    agents themselves log or ask the service is part of their world. *)
Inductive Event : Type :=
| Log (lvl : LogLevel) (text : string)
| Completion (content : string).

Definition is_completion (e : Event) : bool :=
  match e with Completion _ => true | Log _ _ => false end.

(** The [handoff] field of the envelope: [null], the directive of the
    response, or [true]. *)
Inductive EnvelopeHandoff : Type :=
| HNull
| HDirective (h : Handoff)
| HTrue.

(** The object [processMessage] resolves to.  A field that the object
    does not have is [None]. *)
Record Envelope : Type := {
  env_agent : string;
  env_message : option string;
  env_actions : option (list Action);
  env_suggestions : option (list string);
  env_handoff : option EnvelopeHandoff;
  env_metadata : option Js.Object;
  env_error : option bool;
  env_originalError : option string
}.

(** One entry of the object built by [getAgentStatus]. *)
Record AgentStatus : Type := {
  initialized : bool;
  active : bool
}.

(** The contract's [processMessage] and the [message] of a response,
    under names that the manager's own [processMessage] and its
    [message] parameter do not hide. *)
Abbreviation agent_processMessage := (processMessage).
Abbreviation response_message := (message).

Section WithExt.
Context {Ext : Type}.

(** What the [require]d agent modules provide.  The sources of
    [TravelBuddyAgent], [ShopSmartAgent] and [GrocerAgent] are not
    part of the repository: any implementation of the contract
    stands for them.  For the three agents at hand the intent
    handlers and the agents' clock are the parameters. *)
Record Requires : Type := {
  agent_now : Ext -> Z;
  foodie_handlers :
    Ext -> string -> ConversationContext -> option Profile -> Outcome Reply;
  ridenow_handlers :
    Ext -> string -> ConversationContext -> option Profile -> Outcome Reply;
  askme_handlers :
    Ext -> string -> ConversationContext -> option Profile -> Outcome Reply;
  TravelBuddyAgent : Agent Ext;
  ShopSmartAgent : Agent Ext;
  GrocerAgent : Agent Ext
}.

Context (req : Requires).

(** The outside world during one call into the manager: the
    successive readings of [Date.now()], what the completion service
    answers to a classification request (the [content] of the first
    choice, or a failure), and the world as the agents see it. *)
Record World : Type := {
  clock : nat -> Z;
  completion : Outcome string;
  ext : Ext
}.

(** The manager object.  [conversationContext] maps a user to a
    reference to the context object in [heap]; [clock_reads] and
    [trace] record the clock readings made and the events emitted so
    far. *)
Record Manager : Type := {
  agents : list (string * Agent Ext);
  conversationContext : gmap string nat;
  isInitialized : bool;
  heap : gmap nat ConversationContext;
  next_ref : nat;
  clock_reads : nat;
  trace : list Event
}.

(** [constructor()]. *)
Definition new : Manager :=
  {| agents := []; conversationContext := ∅; isInitialized := false;
     heap := ∅; next_ref := 0; clock_reads := 0; trace := [] |}.

(** *** The [agents] map *)

Fixpoint agents_get (m : list (string * Agent Ext)) (k : string)
    : option (Agent Ext) :=
  match m with
  | [] => None
  | (k', a) :: m' => if String.eqb k' k then Some a else agents_get m' k
  end.

Definition agents_has (m : list (string * Agent Ext)) (k : string) : bool :=
  match agents_get m k with Some _ => true | None => false end.

Fixpoint agents_set (m : list (string * Agent Ext)) (k : string)
    (a : Agent Ext) : list (string * Agent Ext) :=
  match m with
  | [] => [(k, a)]
  | (k', a') :: m' =>
      if String.eqb k' k then (k, a) :: m' else (k', a') :: agents_set m' k a
  end.

(** *** The monad of a call *)

Definition M (A : Type) : Type := Manager -> Outcome A * Manager.

Definition ret {A} (a : A) : M A := fun s => (Ok a, s).

Definition throw {A} (e : string) : M A := fun s => (Throw e, s).

Definition bind {A B} (m : M A) (k : A -> M B) : M B :=
  fun s =>
    match m s with
    | (Ok a, s') => k a s'
    | (Throw e, s') => (Throw e, s')
    end.

(** [try { m } catch (error) { h error }]: what [m] did to the
    state before it threw stays done. *)
Definition try_catch {A} (m : M A) (h : string -> M A) : M A :=
  fun s =>
    match m s with
    | (Ok a, s') => (Ok a, s')
    | (Throw e, s') => h e s'
    end.

(** [await] of a call into an agent or into the completion service. *)
Definition await {A} (o : Outcome A) : M A := fun s => (o, s).

Definition this : M Manager := fun s => (Ok s, s).

Definition Date_now (w : World) : M Z :=
  fun s =>
    (Ok (clock w (clock_reads s)),
     {| agents := agents s; conversationContext := conversationContext s;
        isInitialized := isInitialized s; heap := heap s;
        next_ref := next_ref s; clock_reads := S (clock_reads s);
        trace := trace s |}).

Definition emit (e : Event) : M unit :=
  fun s =>
    (Ok tt,
     {| agents := agents s; conversationContext := conversationContext s;
        isInitialized := isInitialized s; heap := heap s;
        next_ref := next_ref s; clock_reads := clock_reads s;
        trace := trace s ++ [e] |}).

Definition with_agents (f : list (string * Agent Ext) -> list (string * Agent Ext))
    (s : Manager) : Manager :=
  {| agents := f (agents s); conversationContext := conversationContext s;
     isInitialized := isInitialized s; heap := heap s;
     next_ref := next_ref s; clock_reads := clock_reads s; trace := trace s |}.

Definition with_isInitialized (b : bool) (s : Manager) : Manager :=
  {| agents := agents s; conversationContext := conversationContext s;
     isInitialized := b; heap := heap s;
     next_ref := next_ref s; clock_reads := clock_reads s; trace := trace s |}.

Definition with_conversationContext (f : gmap string nat -> gmap string nat)
    (s : Manager) : Manager :=
  {| agents := agents s; conversationContext := f (conversationContext s);
     isInitialized := isInitialized s; heap := heap s;
     next_ref := next_ref s; clock_reads := clock_reads s; trace := trace s |}.

Definition with_heap (f : gmap nat ConversationContext -> gmap nat ConversationContext)
    (s : Manager) : Manager :=
  {| agents := agents s; conversationContext := conversationContext s;
     isInitialized := isInitialized s; heap := f (heap s);
     next_ref := next_ref s; clock_reads := clock_reads s; trace := trace s |}.

Definition modify (f : Manager -> Manager) : M unit := fun s => (Ok tt, f s).

(** A new context object: a fresh reference. *)
Definition new_object (c : ConversationContext) : M nat :=
  fun s =>
    (Ok (next_ref s),
     {| agents := agents s; conversationContext := conversationContext s;
        isInitialized := isInitialized s;
        heap := <[next_ref s := c]> (heap s);
        next_ref := S (next_ref s); clock_reads := clock_reads s;
        trace := trace s |}).

(** Reading the fields of the object behind a reference. *)
Definition read (r : nat) : M ConversationContext :=
  fun s =>
    match heap s !! r with
    | Some c => (Ok c, s)
    | None => (Throw "Cannot read properties of undefined", s)
    end.

(** Assigning to fields of the object behind a reference: every
    holder of the reference sees the change. *)
Definition update (r : nat) (f : ConversationContext -> ConversationContext)
    : M unit :=
  modify (with_heap (alter f r)).

(** The context a user has in the store, as [getUserContext] shows
    it at this moment. *)
Definition context_of (s : Manager) (userId : string)
    : option ConversationContext :=
  match conversationContext s !! userId with
  | Some r => heap s !! r
  | None => None
  end.

Notation "'let*' x ':=' m 'in' k" := (bind m (fun x => k))
  (at level 10, x name, m at level 200, k at level 200).

(** *** initialize *)

(** The agents in the order in which [initialize] registers them. *)
Definition roster : list (string * Agent Ext) :=
  [("foodie", FoodieAgent.new Ext (agent_now req) (foodie_handlers req));
   ("ridenow", RideNowAgent.new Ext (agent_now req) (ridenow_handlers req));
   ("travelbuddy", TravelBuddyAgent req);
   ("shopsmart", ShopSmartAgent req);
   ("grocer", GrocerAgent req);
   ("askme", AskMeAgent.new Ext (agent_now req) (askme_handlers req))].

Definition initialize : M unit :=
  try_catch
    (let* _ := modify
            (with_agents
               (fun m => fold_left (fun m ka => agents_set m (fst ka) (snd ka))
                           roster m)) in
     let* _ := emit (Log Info "All AI agents initialized successfully") in
     modify (with_isInitialized true))
    (fun e =>
       let* _ := emit (Log Error ("Failed to initialize agents: " +:+ e)) in
       throw e).

(** *** determineAgent *)

Definition contextInfo (c : ConversationContext) : string :=
  if (0 <? length (history c))%nat then
    "Recent conversation: "
    +:+ Js.join Js.nl
          (map (fun h => entry_type h +:+ ": " +:+ Js.show (entry_content h))
             (Js.slice_last 3 (history c)))
  else "No previous context".

Definition userInfo (userProfile : option Profile) : string :=
  match userProfile with
  | Some p =>
      "User preferences: "
      +:+ match preferences p with Some json => json | None => "{}" end
  | None => "No user profile available"
  end.

(** The content of the user message of the classification request. *)
Definition userContent (message : string) (c : ConversationContext)
    (userProfile : option Profile) : string :=
  "Message: " +:+ Js.dquote +:+ message +:+ Js.dquote
  +:+ Js.nl +:+ Js.nl +:+ contextInfo c
  +:+ Js.nl +:+ Js.nl +:+ userInfo userProfile.

Definition determineAgent (w : World) (message : string) (context : nat)
    (userProfile : option Profile) : M string :=
  try_catch
    (let* c := read context in
     let* s := this in
     let* keep :=
       (if (Js.truthy_str (currentAgent c) && negb (handoffRequested c))%bool then
          match agents_get (agents s) (default "" (currentAgent c)) with
          | Some currentAgent => await (canHandle currentAgent message c)
          | None => ret false
          end
        else ret false) in
     if keep then ret (default "" (currentAgent c))
     else
       let* _ := emit (Completion (userContent message c userProfile)) in
       let* content := await (completion w) in
       let agentType := Js.toLowerCase (Js.trim content) in
       if negb (agents_has (agents s) agentType) then
         let* _ := emit (Log Warn ("Unknown agent type: " +:+ agentType
                              +:+ ", defaulting to askme")) in
         ret "askme"
       else ret agentType)
    (fun e =>
       let* _ := emit (Log Error ("Error determining agent: " +:+ e)) in
       ret "askme").

(** *** processHandoff *)

Definition processHandoff (w : World) (userId targetAgent : string)
    (handoffContext : option HandoffContext) : M Envelope :=
  let handoffContext := default empty_handoffContext handoffContext in
  try_catch
    (let* s := this in
     let* context :=
       match conversationContext s !! userId with
       | Some r => ret r
       | None => throw "No conversation context found for handoff"
       end in
     let* _ := update context (set_handoff false None None) in
     let* _ := update context (set_currentAgent (Some targetAgent)) in
     let* _ := update context (set_handoffContext handoffContext) in
     let* agent :=
       match agents_get (agents s) targetAgent with
       | Some a => ret a
       | None => throw ("Target agent " +:+ targetAgent +:+ " not found")
       end in
     let* c := read context in
     let* response := await (handleHandoff agent (ext w) handoffContext c) in
     let* t := Date_now w in
     let* _ := update context
            (push_history
               (HandoffEntry
                  (if Js.truthy_str (fromAgent handoffContext)
                   then default "" (fromAgent handoffContext) else "unknown")
                  targetAgent (response_message response) t
                  (default [] (metadata response)))) in
     let* _ := modify (with_conversationContext (insert userId context)) in
     ret {| env_agent := targetAgent;
            env_message := response_message response;
            env_actions := Some (default [] (actions response));
            env_suggestions := Some (default [] (suggestions response));
            env_handoff := Some HTrue;
            env_metadata := Some (default [] (metadata response));
            env_error := None;
            env_originalError := None |})
    (fun e =>
       let* _ := emit (Log Error ("Error processing handoff: " +:+ e)) in
       throw e).

(** *** getUserContext, clearUserContext, cleanupOldContexts *)

Definition getUserContext (userId : string) : M (option ConversationContext) :=
  let* s := this in ret (context_of s userId).

Definition clearUserContext (userId : string) : M unit :=
  modify (with_conversationContext (delete userId)).

(** The idle threshold: 24 hours in milliseconds. *)
Definition idle_threshold : Z := 24 * 60 * 60 * 1000.

(** Whether the sweep deletes the object behind [r]. *)
Definition stale (s : Manager) (cutoffTime : Z) (r : nat) : bool :=
  match heap s !! r with
  | Some context => bool_decide (lastActivity context < cutoffTime)
  | None => false
  end.

(** The loop over [conversationContext.entries()].  The order of
    the entries shows only in the order of the log lines. *)
Definition cleanupOldContexts (w : World) : M unit :=
  let* now := Date_now w in
  let cutoffTime := now - idle_threshold in
  let* s := this in
  fold_right
    (fun (entry : string * nat) (rest : M unit) =>
       let* _ := (if stale s cutoffTime (snd entry) then
               let* _ := modify (with_conversationContext (delete (fst entry))) in
               emit (Log Info ("Cleaned up old context for user " +:+ fst entry))
             else ret tt) in
       rest)
    (ret tt)
    (map_to_list (conversationContext s)).

(** *** processMessage *)

(** [this.conversationContext.get(userId) || {...}]: the stored
    object, or a new one that the store does not hold yet. *)
Definition getOrCreate (w : World) (userId : string) : M nat :=
  let* s := this in
  match conversationContext s !! userId with
  | Some r => ret r
  | None =>
      let* t := Date_now w in
      new_object
        {| currentAgent := None; history := [];
           handoffRequested := false; lastActivity := t;
           handoffTarget := None; handoffReason := None;
           handoffContext := None |}
  end.

(** The [try] block from "Switch agent if needed" to its [return]. *)
Definition respond (w : World) (userId message : string)
    (userProfile : option Profile) (context : nat) (agentType : string)
    : M Envelope :=
  let* c := read context in
  let* _ := (if bool_decide (currentAgent c ≠ Some agentType) then
               let* _ := (if Js.truthy_str (currentAgent c) then
                            emit (Log Info
                                    ("Switching from " +:+ Js.show (currentAgent c)
                                     +:+ " to " +:+ agentType
                                     +:+ " for user " +:+ userId))
                          else ret tt) in
               update context (set_currentAgent (Some agentType))
             else ret tt) in
  let* s := this in
  let* agent :=
    match agents_get (agents s) agentType with
    | Some a => ret a
    | None => throw ("Agent " +:+ agentType +:+ " not found")
    end in
  let* c := read context in
  let* response := await (agent_processMessage agent (ext w) message c userProfile) in
  let* t := Date_now w in
  let* _ := update context
              (push_history
                 (AgentEntry agentType (response_message response) t
                    (default [] (metadata response)))) in
  let* auto :=
    match handoff response with
    | Some h =>
        let* _ := update context
                    (set_handoff true (Some (targetAgent h)) (Some (reason h))) in
        ret (if autoHandoff h then Some h else None)
    | None => ret None
    end in
  match auto with
  | Some h => processHandoff w userId (targetAgent h) (hd_context h)
  | None =>
      let* _ := modify (with_conversationContext (insert userId context)) in
      let* _ := cleanupOldContexts w in
      ret {| env_agent := agentType;
             env_message := response_message response;
             env_actions := Some (default [] (actions response));
             env_suggestions := Some (default [] (suggestions response));
             env_handoff :=
               Some match handoff response with
                    | Some h => HDirective h
                    | None => HNull
                    end;
             env_metadata := Some (default [] (metadata response));
             env_error := None;
             env_originalError := None |}
  end.

(** The [catch] block: the reply comes from the [askme] agent. *)
Definition fallback (w : World) (message : string) (e : string) : M Envelope :=
  let* _ := emit (Log Error ("Error processing message: " +:+ e)) in
  let* s := this in
  match agents_get (agents s) "askme" with
  | Some askMeAgent =>
      let* fallbackResponse := await (handleError askMeAgent (ext w) message e) in
      ret {| env_agent := "askme";
             env_message := response_message fallbackResponse;
             env_actions := None;
             env_suggestions := None;
             env_handoff := None;
             env_metadata := None;
             env_error := Some true;
             env_originalError := Some e |}
  | None => throw e
  end.

Definition processMessage (w : World) (userId message : string)
    (userProfile : option Profile) : M Envelope :=
  try_catch
    (let* s := this in
     let* _ := (if isInitialized s then ret tt else initialize) in
     let* context := getOrCreate w userId in
     let* t := Date_now w in
     let* _ := update context (set_lastActivity t) in
     let* t := Date_now w in
     let* _ := update context (push_history (UserEntry message t)) in
     let* agentType := determineAgent w message context userProfile in
     respond w userId message userProfile context agentType)
    (fallback w message).

(** *** getAvailableAgents, getAgentStatus *)

Definition getAvailableAgents (s : Manager) : list string :=
  map fst (agents s).

(** The loop over [agents.entries()]:
    [active: agent.isActive ? agent.isActive() : true]. *)
Fixpoint getAgentStatus_loop (entries : list (string * Agent Ext))
    (status : list (string * AgentStatus))
    : Outcome (list (string * AgentStatus)) :=
  match entries with
  | [] => Ok status
  | (name, agent) :: rest =>
      match (if Js.truthy (isActive agent)
             then Js.call "agent.isActive" (isActive agent)
             else Ok true) with
      | Ok b =>
          getAgentStatus_loop rest
            (status ++ [(name, {| initialized := true; active := b |})])
      | Throw e => Throw e
      end
  end.

Definition getAgentStatus (s : Manager)
    : Outcome (list (string * AgentStatus)) :=
  getAgentStatus_loop (agents s) [].
End WithExt.

Arguments Requires : clear implicits.
Arguments World : clear implicits.
Arguments Manager : clear implicits.
End AgentManager.

(** ** The routes that read and write the user document *)

Module Routes.
Import User.

(** What a route answers: an error status with its message, or a
    success status with the data it sends (and saves). *)
Inductive Response (A : Type) : Type :=
| Failure (status : nat) (message : string)
| Success (status : nat) (data : A).
Arguments Failure {A} status message.
Arguments Success {A} status data.

(** *** PUT /favorite-agents *)

Definition validAgents : list string :=
  ["foodie"; "ridenow"; "travelbuddy"; "shopsmart"; "grocer"; "askme"].

(** [arr.includes(x)] on an array of strings. *)
Definition includes (l : list string) (x : string) : bool :=
  existsb (String.eqb x) l.

(** [[...new Set(agents)]]: the first occurrence of each element, in
    the order of the array. *)
Fixpoint unique (seen : list string) (l : list string) : list string :=
  match l with
  | [] => []
  | x :: l' =>
      if includes seen x then unique seen l' else x :: unique (x :: seen) l'
  end.

(** The handler, once the validators have accepted [agents] as an
    array of strings. *)
Definition putFavoriteAgents (agents : list string) : Response (list string) :=
  let invalidAgents := List.filter (fun agent => negb (includes validAgents agent)) agents in
  if (0 <? length invalidAgents)%nat then
    Failure 400 ("Invalid agents: " +:+ Js.join ", " invalidAgents)
  else Success 200 (unique [] agents).

(** *** DELETE /addresses/:addressId, DELETE /payment-methods/:paymentId *)

(** [arr.findIndex(p)], with [None] for [-1]. *)
Fixpoint findIndex {A} (p : A -> bool) (l : list A) : option nat :=
  match l with
  | [] => None
  | x :: l' => if p x then Some 0%nat else S <$> findIndex p l'
  end.

(** The two handlers differ in the array and in the message only. *)
Definition deleteSubdocument {A} `{Subdocument A} (notFound : string)
    (id : string) (docs : list A) : Response (list A) :=
  match findIndex (fun doc => String.eqb (_id doc) id) docs with
  | None => Failure 404 notFound
  | Some index =>
      let rest := delete index docs in
      Success 200
        (match docs !! index, rest with
         | Some deleted, first :: others =>
             if isDefault deleted then setDefault true first :: others else rest
         | _, _ => rest
         end)
  end.

Definition deleteAddress : string -> list Address -> Response (list Address) :=
  deleteSubdocument "Address not found".

Definition deletePaymentMethod
    : string -> list PaymentMethod -> Response (list PaymentMethod) :=
  deleteSubdocument "Payment method not found".

(** *** POST /payment-methods *)

Definition paymentTypes : list string := ["UPI"; "CARD"; "WALLET"; "BNPL"].

(** The validators: [type] is one of the four, [provider] is absent
    or not blank, [identifier] is not blank; both are trimmed. *)
Definition validPaymentMethod (type : string) (provider : option string)
    (identifier : string) : bool :=
  (includes paymentTypes type
   && match provider with
      | Some p => negb (String.eqb (Js.trim p) "")
      | None => true
      end
   && negb (String.eqb (Js.trim identifier) ""))%bool.

(** A value of the request body that no validator checks, as far as
    the truthiness of JavaScript and the cast of the schema to a
    Boolean tell values apart: a field that the body does not have,
    [null], a boolean, a whole number, a string, or anything else (a
    number that is not whole, an array, an object). *)
Inductive BodyValue : Type :=
| Absent
| Null
| Boolean (b : bool)
| Whole (n : Z)
| Text (s : string)
| Other.

Definition truthy (v : BodyValue) : bool :=
  match v with
  | Absent | Null => false
  | Boolean b => b
  | Whole n => negb (n =? 0)
  | Text s => negb (String.eqb s "")
  | Other => true
  end.

(** The cast of a value to the type of a [Boolean] path of the
    mongoose schema: [true], ['true'], [1], ['1'] and ['yes'] are
    true, [false], ['false'], [0], ['0'] and ['no'] are false, a
    missing value takes the default of [isDefault], [false], and
    [null] is kept, which reads as false; any other value fails the
    cast ([None]). *)
Definition castBoolean (v : BodyValue) : option bool :=
  match v with
  | Absent | Null => Some false
  | Boolean b => Some b
  | Whole n => if n =? 1 then Some true else if n =? 0 then Some false else None
  | Text s =>
      if includes ["true"; "1"; "yes"] s then Some true
      else if includes ["false"; "0"; "no"] s then Some false
      else None
  | Other => None
  end.

(** The handler; [newId] is the [_id] that the database gives the
    new subdocument.  [isDefault] is the value of the body as it
    came: the handler tests its truthiness, and the schema casts what
    the handler stores.  When the cast fails, [user.save()] rejects
    and the error goes to the error middleware: the route saves
    nothing and answers as the middleware decides ([None]). *)
Definition postPaymentMethod (newId type : string) (provider : option string)
    (identifier : string) (isDefault : BodyValue) (metadata : option Js.Object)
    (paymentMethods : list PaymentMethod)
    : option (Response (list PaymentMethod)) :=
  if negb (validPaymentMethod type provider identifier) then
    Some (Failure 400 "Validation failed")
  else
    let paymentMethods :=
      if truthy isDefault then map (setDefault false) paymentMethods
      else paymentMethods in
    match castBoolean (if truthy isDefault then isDefault
                       else Boolean (length paymentMethods =? 0)%nat) with
    | Some flag =>
        Some (Success 201
                (paymentMethods
                 ++ [{| pm_id := newId; pm_type := type;
                        pm_provider := Js.trim <$> provider;
                        pm_identifier := Js.trim identifier;
                        pm_isDefault := flag;
                        pm_metadata := metadata |}])%list)
    | None => None
    end.

(** The requests that change [paymentMethods]. *)
Inductive PaymentRequest : Type :=
| AddPaymentMethod (newId type : string) (provider : option string)
    (identifier : string) (isDefault : BodyValue) (metadata : option Js.Object)
| DeletePaymentMethod (paymentId : string).

(** The array after a request: a request that fails saves nothing. *)
Definition serve (request : PaymentRequest) (paymentMethods : list PaymentMethod)
    : list PaymentMethod :=
  match
    match request with
    | AddPaymentMethod newId type provider identifier isDefault metadata =>
        postPaymentMethod newId type provider identifier isDefault metadata
          paymentMethods
    | DeletePaymentMethod paymentId =>
        Some (deletePaymentMethod paymentId paymentMethods)
    end
  with
  | Some (Success _ saved) => saved
  | Some (Failure _ _) | None => paymentMethods
  end.

(** *** GET /analytics, GET /stats: agent usage *)

(** [agentUsage[agentType] = (agentUsage[agentType] || 0) + 1] on an
    object whose keys are in insertion order. *)
Fixpoint count (agentUsage : list (string * Z)) (agentType : string) : list (string * Z) :=
  match agentUsage with
  | [] => [(agentType, 1)]
  | (k, n) :: rest =>
      if String.eqb k agentType then (k, n + 1) :: rest
      else (k, n) :: count rest agentType
  end.

Definition agentUsage (history : list Conversation) : list (string * Z) :=
  fold_left (fun usage conv => count usage (agentType conv)) history [].

(** [agentUsage[key]], [undefined] as [None]. *)
Fixpoint usage_of (agentUsage : list (string * Z)) (key : string) : option Z :=
  match agentUsage with
  | [] => None
  | (k, n) :: rest => if String.eqb k key then Some n else usage_of rest key
  end.

(** The value of a decimal digit. *)
Definition digit (c : ascii) : option N :=
  let n := N_of_ascii c in
  if ((48 <=? n) && (n <=? 57))%N then Some (n - 48)%N else None.

Fixpoint parse_digits (acc : N) (s : string) : option N :=
  match s with
  | EmptyString => Some acc
  | String c s' =>
      match digit c with
      | Some d => parse_digits (10 * acc + d)%N s'
      | None => None
      end
  end.

(** An array index: the canonical decimal text of an integer below
    [2^32 - 1]. *)
Definition array_index (key : string) : option N :=
  match key with
  | EmptyString => None
  | String _ _ =>
      match parse_digits 0 key with
      | Some n =>
          if (String.eqb (pretty n) key && (n <? 4294967295)%N)%bool
          then Some n else None
      | None => None
      end
  end.

(** Insertion of an index key in ascending order. *)
Fixpoint insert_index (n : N) (l : list N) : list N :=
  match l with
  | [] => [n]
  | m :: l' => if (n <=? m)%N then n :: l else m :: insert_index n l'
  end.

(** [Object.keys(obj)]: the array indices in ascending order, then
    the other keys in insertion order. *)
Definition Object_keys (obj : list (string * Z)) : list string :=
  (map pretty
     (fold_right insert_index []
        (omap array_index (map fst obj)))
   ++ List.filter (fun key => negb (bool_decide (is_Some (array_index key))))
        (map fst obj))%list.

(** [a > b] on the values of the object: a comparison with
    [undefined] is false. *)
Definition greater (a b : option Z) : bool :=
  match a, b with
  | Some x, Some y => (y <? x)%Z
  | _, _ => false
  end.

(** [String(a)] for the accumulator of the reduction: [null] reads
    the property ["null"]. *)
Definition property_key (a : option string) : string :=
  match a with Some k => k | None => "null" end.

(** [Object.keys(agentUsage).reduce((a, b) => agentUsage[a] >
    agentUsage[b] ? a : b, null)]. *)
Definition mostUsedAgent (agentUsage : list (string * Z)) : option string :=
  fold_left
    (fun a b =>
       if greater (usage_of agentUsage (property_key a)) (usage_of agentUsage b)
       then a else Some b)
    (Object_keys agentUsage) None.

(** *** POST /history *)

(** The handler; [now] is the date of the request.  A [context] that
    is missing from the body is [None]. *)
Definition postHistory (now : Z) (agentType : option string)
    (context : option Js.Object) (history : list Conversation)
    : Response (list Conversation) :=
  match (if Js.truthy_str agentType then agentType else None), context with
  | Some agentType, Some context =>
      let history :=
        (history ++ [{| User.agentType := agentType; conv_context := context;
                        conv_timestamp := now |}])%list in
      Success 200
        (if (100 <? length history)%nat then Js.slice_last 100 history else history)
  | _, _ => Failure 400 "Agent type and context are required"
  end.

(** *** What the properties of the routes speak of *)

(** The number of subdocuments that are flagged as the default. *)
Definition defaults {A} `{Subdocument A} (docs : list A) : nat :=
  length (List.filter isDefault docs).

(** An array of subdocuments is empty or has exactly one default. *)
Definition one_default {A} `{Subdocument A} (docs : list A) : Prop :=
  docs = [] \/ defaults docs = 1%nat.

(** A truthy value that the schema casts to [false]: the strings
    ['false'], ['0'] and ['no']. *)
Definition cast_to_false (v : BodyValue) : bool :=
  (truthy v && bool_decide (castBoolean v = Some false))%bool.

(** A request whose [isDefault], if it has one, means to the schema
    what it means to the handler. *)
Definition plainly_flagged (request : PaymentRequest) : Prop :=
  match request with
  | AddPaymentMethod _ _ _ _ isDefault _ => cast_to_false isDefault = false
  | DeletePaymentMethod _ => True
  end.

(** The number of conversations of the history with an agent. *)
Definition conversations_with (agent : string) (history : list Conversation) : nat :=
  length (List.filter (fun conv => String.eqb (agentType conv) agent) history).

(** The names that every object inherits from [Object.prototype]:
    read on the usage object they are not [undefined], so the counting
    of [agentUsage] is as modelled for the other agent types only. *)
Definition inherited : list string :=
  ["__proto__"; "constructor"; "hasOwnProperty"; "isPrototypeOf";
   "propertyIsEnumerable"; "toLocaleString"; "toString"; "valueOf";
   "__defineGetter__"; "__defineSetter__"; "__lookupGetter__";
   "__lookupSetter__"].

Definition plain_agent_types (history : list Conversation) : Prop :=
  forall conv, In conv history -> ~ In (agentType conv) inherited.
End Routes.

(** ** The handoff route of the chat *)

Module ChatRoutes.
Import AgentManager Routes.

Section WithExt.
Context {Ext : Type} (req : Requires Ext).

(** POST /handoff: the route asks for the handoff in a message of
    its own and sends it through [processMessage]; what it logs and
    what it emits on the socket is left out. *)
Definition postHandoff (w : World Ext) (userId : string)
    (targetAgent : option string) (userProfile : option Profile)
    : M (Response Envelope) :=
  if Js.truthy_str targetAgent then
    let handoffMessage := "Hand me over to " +:+ default "" targetAgent in
    bind (processMessage req w userId handoffMessage userProfile)
      (fun response => ret (Success 200 response))
  else ret (Failure 400 "Target agent is required for handoff").
End WithExt.
End ChatRoutes.

(** ** Vocabulary of the properties *)

Module Spec.
Import AgentManager.

Section WithExt.
Context {Ext : Type} (req : Requires Ext).
Implicit Types (s : Manager Ext) (w : World Ext) (c : ConversationContext).

(** [wp m Q s]: run from [s], the call [m] ends in an outcome and a
    state that satisfy [Q]. *)
Definition wp {A} (m : M A) (Q : Outcome A -> Manager Ext -> Prop) s : Prop :=
  Q (fst (m s)) (snd (m s)).

(** The continuation of a [bind]: a thrown error skips it. *)
Definition and_then {A B} (k : A -> M B) (Q : Outcome B -> Manager Ext -> Prop)
    : Outcome A -> Manager Ext -> Prop :=
  fun o s => match o with Ok a => wp (k a) Q s | Throw e => Q (Throw e) s end.

(** The handler of a [try_catch]: a value skips it. *)
Definition or_catch {A} (h : string -> M A) (Q : Outcome A -> Manager Ext -> Prop)
    : Outcome A -> Manager Ext -> Prop :=
  fun o s => match o with Ok a => Q (Ok a) s | Throw e => wp (h e) Q s end.

(** The requests to the completion service among the events. *)
Definition completions (t : list Event) : list Event := filter is_completion t.

(** The manager [s] after the events [evs], all else equal. *)
Definition log_more (evs : list Event) s : Manager Ext :=
  {| agents := agents s; conversationContext := conversationContext s;
     isInitialized := isInitialized s; heap := heap s;
     next_ref := next_ref s; clock_reads := clock_reads s;
     trace := trace s ++ evs |}.

(** Where a classification request sends the turn: to the agent the
    service names when it is registered, to [askme] otherwise.  The
    identifiers of the roster are lower-case ASCII: an answer with a
    letter outside ASCII names none of them, whether lowered or not,
    unless it is [askme] spelled with the Kelvin sign, which goes to
    [askme] either way. *)
Definition classified (m : list (string * Agent Ext)) w : string :=
  match completion w with
  | Ok content =>
      if agents_has m (Js.toLowerCase (Js.trim content))
      then Js.toLowerCase (Js.trim content) else "askme"
  | Throw _ => "askme"
  end.

(** The service failed, or named no registered agent. *)
Definition misclassified (m : list (string * Agent Ext)) w : Prop :=
  match completion w with
  | Ok content => agents_has m (Js.toLowerCase (Js.trim content)) = false
  | Throw _ => True
  end.

(** The agents map is the one [initialize] builds, or still empty. *)
Definition wf s : Prop :=
  agents s = if isInitialized s then roster req else [].

(** The envelope [{agent, message, actions, suggestions, handoff,
    metadata}]. *)
Definition full_envelope (env : Envelope) : Prop :=
  is_Some (env_actions env) /\ is_Some (env_suggestions env)
  /\ is_Some (env_handoff env) /\ is_Some (env_metadata env)
  /\ env_error env = None /\ env_originalError env = None.

(** The object the [catch] block of [processMessage] returns for the
    error [e]. *)
Definition error_envelope w (message e : string) : Envelope :=
  {| env_agent := "askme";
     env_message :=
       response_message (AskMeAgent.handleError Ext (agent_now req) (ext w) message e);
     env_actions := None; env_suggestions := None; env_handoff := None;
     env_metadata := None;
     env_error := Some true;
     env_originalError := Some e |}.

(** [name] is empty or registered in [m]. *)
Definition registered_or_null (m : list (string * Agent Ext))
    (name : option string) : Prop :=
  match name with
  | Some a => agents_has m a = true
  | None => True
  end.

(** The invariant of the data model, for one context. *)
Definition context_ok (m : list (string * Agent Ext)) c : Prop :=
  registered_or_null m (currentAgent c) /\ registered_or_null m (handoffTarget c).

(** What one round of the sweep does to the store. *)
Definition sweep_entry s (cutoffTime : Z) (m : gmap string nat)
    (entry : string * nat) : gmap string nat :=
  if stale s cutoffTime (snd entry) then delete (fst entry) m else m.

(** The reading of the clock that a sweep started in [s] makes. *)
Definition sweep_time w s : Z := clock w (clock_reads s).

(** Every context object satisfies the invariant of the data model
    with respect to the agents that [initialize] registers. *)
Definition heap_ok (h : gmap nat ConversationContext) : Prop :=
  forall r c, h !! r = Some c -> context_ok (roster req) c.

(** The invariant of the manager. *)
Definition invariant s : Prop :=
  wf s
  /\ (isInitialized s = false -> heap s = ∅ /\ conversationContext s = ∅)
  /\ heap_ok (heap s).

(** The calls into the manager. *)
Inductive Call : Type :=
| CallInitialize
| CallProcessMessage w (userId message : string) (userProfile : option Profile)
| CallProcessHandoff w (userId targetAgent : string)
    (handoffContext : option HandoffContext)
| CallGetUserContext (userId : string)
| CallClearUserContext (userId : string)
| CallCleanupOldContexts w.

Definition run (call : Call) s : Manager Ext :=
  match call with
  | CallInitialize => snd (initialize req s)
  | CallProcessMessage w userId message userProfile =>
      snd (processMessage req w userId message userProfile s)
  | CallProcessHandoff w userId targetAgent handoffContext =>
      snd (processHandoff w userId targetAgent handoffContext s)
  | CallGetUserContext userId => snd (getUserContext userId s)
  | CallClearUserContext userId => snd (clearUserContext userId s)
  | CallCleanupOldContexts w => snd (cleanupOldContexts w s)
  end.

Definition run_all (calls : list Call) s : Manager Ext :=
  fold_left (fun s call => run call s) calls s.

(** The references of the store [m] are allocated (they lie below
    [n]) and no two users hold the same one. *)
Definition store_ok (n : nat) (m : gmap string nat) : Prop :=
  (forall userId r, m !! userId = Some r -> (r < n)%nat)
  /\ (forall userId userId' r,
         m !! userId = Some r -> m !! userId' = Some r -> userId = userId').

(** The references of the manager: those of the store are sound, and
    every reference below [next_ref] has its object in the heap. *)
Definition refs_ok s : Prop :=
  store_ok (next_ref s) (conversationContext s)
  /\ (forall r, (r < next_ref s)%nat -> is_Some (heap s !! r)).

(** [agent.isActive] holds the boolean [true]. *)
Definition holds_true (p : Js.Prop_) : bool :=
  match p with Js.PBool true => true | _ => false end.

(** The entry of [getAgentStatus] for an agent whose [isActive] is
    falsy or a method. *)
Definition status_of (agent : Agent Ext) : AgentStatus :=
  {| initialized := true;
     active := match isActive agent with Js.PMethod r => r | _ => true end |}.

(** No two readings of the clock during a turn started in [s] are as
    far apart as the idle threshold. *)
Definition short_turn w s : Prop :=
  forall i j,
    (clock_reads s <= i)%nat -> (j <= clock_reads s + 4)%nat ->
    clock w j - idle_threshold <= clock w i.

(** The handoff entry that [processHandoff] pushes on the history. *)
Definition handoff_entry (hc : HandoffContext) (targetAgent : string)
    (response : AgentResponse) (t : Z) : HistoryEntry :=
  HandoffEntry
    (if Js.truthy_str (fromAgent hc) then default "" (fromAgent hc) else "unknown")
    targetAgent (response_message response) t (default [] (metadata response)).

(** The context object once [processHandoff] has assigned its fields,
    before it looks up the target agent. *)
Definition handed_over (hc : HandoffContext) (targetAgent : string) c
    : ConversationContext :=
  set_handoffContext hc
    (set_currentAgent (Some targetAgent) (set_handoff false None None c)).

(** [s'] is [s] with the object behind [context] now [c], and with
    more log lines, none of them a request to the completion
    service. *)
Definition touched (context : nat) c s s' : Prop :=
  agents s' = agents s
  /\ isInitialized s' = isInitialized s
  /\ conversationContext s' = conversationContext s
  /\ next_ref s' = next_ref s
  /\ heap s' !! context = Some c
  /\ (forall r, r <> context -> heap s' !! r = heap s !! r)
  /\ exists evs, trace s' = (trace s ++ evs)%list /\ completions evs = [].

(** *** The two halves of a turn *)

(** The [try] block of [processMessage] from its first statement to
    the call of [determineAgent]: it yields the context object of
    the turn and the agent that the turn is routed to.
    [processMessage] is [route] followed by [respond], inside the
    [try]. *)
Definition route w (userId message : string) (userProfile : option Profile)
    : M (nat * string) :=
  bind this (fun s =>
  bind (if isInitialized s then ret tt else initialize req) (fun _ =>
  bind (getOrCreate w userId) (fun context =>
  bind (Date_now w) (fun t =>
  bind (update context (set_lastActivity t)) (fun _ =>
  bind (Date_now w) (fun t =>
  bind (update context (push_history (UserEntry message t))) (fun _ =>
  bind (determineAgent w message context userProfile) (fun agentType =>
  ret (context, agentType))))))))).

(** The context object with which the turn of a user starts, once
    the inbound message is recorded: the stored object, or a new
    one, with [lastActivity] refreshed and the message pushed on the
    history.  A new object takes one more reading of the clock. *)
Definition inbound w s (userId message : string) : ConversationContext :=
  match context_of s userId with
  | Some c =>
      push_history (UserEntry message (clock w (S (clock_reads s))))
        (set_lastActivity (clock w (clock_reads s)) c)
  | None =>
      push_history (UserEntry message (clock w (S (S (clock_reads s)))))
        (set_lastActivity (clock w (S (clock_reads s)))
           {| currentAgent := None; history := [];
              handoffRequested := false;
              lastActivity := clock w (clock_reads s);
              handoffTarget := None; handoffReason := None;
              handoffContext := None |})
  end.

(** The context object once [processMessage] has recorded the
    response of the agent at time [t]: the agent entry and, when the
    response has a handoff directive, the pending handoff. *)
Definition recorded (agentType : string) (response : AgentResponse) (t : Z) c
    : ConversationContext :=
  let c :=
    push_history
      (AgentEntry agentType (response_message response) t
         (default [] (metadata response))) c in
  match handoff response with
  | Some h => set_handoff true (Some (targetAgent h)) (Some (reason h)) c
  | None => c
  end.

(** The envelope that [processMessage] builds from the response of
    the agent. *)
Definition envelope_of (agentType : string) (response : AgentResponse) : Envelope :=
  {| env_agent := agentType;
     env_message := response_message response;
     env_actions := Some (default [] (actions response));
     env_suggestions := Some (default [] (suggestions response));
     env_handoff :=
       Some match handoff response with
            | Some h => HDirective h
            | None => HNull
            end;
     env_metadata := Some (default [] (metadata response));
     env_error := None;
     env_originalError := None |}.

(** The envelope that [processHandoff] builds from the welcome of
    the target. *)
Definition handoff_envelope (targetAgent : string) (response : AgentResponse)
    : Envelope :=
  {| env_agent := targetAgent;
     env_message := response_message response;
     env_actions := Some (default [] (actions response));
     env_suggestions := Some (default [] (suggestions response));
     env_handoff := Some HTrue;
     env_metadata := Some (default [] (metadata response));
     env_error := None;
     env_originalError := None |}.

(** How the immediate handoff that the directive [h] asks for ends,
    for a user whose context object is [c]: it fails when the store
    does not hold the context of the user, when the target is not
    registered, and when [handleHandoff] of the target throws. *)
Definition handoff_outcome w (stored : bool) (h : Handoff) c : Outcome Envelope :=
  let hc := default empty_handoffContext (hd_context h) in
  if stored then
    match agents_get (roster req) (targetAgent h) with
    | Some target =>
        match handleHandoff target (ext w) hc (handed_over hc (targetAgent h) c) with
        | Ok welcome => Ok (handoff_envelope (targetAgent h) welcome)
        | Throw e => Throw e
        end
    | None => Throw ("Target agent " +:+ targetAgent h +:+ " not found")
    end
  else Throw "No conversation context found for handoff".

(** How a turn ends in which [agent], registered as [agentType], is
    handed the message and the context [c], and answers at time [t]:
    with the envelope of its response, with the envelope of the
    handoff that the response asks for at once, or with the error
    that the agent or the handoff threw. *)
Definition turn_outcome w (stored : bool) (message : string)
    (userProfile : option Profile) (agentType : string) (agent : Agent Ext)
    c (t : Z) : Outcome Envelope :=
  match agent_processMessage agent (ext w) message c userProfile with
  | Ok response =>
      match handoff response with
      | Some h =>
          if autoHandoff h
          then handoff_outcome w stored h (recorded agentType response t c)
          else Ok (envelope_of agentType response)
      | None => Ok (envelope_of agentType response)
      end
  | Throw e => Throw e
  end.

(** What the handoff of [handoff_outcome] leaves in the context
    object, when it reads the clock for the [n]-th time: nothing
    changes without a stored context; otherwise the context is
    handed over, and the welcome of the target is pushed on the
    history when there is one. *)
Definition handoff_leaves w (stored : bool) (h : Handoff) c (n : nat)
    : ConversationContext :=
  let hc := default empty_handoffContext (hd_context h) in
  if stored then
    match agents_get (roster req) (targetAgent h) with
    | Some target =>
        match handleHandoff target (ext w) hc (handed_over hc (targetAgent h) c) with
        | Ok welcome =>
            push_history (handoff_entry hc (targetAgent h) welcome (clock w n))
              (handed_over hc (targetAgent h) c)
        | Throw _ => handed_over hc (targetAgent h) c
        end
    | None => handed_over hc (targetAgent h) c
    end
  else c.

(** What the turn of [turn_outcome] leaves in the context object,
    when the agent answers at the [n]-th reading of the clock. *)
Definition turn_leaves w (stored : bool) (message : string)
    (userProfile : option Profile) (agentType : string) (agent : Agent Ext)
    c (n : nat) : ConversationContext :=
  match agent_processMessage agent (ext w) message c userProfile with
  | Ok response =>
      match handoff response with
      | Some h =>
          if autoHandoff h
          then handoff_leaves w stored h
                 (recorded agentType response (clock w n) c) (S n)
          else recorded agentType response (clock w n) c
      | None => recorded agentType response (clock w n) c
      end
  | Throw _ => c
  end.

(** Whether the turn of [turn_outcome] gets as far as storing the
    context and sweeping the store: the agent answers and asks for no
    immediate handoff. *)
Definition turn_stores w (message : string) (userProfile : option Profile)
    (agent : Agent Ext) c : bool :=
  match agent_processMessage agent (ext w) message c userProfile with
  | Ok response =>
      match handoff response with
      | Some h => negb (autoHandoff h)
      | None => true
      end
  | Throw _ => false
  end.

(** The handoff directive that the agent of the turn issues, if it
    issues one: the directive of the response that the agent to which
    the turn is routed gives to the message and the context of the
    turn. *)
Definition issued w (userId message : string) (userProfile : option Profile) s
    : option Handoff :=
  match route w userId message userProfile s with
  | (Ok (context, agentType), s1) =>
      match agents_get (agents s1) agentType, heap s1 !! context with
      | Some agent, Some c =>
          match agent_processMessage agent (ext w) message
                  (set_currentAgent (Some agentType) c) userProfile with
          | Ok response => handoff response
          | Throw _ => None
          end
      | _, _ => None
      end
  | (Throw _, _) => None
  end.

(** A call, made in state [s], in which the handoff directive that
    the agent issues, or the target of a direct [processHandoff],
    names a registered agent. *)
Definition names_registered (call : Call) s : Prop :=
  match call with
  | CallProcessMessage w userId message userProfile =>
      forall h,
        issued w userId message userProfile s = Some h ->
        agents_has (roster req) (targetAgent h) = true
  | CallProcessHandoff _ _ targetAgent _ =>
      agents_has (roster req) targetAgent = true
  | _ => True
  end.

(** A sequence of calls, started in state [s], in which every call
    names registered agents in the state in which it is made. *)
Fixpoint all_registered (calls : list Call) s : Prop :=
  match calls with
  | [] => True
  | call :: calls' => names_registered call s /\ all_registered calls' (run call s)
  end.
End WithExt.
End Spec.

(** ** A concrete deployment *)

Module Scenario.
Import AgentManager Spec.

(** What the outside does during one call: the outcome of the intent
    handler of a domain agent, of the [processMessage] of an agent
    whose source is not at hand, and of its [handleHandoff]. *)
Record Oracle : Type := {
  o_reply : Outcome Reply;
  o_process : Outcome AgentResponse;
  o_handoff : Outcome AgentResponse
}.

(** A stand-in for an agent whose source is not at hand: a subclass
    of [BaseAgent] that keeps the default [canHandle] and
    [handleError]. *)
Definition standin (name : string) (caps : list string) : Agent Oracle :=
  BaseAgent.new Oracle name caps BaseAgent.canHandle
    (fun x _ _ _ => o_process x)
    (fun x _ _ => o_handoff x)
    (fun _ => BaseAgent.handleError).

Definition req : Requires Oracle :=
  {| agent_now := fun _ => 1700000000500;
     foodie_handlers := fun x _ _ _ => o_reply x;
     ridenow_handlers := fun x _ _ _ => o_reply x;
     askme_handlers := fun x _ _ _ => o_reply x;
     TravelBuddyAgent := standin "TravelBuddy AI" ["flight booking"; "hotel booking"];
     ShopSmartAgent := standin "ShopSmart AI" ["online shopping"];
     GrocerAgent := standin "Grocer AI" ["grocery shopping"] |}.

Definition plain_reply : Reply :=
  {| rp_message := "Here you go."; rp_actions := [];
     rp_suggestions := ["Book now"] |}.

(** A response that asks for a handoff to [target]. *)
Definition handoff_response (target : string) (auto : bool) : AgentResponse :=
  {| message := Some "Let me pass you on.";
     actions := Some []; suggestions := Some [];
     handoff :=
       Some {| targetAgent := target; reason := "user asked a general question";
               hd_context := Some {| fromAgent := Some "TravelBuddy AI"; hc_rest := [] |};
               autoHandoff := auto |};
     metadata := Some [("agent", Js.VStr "TravelBuddy AI")];
     error := None |}.

Definition welcome : AgentResponse :=
  {| message := Some "Welcome over here."; actions := Some [];
     suggestions := Some []; handoff := None; metadata := None;
     error := None |}.

(** A clock that starts at [t0] and advances one millisecond per
    reading. *)
Definition ticking (t0 : Z) : nat -> Z := fun n => t0 + Z.of_nat n.

Definition t0 : Z := 1700000000000.

(** Worlds of single turns. *)
Definition world (content : Outcome string) (process : Outcome AgentResponse)
    : World Oracle :=
  {| clock := ticking t0;
     completion := content;
     ext := {| o_reply := Ok plain_reply; o_process := process;
               o_handoff := Ok welcome |} |}.

(** A turn that the classifier sends to [ridenow]. *)
Definition w_ride : World Oracle := world (Ok "ridenow") (Throw "unused").

(** A turn that the classifier sends to [travelbuddy], which answers
    with a handoff directive to [target]. *)
Definition w_handoff (target : string) (auto : bool) : World Oracle :=
  world (Ok "travelbuddy") (Ok (handoff_response target auto)).

(** A turn that the classifier sends to [travelbuddy], whose
    [processMessage] throws. *)
Definition w_boom : World Oracle :=
  world (Ok "travelbuddy") (Throw "connect ECONNREFUSED 127.0.0.1:443").


(** A turn in which the handlers of the domain agents throw. *)
Definition w_handler_fails : World Oracle :=
  {| clock := ticking t0;
     completion := Ok "ridenow";
     ext := {| o_reply := Throw "userId is not defined";
               o_process := Throw "unused"; o_handoff := Throw "unused" |} |}.

(** The manager after start-up. *)
Definition started : Manager Oracle := snd (initialize req new).

(** The state after the turns [turns] of user [userId], each given by
    its world and message. *)
Definition after (turns : list (World Oracle * string)) (userId : string)
    (s : Manager Oracle) : Manager Oracle :=
  fold_left (fun s wm => snd (processMessage req (fst wm) userId (snd wm) None s))
    turns s.

(** A turn in which the completion service names no agent of the
    roster. *)
Definition w_unknown : World Oracle := world (Ok "Concierge") (Throw "unused").

(** A turn two days later, sent to [ridenow]. *)
Definition w_later : World Oracle :=
  {| clock := ticking (t0 + 2 * 24 * 60 * 60 * 1000);
     completion := Ok "ridenow";
     ext := {| o_reply := Ok plain_reply; o_process := Throw "unused";
               o_handoff := Throw "unused" |} |}.

(** The object behind reference [r], when there is one. *)
Definition object_at (s : Manager Oracle) (r : nat) : ConversationContext :=
  default
    {| currentAgent := None; history := []; handoffRequested := false;
       lastActivity := 0; handoffTarget := None; handoffReason := None;
       handoffContext := None |}
    (heap s !! r).

(** After a first turn of user [u1] that [ridenow] answered. *)
Definition s_ride : Manager Oracle :=
  after [(w_ride, "find me a cab to the airport")] "u1" started.
Definition c_ride : ConversationContext := object_at s_ride 0.

(** After a first turn of user [u1] in which [travelbuddy] asked for
    a deferred handoff to [askme]. *)
Definition s_deferred : Manager Oracle :=
  after [(w_handoff "askme" false, "plan a trip")] "u1" started.
Definition c_deferred : ConversationContext := object_at s_deferred 0.

(** Sequences of calls. *)
Definition calls_unregistered_auto : list (@Call Oracle) :=
  [CallProcessMessage w_ride "u1" "find me a cab to the airport" None;
   CallProcessMessage (w_handoff "nobody" true) "u1" "plan a trip" None].

Definition calls_unregistered_deferred : list (@Call Oracle) :=
  [CallProcessMessage (w_handoff "nobody" false) "u1" "plan a trip" None].

Definition calls_self_handoff : list (@Call Oracle) :=
  [CallProcessMessage (w_handoff "travelbuddy" false) "u1" "plan a trip" None].

Definition calls_registered : list (@Call Oracle) :=
  [CallInitialize;
   CallProcessMessage w_ride "u1" "find me a cab to the airport" None;
   CallProcessMessage (w_handoff "askme" false) "u1" "plan a trip" None;
   CallGetUserContext "u1";
   CallProcessMessage (w_handoff "askme" true) "u2" "plan a trip" None;
   CallClearUserContext "u2"].

(** After a first turn of user [u1] that fell back to [askme]. *)
Definition s_askme : Manager Oracle :=
  after [(w_unknown, "hello there")] "u1" started.
Definition c_askme : ConversationContext := object_at s_askme 0.

(** The first turns of two users. *)
Definition calls_two_users : list (@Call Oracle) :=
  [CallProcessMessage w_ride "u1" "find me a cab to the airport" None;
   CallProcessMessage w_ride "u2" "book a cab" None].

(** The first turn of [u1], up to the point where the new context
    object exists and the agent is about to be invoked. *)
Definition s_created : Manager Oracle :=
  snd (getOrCreate (w_handoff "askme" true) "u1" started).
Definition c_created : ConversationContext := object_at s_created 0.

(** A sweep one day and a millisecond after [t0]. *)
Definition w_next_day : World Oracle :=
  {| clock := ticking (t0 + 24 * 60 * 60 * 1000 + 1);
     completion := Throw "unused";
     ext := {| o_reply := Throw "unused"; o_process := Throw "unused";
               o_handoff := Throw "unused" |} |}.

(** A user with two saved addresses who prefers economy rides. *)
Definition home : User.Address :=
  {| User.addr_id := "a1"; User.addr_label := "Home"; User.street := "12 MG Road";
     User.city := "Bengaluru"; User.addr_state := "Karnataka";
     User.pincode := "560001"; User.addr_isDefault := true |}.

Definition office : User.Address :=
  {| User.addr_id := "a2"; User.addr_label := "Work"; User.street := "4 Residency Road";
     User.city := "Bengaluru"; User.addr_state := "Karnataka";
     User.pincode := "560025"; User.addr_isDefault := false |}.

Definition rider : User.t :=
  {| User.addresses := [home; office]; User.paymentMethods := [];
     User.preferences :=
       Some {| User.dietary := None;
               User.ride := Some {| User.preferredRideType := Some "economy" |} |};
     User.conversationHistory := []; User.totalOrders := 0;
     User.favoriteAgents := [] |}.

(** A matcher that finds nothing in the message. *)
Definition no_match : string -> option string := fun _ => None.

(** The analysis of a request for a ride to the airport. *)
Definition to_airport : RideNowAgent.Analysis :=
  {| RideNowAgent.intent := "book_ride";
     RideNowAgent.entities := RideNowAgent.EntitiesOf (Some "airport") |}.

(** Turns of the food agent: an order, and a checkout. *)
Definition order_pizza : FoodieAgent.Turn :=
  {| FoodieAgent.turn_message := "I want pizza";
     FoodieAgent.turn_analysis :=
       {| FoodieAgent.intent := "order_food"; FoodieAgent.cuisine := None;
          FoodieAgent.food_item := Some "pizza"; FoodieAgent.category := None;
          FoodieAgent.item_name := None; FoodieAgent.quantity := None |};
     FoodieAgent.turn_profile := Some rider;
     FoodieAgent.turn_other := Throw "unused" |}.

Definition checkout : FoodieAgent.Turn :=
  {| FoodieAgent.turn_message := "checkout please";
     FoodieAgent.turn_analysis :=
       {| FoodieAgent.intent := "checkout"; FoodieAgent.cuisine := None;
          FoodieAgent.food_item := None; FoodieAgent.category := None;
          FoodieAgent.item_name := None; FoodieAgent.quantity := None |};
     FoodieAgent.turn_profile := Some rider;
     FoodieAgent.turn_other := Throw "unused" |}.

(** A tax of five percent, rounded half up, on whole amounts. *)
Definition five_percent (subtotal : Z) : Z := (subtotal * 5 + 50) / 100.

(** The welcome with which [askme] takes over from [travelbuddy]. *)
Definition askme_welcome : AgentResponse :=
  {| message :=
       Some "Hi! I'm AskMe AI. I've taken over from TravelBuddy AI to help you with general questions or guide you to other services. What can I help you with?";
     actions :=
       Some [[("type", Js.VStr "agent_handoff_complete");
              ("fromAgent", Js.VStr "TravelBuddy AI");
              ("toAgent", Js.VStr "AskMe AI")]];
     suggestions :=
       Some ["What can you help me with?"; "Show app features";
             "Get recommendations"; "How to use other agents"];
     handoff := None; metadata := None; error := None |}.

(** The calls that lead to [s_ride]. *)
Definition calls_ride : list (@Call Oracle) :=
  [CallInitialize;
   CallProcessMessage w_ride "u1" "find me a cab to the airport" None].

(** A history of three conversations. *)
Definition three_conversations : list User.Conversation :=
  [ {| User.agentType := "foodie"; User.conv_context := []; User.conv_timestamp := t0 |};
    {| User.agentType := "ridenow"; User.conv_context := [];
       User.conv_timestamp := t0 + 1 |};
    {| User.agentType := "foodie"; User.conv_context := [];
       User.conv_timestamp := t0 + 2 |} ].
End Scenario.

(** ** Reasoning about calls *)

Module Wp.
Import AgentManager Spec.

Section WithExt.
Context {Ext : Type}.
Implicit Types (s : Manager Ext) (w : World Ext).

Lemma wp_run {A} (m : M A) Q s o s' : wp m Q s -> m s = (o, s') -> Q o s'.
Proof. unfold wp. intros H E. now rewrite E in H. Qed.

Lemma wp_mono {A} (m : M A) (Q Q' : Outcome A -> Manager Ext -> Prop) s :
  wp m Q s -> (forall o s', Q o s' -> Q' o s') -> wp m Q' s.
Proof. unfold wp. auto. Qed.

Lemma wp_ret {A} (a : A) Q s : Q (Ok a) s -> wp (ret a) Q s.
Proof. exact id. Qed.

Lemma wp_throw {A} e (Q : Outcome A -> Manager Ext -> Prop) s :
  Q (Throw e) s -> wp (throw e) Q s.
Proof. exact id. Qed.

Lemma wp_bind {A B} (m : M A) (k : A -> M B) Q s :
  wp m (and_then k Q) s -> wp (bind m k) Q s.
Proof.
  unfold wp, and_then, bind. destruct (m s) as [[a|e] s']; simpl; auto.
Qed.

Lemma wp_try {A} (m : M A) h Q s :
  wp m (or_catch h Q) s -> wp (try_catch m h) Q s.
Proof.
  unfold wp, or_catch, try_catch. destruct (m s) as [[a|e] s']; simpl; auto.
Qed.

Lemma wp_await {A} (o : Outcome A) Q s : Q o s -> wp (await o) Q s.
Proof. exact id. Qed.

Lemma wp_this Q s : Q (Ok s) s -> wp this Q s.
Proof. exact id. Qed.

Lemma wp_modify f Q s : Q (Ok tt) (f s) -> wp (modify f) Q s.
Proof. exact id. Qed.

Lemma wp_update r f Q s :
  Q (Ok tt) (with_heap (alter f r) s) -> wp (update r f) Q s.
Proof. exact id. Qed.

Lemma wp_emit e Q s : Q (Ok tt) (snd (emit e s)) -> wp (emit e) Q s.
Proof. exact id. Qed.

Lemma wp_Date_now w Q s :
  Q (Ok (clock w (clock_reads s))) (snd (Date_now w s)) -> wp (Date_now w) Q s.
Proof. exact id. Qed.

Lemma wp_new_object c Q s :
  Q (Ok (next_ref s)) (snd (new_object c s)) -> wp (new_object c) Q s.
Proof. exact id. Qed.

Lemma wp_read r Q s :
  (forall c, heap s !! r = Some c -> Q (Ok c) s) ->
  (heap s !! r = None -> Q (Throw "Cannot read properties of undefined") s) ->
  wp (read r) Q s.
Proof.
  unfold wp, read. intros HS HN.
  destruct (heap s !! r) as [c|] eqn:E; simpl; auto.
Qed.
End WithExt.

(** One step of a walk through a call. *)
Ltac wp_step :=
  lazymatch goal with
  | |- wp (bind _ _) _ _ => apply wp_bind
  | |- wp (try_catch _ _) _ _ => apply wp_try
  | |- wp (ret _) _ _ => apply wp_ret
  | |- wp (throw _) _ _ => apply wp_throw
  | |- wp (await _) _ _ => apply wp_await
  | |- wp this _ _ => apply wp_this
  | |- wp (modify _) _ _ => apply wp_modify
  | |- wp (update _ _) _ _ => apply wp_update
  | |- wp (emit _) _ _ => apply wp_emit
  | |- wp (Date_now _) _ _ => apply wp_Date_now
  | |- wp (new_object _) _ _ => apply wp_new_object
  | |- and_then _ _ (Ok _) _ => unfold and_then at 1
  | |- and_then _ _ (Throw _) _ => unfold and_then at 1
  | |- or_catch _ _ (Ok _) _ => unfold or_catch at 1
  | |- or_catch _ _ (Throw _) _ => unfold or_catch at 1
  end; cbv beta iota.

(** Projections of the states that the primitives build. *)
Ltac st_simpl :=
  cbn [agents conversationContext isInitialized heap next_ref clock_reads
       trace with_heap with_agents with_isInitialized log_more
       with_conversationContext emit Date_now new_object fst snd] in *.
End Wp.

(** ** Properties of the routing state machine *)

Section Routing.
Import AgentManager Spec Wp.
Context {Ext : Type} (req : Requires Ext).
Implicit Types (s : Manager Ext) (w : World Ext) (c : ConversationContext).

Lemma truthy_str_Some (A : string) : A <> "" -> Js.truthy_str (Some A) = true.
Proof.
  intros H. unfold Js.truthy_str.
  destruct (String.eqb A "") eqn:E; [|reflexivity].
  apply String.eqb_eq in E. contradiction.
Qed.

(** The sticky branch of [determineAgent]: the current agent is
  returned and the manager is left as it was. *)
Lemma determineAgent_sticky w (message : string) (context : nat)
    (userProfile : option Profile) s c (A : string) (agent : Agent Ext) :
  heap s !! context = Some c ->
  currentAgent c = Some A ->
  A <> "" ->
  handoffRequested c = false ->
  agents_get (agents s) A = Some agent ->
  canHandle agent message c = Ok true ->
  determineAgent w message context userProfile s = (Ok A, s).
Proof.
  intros Hc HA Hne Hh Hag Hcan.
  unfold determineAgent, try_catch, bind, read, this.
  rewrite Hc. cbv beta iota.
  rewrite HA, Hh, (truthy_str_Some A Hne). cbn [andb negb from_option id].
  rewrite Hag. unfold await. rewrite Hcan. reflexivity.
Qed.

(** C1. Sticky routing: when the context's [currentAgent] is set to a
  registered agent [A], no handoff is pending and [A.canHandle]
  answers [true], [determineAgent] returns [A] and leaves the
  manager as it was: in particular it emits no request to the
  completion service. *)
Theorem sticky_routing w (message : string) (context : nat)
    (userProfile : option Profile) s c (A : string) (agent : Agent Ext) :
  heap s !! context = Some c ->
  currentAgent c = Some A ->
  A <> "" ->
  handoffRequested c = false ->
  agents_get (agents s) A = Some agent ->
  canHandle agent message c = Ok true ->
  determineAgent w message context userProfile s = (Ok A, s)
  /\ completions (trace (snd (determineAgent w message context userProfile s)))
     = completions (trace s).
Proof.
  intros Hc HA Hne Hh Hag Hcan.
  rewrite (determineAgent_sticky w message context userProfile s c A agent
             Hc HA Hne Hh Hag Hcan).
  split; reflexivity.
Qed.

Lemma log_more_nil s : log_more [] s = s.
Proof. destruct s. unfold log_more. cbn. now rewrite app_nil_r. Qed.

Lemma log_more_app evs evs' s :
  log_more evs' (log_more evs s) = log_more (evs ++ evs') s.
Proof. unfold log_more. cbn. now rewrite app_assoc. Qed.

Lemma emit_log_more e s : emit e s = (Ok tt, log_more [e] s).
Proof. reflexivity. Qed.

Lemma classified_registered (m : list (string * Agent Ext)) w :
  classified m w = "askme" \/ agents_has m (classified m w) = true.
Proof.
  unfold classified. destruct (completion w) as [content|e]; [|now left].
  destruct (agents_has m _) eqn:E; [right|left]; auto.
Qed.

Ltac class_tail c w :=
  exists c; rewrite emit_log_more;
  destruct (completion w) as [content|e];
  [destruct (agents_has _ _); cbn [negb]|];
  rewrite ?emit_log_more, ?log_more_app;
  eexists; (split; [reflexivity|]); (split; [reflexivity|]); reflexivity.

(** [determineAgent] always returns and changes nothing but the
    trace: either it asks the completion service once and follows
    [classified], or it asks nothing and returns a registered agent
    or [askme]. *)
Lemma determineAgent_cases w (message : string) (context : nat)
    (userProfile : option Profile) s :
  (exists c evs,
      heap s !! context = Some c
      /\ determineAgent w message context userProfile s
         = (Ok (classified (agents s) w), log_more evs s)
      /\ completions evs = [Completion (userContent message c userProfile)])
  \/ (exists a evs,
         determineAgent w message context userProfile s = (Ok a, log_more evs s)
         /\ completions evs = []
         /\ (a = "askme" \/ agents_has (agents s) a = true)).
Proof.
  unfold determineAgent, try_catch, bind, read, this, await, ret, classified.
  destruct (heap s !! context) as [c|] eqn:Hc; cbv beta iota.
  2:{ right. eexists _, [_]. rewrite emit_log_more. cbn. repeat split; auto. }
  destruct (Js.truthy_str (currentAgent c) && negb (handoffRequested c))%bool eqn:Hs.
  - destruct (agents_get (agents s) (default "" (currentAgent c))) as [ag|] eqn:Hag.
    + destruct (canHandle ag message c) as [[|]|e] eqn:Hcan; cbv beta iota.
      * right. exists (default "" (currentAgent c)), [].
        rewrite log_more_nil. repeat split; auto.
        right. unfold agents_has. now rewrite Hag.
      * left. class_tail c w.
      * right. eexists _, [_]. rewrite emit_log_more.
        cbn. repeat split; auto.
    + left. class_tail c w.
  - left. class_tail c w.
Qed.

Lemma sweep_loop s0 (cutoffTime : Z) (l : list (string * nat)) s :
  exists evs,
    fold_right
      (fun (entry : string * nat) (rest : M unit) =>
         bind (if stale s0 cutoffTime (snd entry) then
                 bind (modify (with_conversationContext (delete (fst entry))))
                   (fun _ => emit (Log Info ("Cleaned up old context for user "
                                             +:+ fst entry)))
               else ret tt)
           (fun _ => rest))
      (ret tt) l s
    = (Ok tt,
       log_more evs
         (with_conversationContext
            (fun m => fold_left (sweep_entry s0 cutoffTime) l m) s))
    /\ completions evs = [].
Proof.
  revert s. induction l as [|entry l IH]; intros s.
  - exists []. rewrite log_more_nil. destruct s. split; reflexivity.
  - cbn [fold_right fold_left]. unfold bind at 1.
    destruct (stale s0 cutoffTime (snd entry)) eqn:Hst.
    + unfold bind at 1, modify at 1. rewrite emit_log_more.
      destruct (IH (log_more [Log Info ("Cleaned up old context for user " +:+ fst entry)]
                      (with_conversationContext (delete (fst entry)) s)))
        as (evs & E & Hevs).
      rewrite E.
      exists (Log Info ("Cleaned up old context for user " +:+ fst entry) :: evs).
      split; [|exact Hevs].
      unfold log_more, with_conversationContext, sweep_entry. cbn.
      rewrite Hst, <- app_assoc. reflexivity.
    + unfold ret at 1.
      destruct (IH s) as (evs & E & Hevs). rewrite E. exists evs. split; [|exact Hevs].
      unfold log_more, with_conversationContext, sweep_entry. cbn.
      rewrite Hst. reflexivity.
Qed.

Lemma sweep_fold_lookup s0 (cutoffTime : Z) (l : list (string * nat))
    (m : gmap string nat) (userId : string) :
  fold_left (sweep_entry s0 cutoffTime) l m !! userId
  = if existsb (fun entry => bool_decide (fst entry = userId)
                             && stale s0 cutoffTime (snd entry)) l
    then None else m !! userId.
Proof.
  revert m. induction l as [|[u r] l IH]; intros m; [reflexivity|].
  cbn [fold_left existsb fst snd]. rewrite IH. unfold sweep_entry. cbn [fst snd].
  destruct (existsb _ l); [now rewrite orb_true_r|]. rewrite orb_false_r.
  destruct (stale s0 cutoffTime r); [|now rewrite andb_false_r].
  rewrite andb_true_r. case_bool_decide as Hu.
  - subst. apply lookup_delete_eq.
  - now apply lookup_delete_ne.
Qed.

Lemma sweep_lookup s0 (cutoffTime : Z) (m : gmap string nat) (userId : string) :
  fold_left (sweep_entry s0 cutoffTime) (map_to_list m) m !! userId
  = match m !! userId with
    | Some r => if stale s0 cutoffTime r then None else Some r
    | None => None
    end.
Proof.
  rewrite sweep_fold_lookup.
  destruct (existsb _ (map_to_list m)) eqn:Hex.
  - apply existsb_exists in Hex as ([u r] & Hin & Hb). cbn [fst snd] in Hb.
    apply andb_true_iff in Hb as [Hu Hst]. apply bool_decide_eq_true in Hu. subst u.
    apply list_elem_of_In, elem_of_map_to_list in Hin. now rewrite Hin, Hst.
  - destruct (m !! userId) as [r|] eqn:Hm; [|reflexivity].
    destruct (stale s0 cutoffTime r) eqn:Hst; [|reflexivity].
    exfalso. apply not_true_iff_false in Hex. apply Hex.
    apply existsb_exists. exists (userId, r). split.
    + now apply list_elem_of_In, elem_of_map_to_list.
    + cbn [fst snd]. rewrite Hst. now rewrite bool_decide_eq_true_2.
Qed.

(** What [cleanupOldContexts] does: it returns, reads the clock once,
    keeps the heap and the agents, logs, and filters the store. *)
Lemma cleanupOldContexts_spec w s :
  exists evs,
    cleanupOldContexts w s
    = (Ok tt,
       log_more evs
         (with_conversationContext
            (fun m =>
               fold_left
                 (sweep_entry s (clock w (clock_reads s) - idle_threshold))
                 (map_to_list m) m)
            (snd (Date_now w s))))
    /\ completions evs = [].
Proof.
  unfold cleanupOldContexts. unfold bind at 1. cbn [Date_now]. unfold bind at 1, this at 1.
  destruct (sweep_loop (snd (Date_now w s)) (clock w (clock_reads s) - idle_threshold)
              (map_to_list (conversationContext s)) (snd (Date_now w s)))
    as (evs & E & Hevs).
  exists evs. split; [|exact Hevs]. exact E.
Qed.

(** C10. Eviction correctness: a sweep returns, leaves the context
    objects untouched and keeps in the store exactly the entries whose
    context is not stale; a context whose [lastActivity] is strictly
    older than the 24-hour threshold at sweep time is gone, every
    other one is still there and unchanged; when no context is that
    old the store is the same after the sweep. *)
Theorem eviction_correct w s :
  idle_threshold = 86400000
  /\ fst (cleanupOldContexts w s) = Ok tt
  /\ heap (snd (cleanupOldContexts w s)) = heap s
  /\ conversationContext (snd (cleanupOldContexts w s))
     = filter (fun entry : string * nat =>
                 stale s (sweep_time w s - idle_threshold) (snd entry) = false)
         (conversationContext s)
  /\ (forall userId,
         context_of (snd (cleanupOldContexts w s)) userId
         = match context_of s userId with
           | Some c =>
               if bool_decide (lastActivity c < sweep_time w s - idle_threshold)
               then None else Some c
           | None => None
           end)
  /\ ((forall userId c,
          context_of s userId = Some c ->
          ~ lastActivity c < sweep_time w s - idle_threshold) ->
      conversationContext (snd (cleanupOldContexts w s)) = conversationContext s).
Proof.
  destruct (cleanupOldContexts_spec w s) as (evs & E & _). rewrite E.
  cbn [fst snd log_more with_conversationContext heap conversationContext Date_now].
  assert (Hlook : forall userId,
    fold_left (sweep_entry s (sweep_time w s - idle_threshold))
      (map_to_list (conversationContext s)) (conversationContext s) !! userId
    = match conversationContext s !! userId with
      | Some r => if stale s (sweep_time w s - idle_threshold) r then None else Some r
      | None => None
      end) by (intros; apply sweep_lookup).
  split; [reflexivity|]. split; [reflexivity|]. split; [reflexivity|].
  split; [|split].
  - apply map_eq. intros userId. change (clock w (clock_reads s)) with (sweep_time w s).
    rewrite Hlook, map_lookup_filter.
    destruct (conversationContext s !! userId) as [r|]; [|reflexivity].
    cbn. destruct (stale s _ r); [rewrite option_guard_False|rewrite option_guard_True];
      cbn; congruence.
  - intros userId. unfold context_of.
    cbn [fst snd log_more with_conversationContext heap conversationContext Date_now].
    change (clock w (clock_reads s)) with (sweep_time w s). rewrite Hlook.
    destruct (conversationContext s !! userId) as [r|]; [|reflexivity].
    unfold stale. destruct (heap s !! r) as [c|] eqn:Hr; [|now rewrite Hr].
    destruct (bool_decide _); [reflexivity|exact Hr].
  - intros Hfresh. apply map_eq. intros userId.
    change (clock w (clock_reads s)) with (sweep_time w s). rewrite Hlook.
    destruct (conversationContext s !! userId) as [r|] eqn:Hu; [|reflexivity].
    unfold stale. destruct (heap s !! r) as [c|] eqn:Hr; [|reflexivity].
    rewrite bool_decide_eq_false_2; [reflexivity|].
    apply (Hfresh userId c). unfold context_of. now rewrite Hu.
Qed.

Lemma roster_askme :
  agents_get (roster req) "askme"
  = Some (AskMeAgent.new Ext (agent_now req) (askme_handlers req)).
Proof. reflexivity. Qed.

Lemma initialize_new s :
  agents s = [] ->
  initialize req s
  = (Ok tt,
     with_isInitialized true
       (log_more [Log Info "All AI agents initialized successfully"]
          (with_agents (fun _ => roster req) s))).
Proof.
  intros Hs. unfold initialize, try_catch, bind, modify. rewrite emit_log_more.
  unfold with_agents. rewrite Hs. reflexivity.
Qed.

(** The first statement of [processMessage]: afterwards the agents
    are registered. *)
Lemma wp_ensure_initialized (Q : Outcome unit -> Manager Ext -> Prop) s :
  wf req s ->
  (forall evs,
      completions evs = [] ->
      Q (Ok tt) (with_isInitialized true
                   (log_more evs (with_agents (fun _ => roster req) s)))) ->
  wp (if isInitialized s then ret tt else initialize req) Q s.
Proof.
  unfold wf, wp. intros Hwf HQ. destruct (isInitialized s) eqn:Hi.
  - specialize (HQ [] eq_refl). cbn.
    assert (E : with_isInitialized true
                  (log_more [] (with_agents (fun _ => roster req) s)) = s).
    { destruct s. unfold log_more, with_isInitialized, with_agents. cbn in *.
      rewrite app_nil_r. congruence. }
    now rewrite E in HQ.
  - rewrite (initialize_new s Hwf). apply HQ. reflexivity.
Qed.

Lemma wp_determineAgent w (message : string) (context : nat)
    (userProfile : option Profile) (Q : Outcome string -> Manager Ext -> Prop) s :
  (forall a evs,
      (a = "askme" \/ agents_has (agents s) a = true) ->
      (completions evs = [] \/ a = classified (agents s) w) ->
      Q (Ok a) (log_more evs s)) ->
  wp (determineAgent w message context userProfile) Q s.
Proof.
  intros HQ. unfold wp.
  destruct (determineAgent_cases w message context userProfile s)
    as [(c & evs & Hc & E & Hev)|(a & evs & E & Hev & Ha)]; rewrite E; apply HQ; auto.
  apply classified_registered.
Qed.

Lemma wp_cleanupOldContexts w (Q : Outcome unit -> Manager Ext -> Prop) s :
  (forall evs,
      completions evs = [] ->
      Q (Ok tt)
        (log_more evs
           (with_conversationContext
              (fun m =>
                 fold_left (sweep_entry s (sweep_time w s - idle_threshold))
                   (map_to_list m) m)
              (snd (Date_now w s))))) ->
  wp (cleanupOldContexts w) Q s.
Proof.
  intros HQ. unfold wp.
  destruct (cleanupOldContexts_spec w s) as (evs & E & Hev). rewrite E. now apply HQ.
Qed.

(** The [catch] block of [processMessage] once the agents are
    registered: it logs and returns the error envelope. *)
Lemma wp_fallback w (message e : string) (Q : Outcome Envelope -> Manager Ext -> Prop) s :
  agents s = roster req ->
  Q (Ok (error_envelope req w message e))
    (log_more [Log Error ("Error processing message: " +:+ e)] s) ->
  wp (fallback w message e) Q s.
Proof.
  intros Hag HQ. unfold wp, fallback, bind. rewrite emit_log_more.
  unfold this. cbn [agents log_more]. rewrite Hag, roster_askme. exact HQ.
Qed.

(** A walk through a call, one statement at a time; it stops in
    front of [determineAgent]. *)
Ltac walk_pre :=
  first
    [ wp_step
    | lazymatch goal with
      | |- wp (read _) _ _ => apply wp_read; [intros ? ?|intros ?]
      | |- wp (cleanupOldContexts _) _ _ =>
          apply wp_cleanupOldContexts; intros ? ?
      | |- wp (if isInitialized _ then ret tt else initialize _) _ _ =>
          apply wp_ensure_initialized; [assumption|intros ? ?]
      | |- wp (processHandoff _ _ _ _) _ _ => unfold processHandoff; cbv zeta
      | |- wp (respond _ _ _ _ _ _) _ _ => unfold respond
      | |- wp (fallback _ _ _) _ _ => eapply wp_fallback; [reflexivity|]
      | |- wp (getOrCreate _ _) _ _ => unfold getOrCreate
      | |- wp (match ?x with _ => _ end) _ _ => destruct x eqn:?
      | |- and_then _ _ ?o _ => destruct o eqn:?
      end ].

Ltac walk :=
  repeat first
    [ walk_pre
    | lazymatch goal with
      | |- wp (determineAgent _ _ _ _) _ _ =>
          apply wp_determineAgent; intros ? ? ? ?
      end ].

Lemma completions_app (t t' : list Event) :
  completions (t ++ t') = (completions t ++ completions t')%list.
Proof. apply filter_app. Qed.

Lemma classified_askme (m : list (string * Agent Ext)) w :
  misclassified m w -> classified m w = "askme".
Proof.
  unfold misclassified, classified. destruct (completion w); [|reflexivity].
  now intros ->.
Qed.

(** [AskMeAgent.processMessage] always returns, and never asks for a
    handoff. *)
Lemma askme_no_handoff (now : Ext -> Z) handlers (x : Ext) (message : string) c
    (userProfile : option Profile) (o : Outcome AgentResponse) :
  agent_processMessage (AskMeAgent.new Ext now handlers) x message c userProfile = o ->
  exists response, o = Ok response /\ handoff response = None.
Proof.
  intros <-. cbn. unfold AskMeAgent.processMessage, BaseAgent.processMessage_with.
  destruct (handlers x message c userProfile); eexists; split; reflexivity.
Qed.

Ltac no_new_completions :=
  st_simpl; rewrite ?completions_app;
  repeat match goal with
         | H : completions _ = [] |- _ => rewrite H; clear H
         end;
  cbn; rewrite ?app_nil_r; reflexivity.

Lemma heap_ok_alter (f : ConversationContext -> ConversationContext) (r : nat)
    (h : gmap nat ConversationContext) :
  (forall c, context_ok (roster req) c -> context_ok (roster req) (f c)) ->
  heap_ok req h -> heap_ok req (alter f r h).
Proof.
  intros Hf Hh r' c'. destruct (decide (r = r')) as [->|Hne].
  - rewrite lookup_alter_eq. destruct (h !! r') as [c|] eqn:E; [|discriminate].
    cbn. intros [= <-]. apply Hf. eapply Hh, E.
  - rewrite lookup_alter_ne by exact Hne. apply Hh.
Qed.

Lemma heap_ok_insert c (r : nat) (h : gmap nat ConversationContext) :
  context_ok (roster req) c -> heap_ok req h -> heap_ok req (<[r := c]> h).
Proof.
  intros Hc Hh r' c'. destruct (decide (r = r')) as [->|Hne].
  - rewrite lookup_insert_eq. now intros [= <-].
  - rewrite lookup_insert_ne by exact Hne. apply Hh.
Qed.

Lemma registered_askme : agents_has (roster req) "askme" = true.
Proof. reflexivity. Qed.

Ltac heap_ok_tac :=
  repeat first
    [ assumption
    | apply heap_ok_insert; [split; exact I|]
    | apply heap_ok_alter;
      [ let c := fresh "c" in
        let H1 := fresh in let H2 := fresh in
        intros c [H1 H2]; split;
        cbn [registered_or_null currentAgent handoffTarget set_currentAgent
             set_lastActivity push_history set_handoff set_handoffContext];
        auto | ] ].

Lemma initialize_spec s :
  wf req s ->
  initialize req s
  = (Ok tt,
     with_isInitialized true
       (log_more [Log Info "All AI agents initialized successfully"]
          (with_agents (fun _ => roster req) s))).
Proof.
  intros Hwf. unfold wf in Hwf. destruct (isInitialized s).
  - unfold initialize, try_catch, bind, modify. rewrite emit_log_more.
    unfold with_agents. rewrite Hwf. reflexivity.
  - now apply initialize_new.
Qed.

Lemma initialize_invariant s : invariant req s -> invariant req (snd (initialize req s)).
Proof.
  intros (Hwf & Hun & Hheap). rewrite (initialize_spec s Hwf).
  split; [reflexivity|]. split; [intros; discriminate|]. exact Hheap.
Qed.

Lemma processHandoff_invariant w (userId targetAgent : string)
    (handoffContext : option HandoffContext) s :
  agents_has (roster req) targetAgent = true ->
  invariant req s ->
  invariant req (snd (processHandoff w userId targetAgent handoffContext s)).
Proof.
  intros Hreg (Hwf & Hun & Hheap).
  change (wp (processHandoff w userId targetAgent handoffContext)
            (fun _ s' => invariant req s') s).
  walk.
  all: st_simpl.
  all: (split; [exact Hwf|split]); st_simpl.
  all: try (intros Hi; destruct (Hun Hi) as [_ Hc];
            rewrite Hc, lookup_empty in *; try discriminate; now apply Hun).
  all: heap_ok_tac.
Qed.

Lemma clearUserContext_invariant (userId : string) s :
  invariant req s -> invariant req (snd (clearUserContext userId s)).
Proof.
  intros (Hwf & Hun & Hheap). split; [exact Hwf|]. split; [|exact Hheap].
  cbn. intros Hi. destruct (Hun Hi) as [Hh Hc]. split; [exact Hh|].
  rewrite Hc. apply delete_empty.
Qed.

Lemma cleanupOldContexts_invariant w s :
  invariant req s -> invariant req (snd (cleanupOldContexts w s)).
Proof.
  intros (Hwf & Hun & Hheap).
  destruct (cleanupOldContexts_spec w s) as (evs & E & _). rewrite E.
  split; [exact Hwf|]. split; [|exact Hheap].
  cbn. intros Hi. destruct (Hun Hi) as [Hh Hc]. split; [exact Hh|].
  rewrite Hc, map_to_list_empty. reflexivity.
Qed.

Lemma invariant_new : invariant req new.
Proof.
  split; [reflexivity|]. split; [intros _; split; reflexivity|].
  intros r c Hr. cbn in Hr. now rewrite lookup_empty in Hr.
Qed.

(** C2, as the code has it.  A turn that begins with a pending
    handoff ([handoffRequested] true) does not consult the current
    agent: [determineAgent] issues one classification request and
    follows its answer ([classified]: the agent the service names when
    it is registered, [askme] otherwise), whatever [handoffTarget]
    holds and whatever any [canHandle] would say. *)
Theorem deferred_handoff_classifies w (message : string) (context : nat)
    (userProfile : option Profile) s c :
  heap s !! context = Some c ->
  handoffRequested c = true ->
  exists evs,
    determineAgent w message context userProfile s
    = (Ok (classified (agents s) w), log_more evs s)
    /\ completions evs = [Completion (userContent message c userProfile)].
Proof.
  intros Hc Hreq.
  unfold determineAgent, try_catch, bind, read, this, await, ret, classified.
  rewrite Hc. cbv beta iota. rewrite Hreq, andb_false_r.
  rewrite emit_log_more.
  destruct (completion w) as [content|e];
    [destruct (agents_has _ _); cbn [negb]|];
    rewrite ?emit_log_more, ?log_more_app;
    eexists; (split; [reflexivity|]); reflexivity.
Qed.

(** C8, as the code has it.  When an intent handler throws inside
    the [try] block, [processMessage] of the three domain agents does
    not throw: Foodie and RideNow return the apology of
    [BaseAgent.handleError], which carries [error: true] at the top
    level and no metadata; AskMe returns its own formatted apology,
    whose metadata holds the agent and the timestamp and no error
    flag. *)
Theorem degraded_response (now : Ext -> Z)
    (handlers : Ext -> string -> ConversationContext -> option Profile -> Outcome Reply)
    (x : Ext) (message : string) c (userProfile : option Profile) (e : string) :
  handlers x message c userProfile = Throw e ->
  FoodieAgent.processMessage Ext now handlers x message c userProfile
  = Ok (BaseAgent.handleError message e)
  /\ RideNowAgent.processMessage Ext now handlers x message c userProfile
     = Ok (BaseAgent.handleError message e)
  /\ AskMeAgent.processMessage Ext now handlers x message c userProfile
     = Ok (AskMeAgent.handleError Ext now x message e)
  /\ error (BaseAgent.handleError message e) = Some true
  /\ metadata (BaseAgent.handleError message e) = None
  /\ error (AskMeAgent.handleError Ext now x message e) = None
  /\ metadata (AskMeAgent.handleError Ext now x message e)
     = Some [("agent", Js.VStr "AskMe AI"); ("timestamp", Js.VNum (now x))].
Proof.
  intros He.
  unfold FoodieAgent.processMessage, RideNowAgent.processMessage,
    AskMeAgent.processMessage, BaseAgent.processMessage_with.
  rewrite He. repeat split; reflexivity.
Qed.

Lemma getAgentStatus_first s (name : string) (agent : Agent Ext)
    (rest : list (string * Agent Ext)) :
  agents s = (name, agent) :: rest ->
  isActive agent = Js.PBool true ->
  getAgentStatus s = Throw "agent.isActive is not a function".
Proof.
  intros Hs Ha. unfold getAgentStatus. rewrite Hs.
  cbn [getAgentStatus_loop]. rewrite Ha. reflexivity.
Qed.

(** C9. After [initialize] the roster query lists the six agents, and
    [getAgentStatus] throws: [agent.isActive] is the boolean the
    [BaseAgent] constructor stores, and the loop calls it. *)
Theorem getAgentStatus_raises :
  getAvailableAgents (snd (initialize req new))
  = ["foodie"; "ridenow"; "travelbuddy"; "shopsmart"; "grocer"; "askme"]
  /\ getAgentStatus (snd (initialize req new))
     = Throw "agent.isActive is not a function".
Proof.
  rewrite (initialize_new new eq_refl). split; [reflexivity|].
  eapply getAgentStatus_first; reflexivity.
Qed.

(** A response with an auto-handoff directive in the first turn of
    a user: the new context object is not in the store yet when
    [processHandoff] looks it up, so the handoff throws and the store
    still has nothing for the user. *)
Lemma auto_handoff_unsaved_context w (userId message : string)
    (userProfile : option Profile) (context : nat) (agentType : string) s
    c agent response h :
  conversationContext s !! userId = None ->
  heap s !! context = Some c ->
  agents_get (agents s) agentType = Some agent ->
  (forall c', agent_processMessage agent (ext w) message c' userProfile = Ok response) ->
  handoff response = Some h ->
  autoHandoff h = true ->
  fst (respond w userId message userProfile context agentType s)
  = Throw "No conversation context found for handoff"
  /\ conversationContext
       (snd (respond w userId message userProfile context agentType s)) !! userId
     = None.
Proof.
  intros Hstore Hheap Hag Hresp Hh Hauto.
  change (wp (respond w userId message userProfile context agentType)
            (fun o s' =>
               o = Throw "No conversation context found for handoff"
               /\ conversationContext s' !! userId = None) s).
  repeat walk_pre; st_simpl;
    repeat first
      [ progress simplify_eq
      | match goal with
        | H : context [agent_processMessage agent _ _ _ _] |- _ =>
            rewrite Hresp in H
        | H : handoff response = Some ?h' |- _ =>
            rewrite Hh in H
        | H : handoff response = None |- _ =>
            rewrite Hh in H
        | H : context [autoHandoff h] |- _ => rewrite Hauto in H
        | H : agents_get (agents s) agentType = None |- _ =>
            rewrite Hag in H
        | H : conversationContext s !! userId = Some _ |- _ =>
            rewrite Hstore in H
        | H : context [alter _ _ _ !! _] |- _ => rewrite lookup_alter_eq in H
        | H : context [_ <$> heap s !! context] |- _ =>
            rewrite Hheap in H; cbn in H
        end ];
    try discriminate.
  all: split; [reflexivity|exact Hstore].
Qed.

(** Every state that calls lead to from a new manager is well formed,
whatever the agents answer. *)
Lemma wf_run (call : Call) s : wf req s -> wf req (run req call s).
Proof.
  intros Hwf. destruct call as [|w u m p|w u t hc|u|u|w]; unfold run.
  - rewrite (initialize_spec s Hwf). reflexivity.
  - change (wp (processMessage req w u m p) (fun _ s' => wf req s') s).
    unfold processMessage. walk. all: reflexivity.
  - change (wp (processHandoff w u t hc) (fun _ s' => wf req s') s).
    walk. all: exact Hwf.
  - exact Hwf.
  - exact Hwf.
  - destruct (cleanupOldContexts_spec w s) as (evs & E & _). rewrite E. exact Hwf.
Qed.

Lemma wf_run_all (calls : list Call) : wf req (run_all req calls new).
Proof.
  assert (H : forall s, wf req s -> wf req (run_all req calls s)).
  { induction calls as [|call calls IH]; intros s Hs; [exact Hs|].
    cbn [run_all fold_left]. apply IH. now apply wf_run. }
  apply H. reflexivity.
Qed.

(** ** Further properties of the manager *)

(** [determineAgent] never throws: it returns [askme] or a registered
    agent, changes nothing in the manager but its trace, and sends at
    most one request to the completion service. *)
Theorem determineAgent_never_throws w (message : string) (context : nat)
    (userProfile : option Profile) s :
  exists a evs,
    determineAgent w message context userProfile s = (Ok a, log_more evs s)
    /\ (a = "askme" \/ agents_has (agents s) a = true)
    /\ (length (completions evs) <= 1)%nat.
Proof.
  destruct (determineAgent_cases w message context userProfile s)
    as [(c & evs & Hc & E & Hev)|(a & evs & E & Hev & Ha)].
  - exists (classified (agents s) w), evs. split; [exact E|]. split.
    + apply classified_registered.
    + rewrite Hev. cbn. lia.
  - exists a, evs. split; [exact E|]. split; [exact Ha|]. rewrite Hev. cbn. lia.
Qed.

Lemma wp_determineAgent_count w (message : string) (context : nat)
    (userProfile : option Profile) (Q : Outcome string -> Manager Ext -> Prop) s :
  (forall a evs,
      (a = "askme" \/ agents_has (agents s) a = true) ->
      (length (completions evs) <= 1)%nat ->
      Q (Ok a) (log_more evs s)) ->
  wp (determineAgent w message context userProfile) Q s.
Proof.
  intros HQ. unfold wp.
  destruct (determineAgent_cases w message context userProfile s)
    as [(c & evs & Hc & E & Hev)|(a & evs & E & Hev & Ha)]; rewrite E; apply HQ; auto.
  - apply classified_registered.
  - rewrite Hev. cbn. lia.
  - rewrite Hev. cbn. lia.
Qed.

(** A turn sends at most one request to the completion service,
    whatever the agents answer and however the turn ends. *)
Theorem turn_classifies_at_most_once w (userId message : string)
    (userProfile : option Profile) s :
  wf req s ->
  exists evs,
    completions (trace (snd (processMessage req w userId message userProfile s)))
    = (completions (trace s) ++ evs)%list
    /\ (length evs <= 1)%nat.
Proof.
  intros Hwf.
  change (wp (processMessage req w userId message userProfile)
            (fun _ s' =>
               exists evs,
                 completions (trace s') = (completions (trace s) ++ evs)%list
                 /\ (length evs <= 1)%nat) s).
  unfold processMessage. repeat walk_pre.
  all: apply wp_determineAgent_count; intros a evs0 Ha Hcount.
  all: repeat walk_pre.
  all: st_simpl.
  all: exists (completions evs0); split; [|exact Hcount].
  all: rewrite ?completions_app.
  all: repeat match goal with
              | H : completions _ = [] |- _ => rewrite H; clear H
              end.
  all: cbn; rewrite ?app_nil_r; reflexivity.
Qed.

(** The history of a user who has a stored context only grows: after
    a turn, however it ends, the context object holds the old history
    followed by the inbound message and by at most two further entries
    (the agent's reply, the welcome of a handoff), none of them a user
    entry, and [lastActivity] is the first clock reading of the turn. *)
Theorem turn_appends_to_history w (userId message : string)
    (userProfile : option Profile) s (r : nat) c0 :
  wf req s ->
  conversationContext s !! userId = Some r ->
  heap s !! r = Some c0 ->
  exists c' rest,
    heap (snd (processMessage req w userId message userProfile s)) !! r = Some c'
    /\ lastActivity c' = clock w (clock_reads s)
    /\ history c'
       = (history c0 ++ UserEntry message (clock w (S (clock_reads s))) :: rest)%list
    /\ (length rest <= 2)%nat
    /\ Forall (fun h => entry_type h <> "user") rest.
Proof.
  intros Hwf Hstore Hheap.
  change (wp (processMessage req w userId message userProfile)
            (fun _ s' =>
               exists c' rest,
                 heap s' !! r = Some c'
                 /\ lastActivity c' = clock w (clock_reads s)
                 /\ history c'
                    = (history c0
                       ++ UserEntry message (clock w (S (clock_reads s))) :: rest)%list
                 /\ (length rest <= 2)%nat
                 /\ Forall (fun h => entry_type h <> "user") rest) s).
  unfold processMessage. walk.
  all: st_simpl.
  all: simplify_eq.
  all: try congruence.
  all: repeat match goal with
              | H : conversationContext _ !! _ = Some _ |- _ =>
                  rewrite Hstore in H; simplify_eq
              end.
  all: rewrite ?lookup_alter_eq, Hheap.
  all: cbn; eexists _, _; split; [reflexivity|].
  all: cbn; split; [reflexivity|].
  all: rewrite <- ?app_assoc; cbn.
  all: split; [reflexivity|].
  all: split; [cbn; lia|].
  all: repeat constructor; discriminate.
Qed.

(** What the reads of a walk found in the heap. *)
Ltac heap_reads :=
  repeat match goal with
         | H : context [alter _ ?r _ !! ?r] |- _ => rewrite lookup_alter_eq in H
         | H : context [<[?r := _]> _ !! ?r] |- _ => rewrite lookup_insert_eq in H
         | H : context [_ <$> _] |- _ =>
             progress cbn [fmap option_fmap option_map] in H
         | H : Some _ = Some _ |- _ => injection H as H
         end.

Ltac ctx_simpl :=
  cbn [currentAgent history handoffRequested lastActivity handoffTarget
       handoffReason handoffContext set_currentAgent set_lastActivity
       push_history set_handoff set_handoffContext] in *.


(** A successful turn is recorded: when no two clock readings of the
    turn are 24 hours apart, a turn that ends without error leaves the
    context of the user in the store, with the agent of the envelope
    as [currentAgent] and the reply of the envelope as the last entry
    of the history. *)
Theorem successful_turn_is_recorded w (userId message : string)
    (userProfile : option Profile) s env :
  wf req s ->
  short_turn w s ->
  fst (processMessage req w userId message userProfile s) = Ok env ->
  env_error env = None ->
  exists c' earlier last,
    context_of (snd (processMessage req w userId message userProfile s)) userId
    = Some c'
    /\ currentAgent c' = Some (env_agent env)
    /\ history c' = (earlier ++ [last])%list
    /\ entry_content last = env_message env
    /\ entry_type last <> "user".
Proof.
  intros Hwf Hshort.
  change (wp (processMessage req w userId message userProfile)
            (fun o s' =>
               o = Ok env -> env_error env = None ->
               exists c' earlier last,
                 context_of s' userId = Some c'
                 /\ currentAgent c' = Some (env_agent env)
                 /\ history c' = (earlier ++ [last])%list
                 /\ entry_content last = env_message env
                 /\ entry_type last <> "user") s).
  unfold processMessage. walk.
  all: st_simpl.
  all: intros Henv Herr; simplify_eq.
  all: try discriminate Herr.
  all: heap_reads.
  all: try match goal with
           | H : context [heap ?s0 !! ?n] |- _ => destruct (heap s0 !! n) eqn:?
           end.
  all: heap_reads; subst; ctx_simpl; try discriminate.
  all: unfold context_of; st_simpl.
  all: rewrite ?sweep_lookup, ?lookup_insert_eq.
  all: unfold stale, sweep_time; st_simpl.
  all: rewrite ?lookup_alter_eq, ?lookup_insert_eq.
  all: repeat match goal with
              | H : conversationContext _ !! _ = Some _ |- _ => rewrite H
              | H : heap _ !! _ = Some _ |- _ => rewrite H
              end.
  all: cbn [fmap option_fmap option_map]; ctx_simpl.
  all: try match goal with
           | Hs : short_turn ?w0 _
             |- context [bool_decide (clock ?w0 ?i < clock ?w0 ?j - idle_threshold)] =>
               rewrite (bool_decide_eq_false_2
                          (clock w0 i < clock w0 j - idle_threshold))
                 by (specialize (Hs i j ltac:(lia) ltac:(lia)); lia)
           end.
  all: rewrite ?lookup_alter_eq, ?lookup_insert_eq.
  all: repeat match goal with
              | H : heap _ !! _ = Some _ |- _ => rewrite H
              end.
  all: cbn [fmap option_fmap option_map]; ctx_simpl.
  all: eexists _, _, _; (split; [reflexivity|]); ctx_simpl.
  all: cbn [env_agent env_message entry_content entry_type].
  all: repeat split; try reflexivity; try discriminate.
  all: match goal with
       | H : bool_decide (_ ≠ _) = false |- _ =>
           apply bool_decide_eq_false in H; apply dec_stable in H; exact H
       end.
Qed.

Lemma askme_turn w (userId message : string)
    (userProfile : option Profile) s (r : nat) c :
  wf req s ->
  conversationContext s !! userId = Some r ->
  heap s !! r = Some c ->
  currentAgent c = Some "askme" ->
  handoffRequested c = false ->
  exists env c',
    fst (processMessage req w userId message userProfile s) = Ok env
    /\ env_agent env = "askme"
    /\ env_error env = None
    /\ env_handoff env = Some HNull
    /\ completions (trace (snd (processMessage req w userId message userProfile s)))
       = completions (trace s)
    /\ heap (snd (processMessage req w userId message userProfile s)) !! r = Some c'
    /\ currentAgent c' = Some "askme"
    /\ handoffRequested c' = false.
Proof.
  intros Hwf Hstore Hheap HA Hh.
  change (wp (processMessage req w userId message userProfile)
            (fun o s' =>
               exists env c',
                 o = Ok env
                 /\ env_agent env = "askme"
                 /\ env_error env = None
                 /\ env_handoff env = Some HNull
                 /\ completions (trace s') = completions (trace s)
                 /\ heap s' !! r = Some c'
                 /\ currentAgent c' = Some "askme"
                 /\ handoffRequested c' = false) s).
  unfold processMessage. repeat walk_pre; st_simpl; try congruence.
  unfold wp.
  match goal with
  | |- context [determineAgent w message ?r' userProfile ?s0] =>
      rewrite (determineAgent_sticky w message r' userProfile s0
                 (push_history (UserEntry message (clock w (S (clock_reads s))))
                    (set_lastActivity (clock w (clock_reads s)) c))
                 "askme"
                 (AskMeAgent.new Ext (agent_now req) (askme_handlers req)))
  end.
  - cbn [fst snd]. unfold and_then.
    repeat walk_pre; st_simpl;
      repeat match goal with
             | H : conversationContext _ !! _ = _ |- _ =>
                 rewrite Hstore in H; first [injection H as <-|discriminate H]
             end;
      heap_reads; try rewrite Hheap in *;
      heap_reads; subst; ctx_simpl; try discriminate;
      try match goal with
          | H : bool_decide (?x ≠ ?y) = true |- _ =>
              apply bool_decide_eq_true in H; exfalso; apply H; congruence
          end;
      try (rewrite roster_askme in *; simplify_eq);
      try match goal with
          | H : agent_processMessage (AskMeAgent.new _ _ _) _ _ _ _ = _ |- _ =>
              apply askme_no_handoff in H; destruct H as (? & ? & ?); simplify_eq
          end.
    rewrite !lookup_alter_eq, Hheap. cbn [fmap option_fmap option_map].
    eexists _, _. split; [reflexivity|]. cbn [env_agent env_error env_handoff].
    split; [reflexivity|]. split; [reflexivity|].
    split; [reflexivity|].
    split; [no_new_completions|].
    split; [reflexivity|]. ctx_simpl. split; [exact HA|exact Hh].
  - st_simpl. simplify_eq. rewrite !lookup_alter_eq, Hheap. reflexivity.
  - exact HA.
  - discriminate.
  - exact Hh.
  - reflexivity.
  - reflexivity.
Qed.

(** A conversation that is with [askme] stays with [askme]: when the
    stored context names [askme] and no handoff is pending, the turn is
    answered by [askme] whatever the message says, without a request to
    the completion service, and the context object names [askme] and
    has no pending handoff afterwards. *)
Theorem askme_keeps_conversation w (userId message : string)
    (userProfile : option Profile) s (r : nat) c :
  wf req s ->
  conversationContext s !! userId = Some r ->
  heap s !! r = Some c ->
  currentAgent c = Some "askme" ->
  handoffRequested c = false ->
  exists env c',
    fst (processMessage req w userId message userProfile s) = Ok env
    /\ env_agent env = "askme"
    /\ env_error env = None
    /\ env_handoff env = Some HNull
    /\ completions (trace (snd (processMessage req w userId message userProfile s)))
       = completions (trace s)
    /\ heap (snd (processMessage req w userId message userProfile s)) !! r = Some c'
    /\ currentAgent c' = Some "askme"
    /\ handoffRequested c' = false.
Proof. apply askme_turn. Qed.

(** The handoff route cannot take a conversation away from [askme]
    while no handoff is pending: the route sends the request through
    [processMessage] as the message [Hand me over to <target>], which
    [askme] accepts like any other; the reply comes from [askme] with
    [handoff: null], whatever the target, and the context still names
    [askme].  (With a handoff pending the turn is classified anew, and
    may go elsewhere.) *)
Theorem handoff_route_stays_with_askme w (userId targetAgent : string)
    (userProfile : option Profile) s (r : nat) c :
  wf req s ->
  conversationContext s !! userId = Some r ->
  heap s !! r = Some c ->
  currentAgent c = Some "askme" ->
  handoffRequested c = false ->
  targetAgent <> "" ->
  exists env c',
    fst (ChatRoutes.postHandoff req w userId (Some targetAgent) userProfile s)
    = Ok (Routes.Success 200 env)
    /\ env_agent env = "askme"
    /\ env_handoff env = Some HNull
    /\ heap (snd (ChatRoutes.postHandoff req w userId (Some targetAgent) userProfile s))
         !! r
       = Some c'
    /\ currentAgent c' = Some "askme".
Proof.
  intros Hwf Hstore Hheap HA Hh Hne.
  destruct (askme_turn w userId ("Hand me over to " +:+ targetAgent) userProfile
              s r c Hwf Hstore Hheap HA Hh)
    as (env & c' & Hfst & Hagent & _ & Hhand & _ & Hc' & Hcur & _).
  exists env, c'. unfold ChatRoutes.postHandoff.
  rewrite (truthy_str_Some targetAgent Hne). cbn [default from_option id].
  unfold bind.
  destruct (processMessage req w userId ("Hand me over to " +:+ targetAgent)
              userProfile s) as [o s'] eqn:E.
  cbn [fst snd] in *. subst o. cbn [fst snd ret].
  repeat split; assumption.
Qed.

Lemma store_ok_sub (n n' : nat) (m m' : gmap string nat) :
  (n <= n')%nat ->
  (forall userId r, m' !! userId = Some r -> m !! userId = Some r) ->
  store_ok n m -> store_ok n' m'.
Proof.
  intros Hn Hsub [Hlt Hinj]. split.
  - intros u r Hu. apply Hsub, Hlt in Hu. lia.
  - intros u u' r Hu Hu'. eapply Hinj; apply Hsub; eassumption.
Qed.

Lemma store_ok_insert_held (n : nat) (m : gmap string nat) (userId : string) (r : nat) :
  m !! userId = Some r -> store_ok n m -> store_ok n (<[userId := r]> m).
Proof. intros Hu. now rewrite (insert_id m userId r Hu). Qed.

Lemma store_ok_insert_new (n : nat) (m : gmap string nat) (userId : string) :
  store_ok n m -> store_ok (S n) (<[userId := n]> m).
Proof.
  intros [Hlt Hinj]. split.
  - intros u r. destruct (decide (userId = u)) as [->|Hne].
    + rewrite lookup_insert_eq. intros [= <-]. lia.
    + rewrite lookup_insert_ne by exact Hne. intros Hu. apply Hlt in Hu. lia.
  - intros u u' r.
    destruct (decide (userId = u)) as [->|Hne];
      destruct (decide (u = u')) as [->|Hne']; try reflexivity.
    + rewrite lookup_insert_eq, lookup_insert_ne by exact Hne'.
      intros [= <-] Hu'. apply Hlt in Hu'. lia.
    + destruct (decide (userId = u')) as [->|Hne''].
      * rewrite lookup_insert_eq, lookup_insert_ne by exact Hne.
        intros Hu [= <-]. apply Hlt in Hu. lia.
      * rewrite !lookup_insert_ne by assumption. apply Hinj.
Qed.

Lemma store_ok_sweep (n : nat) s0 (cutoffTime : Z) (m : gmap string nat) :
  store_ok n m ->
  store_ok n (fold_left (sweep_entry s0 cutoffTime) (map_to_list m) m).
Proof.
  apply store_ok_sub; [lia|]. intros u r. rewrite sweep_lookup.
  destruct (m !! u) as [r'|]; [|discriminate].
  now destruct (stale s0 cutoffTime r').
Qed.

Lemma store_ok_delete (n : nat) (m : gmap string nat) (userId : string) :
  store_ok n m -> store_ok n (delete userId m).
Proof.
  apply store_ok_sub; [lia|]. intros u r.
  destruct (decide (userId = u)) as [->|Hne].
  - now rewrite lookup_delete_eq.
  - now rewrite lookup_delete_ne.
Qed.

Lemma alloc_alter (n : nat) (f : ConversationContext -> ConversationContext)
    (r : nat) (h : gmap nat ConversationContext) :
  (forall r', (r' < n)%nat -> is_Some (h !! r')) ->
  forall r', (r' < n)%nat -> is_Some (alter f r h !! r').
Proof.
  intros Hh r' Hr'. destruct (decide (r = r')) as [->|Hne].
  - rewrite lookup_alter_eq. destruct (Hh r' Hr') as [c ->]. now eexists.
  - rewrite lookup_alter_ne by exact Hne. now apply Hh.
Qed.

Lemma alloc_insert (n : nat) c (h : gmap nat ConversationContext) :
  (forall r', (r' < n)%nat -> is_Some (h !! r')) ->
  forall r', (r' < S n)%nat -> is_Some (<[n := c]> h !! r').
Proof.
  intros Hh r' Hr'. destruct (decide (n = r')) as [->|Hne].
  - rewrite lookup_insert_eq. now eexists.
  - rewrite lookup_insert_ne by exact Hne. apply Hh. lia.
Qed.

Ltac refs_ok_tac :=
  repeat first
    [ assumption
    | apply alloc_alter
    | apply alloc_insert
    | apply store_ok_sweep
    | apply store_ok_insert_new
    | apply store_ok_insert_held; [assumption|]
    | eapply store_ok_sub; [|intros ? ? HH; exact HH|eassumption]; lia ].

Lemma processMessage_refs_ok w (userId message : string)
    (userProfile : option Profile) s :
  wf req s -> refs_ok s ->
  refs_ok (snd (processMessage req w userId message userProfile s)).
Proof.
  intros Hwf [Hstore Halloc].
  change (wp (processMessage req w userId message userProfile)
            (fun _ s' => refs_ok s') s).
  unfold processMessage. walk.
  all: st_simpl.
  all: split; st_simpl.
  all: refs_ok_tac.
Qed.

Lemma processHandoff_refs_ok w (userId targetAgent : string)
    (handoffContext : option HandoffContext) s :
  refs_ok s -> refs_ok (snd (processHandoff w userId targetAgent handoffContext s)).
Proof.
  intros [Hstore Halloc].
  change (wp (processHandoff w userId targetAgent handoffContext)
            (fun _ s' => refs_ok s') s).
  walk.
  all: st_simpl.
  all: split; st_simpl.
  all: refs_ok_tac.
Qed.

Lemma refs_ok_run (call : Call) s :
  wf req s -> refs_ok s -> refs_ok (run req call s).
Proof.
  intros Hwf Hrefs. destruct call as [|w u m p|w u t hc|u|u|w]; unfold run.
  - rewrite (initialize_spec s Hwf). exact Hrefs.
  - now apply processMessage_refs_ok.
  - now apply processHandoff_refs_ok.
  - exact Hrefs.
  - destruct Hrefs as [Hstore Halloc]. split; [|exact Halloc].
    now apply store_ok_delete.
  - destruct (cleanupOldContexts_spec w s) as (evs & E & _). rewrite E.
    destruct Hrefs as [Hstore Halloc]. split; [|exact Halloc].
    now apply store_ok_sweep.
Qed.

Lemma refs_ok_run_all (calls : list Call) s :
  wf req s -> refs_ok s -> refs_ok (run_all req calls s).
Proof.
  revert s. induction calls as [|call calls IH]; intros s Hwf Hrefs; [exact Hrefs|].
  cbn [run_all fold_left]. apply IH; [now apply wf_run|now apply refs_ok_run].
Qed.

Lemma refs_ok_new : refs_ok (Ext := Ext) new.
Proof.
  split; [split|]; cbn.
  - intros u r Hu. now rewrite lookup_empty in Hu.
  - intros u u' r Hu. now rewrite lookup_empty in Hu.
  - intros r Hr. lia.
Qed.

(** Context objects are never shared: after any sequence of calls
    into a new manager, every user of the store has a context object
    in the heap, and no two users hold the same object. *)
Theorem contexts_are_not_shared (calls : list Call) (userId : string) (r : nat) :
  conversationContext (run_all req calls new) !! userId = Some r ->
  is_Some (context_of (run_all req calls new) userId)
  /\ forall userId',
      conversationContext (run_all req calls new) !! userId' = Some r ->
      userId' = userId.
Proof.
  intros Hu.
  destruct (refs_ok_run_all calls new eq_refl refs_ok_new) as [[Hlt Hinj] Halloc].
  split.
  - unfold context_of. rewrite Hu. apply Halloc. eapply Hlt, Hu.
  - intros u' Hu'. eapply Hinj; eassumption.
Qed.

(** A turn of one user leaves the contexts of the other users as they
    are: a context that another user has after the turn is the one
    that user had before it. *)
Theorem turn_leaves_other_users w (userId message : string)
    (userProfile : option Profile) s (other : string) c :
  wf req s ->
  refs_ok s ->
  other <> userId ->
  context_of (snd (processMessage req w userId message userProfile s)) other = Some c ->
  context_of s other = Some c.
Proof.
  intros Hwf [[Hlt Hinj] Halloc] Hother.
  change (wp (processMessage req w userId message userProfile)
            (fun _ s' => context_of s' other = Some c -> context_of s other = Some c) s).
  unfold processMessage.
  walk; st_simpl; unfold context_of; st_simpl;
    rewrite ?sweep_lookup, ?lookup_insert_ne by congruence;
    (destruct (conversationContext s !! other) as [r'|] eqn:Ho; try discriminate);
    try match goal with
        | |- context [stale ?s0 ?t ?r0] => destruct (stale s0 t r0); try discriminate
        end;
    assert (Hr' : (r' < next_ref s)%nat) by (eapply Hlt, Ho);
    repeat match goal with
           | H : conversationContext s !! userId = Some ?n |- _ =>
               assert (n <> r') by (intros ->; apply Hother; eapply Hinj; eassumption);
               clear H
           end;
    rewrite ?lookup_alter_ne, ?lookup_insert_ne by lia;
    rewrite ?lookup_alter_ne by assumption;
    try exact id.
Qed.

(** A handoff for a user who has no context in the store throws, and
    changes nothing in the manager but the log. *)
Theorem processHandoff_without_context w (userId targetAgent : string)
    (handoffContext : option HandoffContext) s :
  conversationContext s !! userId = None ->
  processHandoff w userId targetAgent handoffContext s
  = (Throw "No conversation context found for handoff",
     log_more
       [Log Error "Error processing handoff: No conversation context found for handoff"]
       s).
Proof.
  intros Hstore.
  unfold processHandoff, try_catch, bind, this, throw. rewrite Hstore.
  rewrite emit_log_more. reflexivity.
Qed.

(** A handoff to an agent that is not registered throws, but only
    after the context of the user has been handed over: the stored
    context names the unregistered agent as [currentAgent], and the
    pending handoff is cleared. *)
Theorem processHandoff_unregistered_target w (userId targetAgent : string)
    (handoffContext : option HandoffContext) s (r : nat) c :
  conversationContext s !! userId = Some r ->
  heap s !! r = Some c ->
  agents_get (agents s) targetAgent = None ->
  fst (processHandoff w userId targetAgent handoffContext s)
  = Throw ("Target agent " +:+ targetAgent +:+ " not found")
  /\ context_of (snd (processHandoff w userId targetAgent handoffContext s)) userId
     = Some (handed_over (default empty_handoffContext handoffContext) targetAgent c)
  /\ clock_reads (snd (processHandoff w userId targetAgent handoffContext s))
     = clock_reads s.
Proof.
  intros Hstore Hheap Hag.
  change (wp (processHandoff w userId targetAgent handoffContext)
            (fun o s' =>
               o = Throw ("Target agent " +:+ targetAgent +:+ " not found")
               /\ context_of s' userId
                  = Some (handed_over (default empty_handoffContext handoffContext)
                            targetAgent c)
               /\ clock_reads s' = clock_reads s) s).
  repeat walk_pre; st_simpl; try congruence.
  injection Hstore as ->. unfold context_of. st_simpl.
  match goal with
  | H : conversationContext s !! userId = Some _ |- _ => rewrite H
  end.
  rewrite !lookup_alter_eq, Hheap. repeat split; reflexivity.
Qed.

(** A handoff for a stored user to a registered agent whose
    [handleHandoff] answers: the envelope comes from the target and
    has [handoff: true]; the context names the target, has no pending
    handoff, keeps the handoff context, and its history gains exactly
    one handoff entry, from the agent that the handoff context names
    (or [unknown]) to the target, with the welcome of the target. *)
Theorem processHandoff_transfers w (userId targetAgent : string)
    (handoffContext : option HandoffContext) s (r : nat) c
    (agent : Agent Ext) (response : AgentResponse) :
  conversationContext s !! userId = Some r ->
  heap s !! r = Some c ->
  agents_get (agents s) targetAgent = Some agent ->
  handleHandoff agent (ext w) (default empty_handoffContext handoffContext)
    (handed_over (default empty_handoffContext handoffContext) targetAgent c)
  = Ok response ->
  fst (processHandoff w userId targetAgent handoffContext s)
  = Ok {| env_agent := targetAgent;
          env_message := response_message response;
          env_actions := Some (default [] (actions response));
          env_suggestions := Some (default [] (suggestions response));
          env_handoff := Some HTrue;
          env_metadata := Some (default [] (metadata response));
          env_error := None;
          env_originalError := None |}
  /\ context_of (snd (processHandoff w userId targetAgent handoffContext s)) userId
     = Some (push_history
               (handoff_entry (default empty_handoffContext handoffContext)
                  targetAgent response (clock w (clock_reads s)))
               (handed_over (default empty_handoffContext handoffContext)
                  targetAgent c))
  /\ conversationContext (snd (processHandoff w userId targetAgent handoffContext s))
     = conversationContext s
  /\ trace (snd (processHandoff w userId targetAgent handoffContext s)) = trace s.
Proof.
  intros Hstore Hheap Hag Hwelcome.
  change (wp (processHandoff w userId targetAgent handoffContext)
            (fun o s' =>
               o = Ok {| env_agent := targetAgent;
                         env_message := response_message response;
                         env_actions := Some (default [] (actions response));
                         env_suggestions := Some (default [] (suggestions response));
                         env_handoff := Some HTrue;
                         env_metadata := Some (default [] (metadata response));
                         env_error := None;
                         env_originalError := None |}
               /\ context_of s' userId
                  = Some (push_history
                            (handoff_entry (default empty_handoffContext handoffContext)
                               targetAgent response (clock w (clock_reads s)))
                            (handed_over (default empty_handoffContext handoffContext)
                               targetAgent c))
               /\ conversationContext s' = conversationContext s
               /\ trace s' = trace s) s).
  unfold handed_over in Hwelcome.
  repeat walk_pre; st_simpl; try discriminate;
    injection Hstore as ->; try (injection Hag as ->);
    heap_reads; try rewrite Hheap in *; heap_reads; subst; try congruence.
  unfold context_of. st_simpl.
  match goal with
  | H : conversationContext s !! userId = Some _ |- _ =>
      rewrite (insert_id _ _ _ H), H
  end.
  rewrite !lookup_alter_eq, Hheap.
  match goal with
  | H : handleHandoff _ _ _ _ = Ok _ |- _ =>
      rewrite Hwelcome in H; injection H as <-
  end.
  repeat split; reflexivity.
Qed.

(** Two sweeps in a row keep what a single sweep at the time of the
    second would keep, when the clock did not run backwards between
    them. *)
Theorem sweep_twice w1 w2 s :
  sweep_time w1 s <= sweep_time w2 (snd (cleanupOldContexts w1 s)) ->
  conversationContext
    (snd (cleanupOldContexts w2 (snd (cleanupOldContexts w1 s))))
  = filter (fun entry : string * nat =>
              stale s (sweep_time w2 (snd (cleanupOldContexts w1 s)) - idle_threshold)
                (snd entry) = false)
      (conversationContext s).
Proof.
  destruct (cleanupOldContexts_spec w1 s) as (evs1 & E1 & _). rewrite E1.
  cbn [snd].
  match goal with
  | |- context [cleanupOldContexts w2 ?s1] =>
      destruct (cleanupOldContexts_spec w2 s1) as (evs2 & E2 & _); rewrite E2
  end.
  unfold sweep_time.
  cbn [snd log_more with_conversationContext conversationContext heap clock_reads
       Date_now].
  intros Hle. apply map_eq. intros userId.
  rewrite map_lookup_filter, !sweep_lookup.
  destruct (conversationContext s !! userId) as [r|]; [|reflexivity].
  cbn [mbind option_bind snd]. unfold stale.
  cbn [heap log_more with_conversationContext Date_now].
  destruct (heap s !! r) as [c|] eqn:Hr.
  - case_bool_decide as H1; [|rewrite Hr]; repeat case_bool_decide;
      rewrite ?option_guard_True, ?option_guard_False by congruence;
      try reflexivity; lia.
  - now rewrite Hr, option_guard_True.
Qed.

Lemma getAgentStatus_loop_spec (entries : list (string * Agent Ext))
    (status : list (string * AgentStatus)) :
  getAgentStatus_loop entries status
  = if existsb (fun entry => holds_true (isActive (snd entry))) entries
    then Throw "agent.isActive is not a function"
    else Ok (status ++ map (fun entry => (fst entry, status_of (snd entry))) entries)%list.
Proof.
  revert status. induction entries as [|[name agent] entries IH]; intros status.
  - cbn. now rewrite app_nil_r.
  - cbn [getAgentStatus_loop existsb map fst snd]. unfold status_of at 1.
    destruct (isActive agent) as [|[|]|result]; cbn; try reflexivity;
      rewrite IH, <- app_assoc; reflexivity.
Qed.

(** [getAgentStatus] throws exactly when some registered agent holds
    the boolean [true] in [isActive]; otherwise it lists every agent
    in the order of registration, as initialized, and active unless the
    [isActive] method of the agent says otherwise. *)
Theorem getAgentStatus_characterised s :
  getAgentStatus s
  = if existsb (fun entry => holds_true (isActive (snd entry))) (agents s)
    then Throw "agent.isActive is not a function"
    else Ok (map (fun entry => (fst entry, status_of (snd entry))) (agents s)).
Proof. unfold getAgentStatus. now rewrite getAgentStatus_loop_spec. Qed.

Lemma agents_get_set (m : list (string * Agent Ext)) (k k' : string) (a : Agent Ext) :
  agents_get (agents_set m k a) k'
  = if String.eqb k k' then Some a else agents_get m k'.
Proof.
  induction m as [|[k0 a0] m IH]; cbn [agents_set agents_get].
  - reflexivity.
  - destruct (String.eqb k0 k) eqn:E0.
    + apply String.eqb_eq in E0. subst k0. cbn [agents_get].
      now destruct (String.eqb k k').
    + cbn [agents_get]. rewrite IH.
      destruct (String.eqb k0 k') eqn:E1; [|reflexivity].
      apply String.eqb_eq in E1. subst k0.
      now rewrite String.eqb_sym, E0.
Qed.

(** [initialize] registers the six agents whatever the manager held
    before: it returns, the six identifiers resolve to the agents
    that it constructs, any other registration is kept, and the stored
    conversations are untouched. *)
Theorem initialize_registers_roster s (name : string) :
  fst (initialize req s) = Ok tt
  /\ isInitialized (snd (initialize req s)) = true
  /\ agents_get (agents (snd (initialize req s))) name
     = match agents_get (roster req) name with
       | Some agent => Some agent
       | None => agents_get (agents s) name
       end
  /\ conversationContext (snd (initialize req s)) = conversationContext s
  /\ heap (snd (initialize req s)) = heap s.
Proof.
  unfold initialize, try_catch, bind, modify. rewrite emit_log_more.
  cbn [fst snd isInitialized with_isInitialized log_more with_agents agents
       conversationContext heap].
  repeat split.
  unfold roster. cbn [fold_left fst snd agents_get].
  rewrite !agents_get_set.
  repeat match goal with
         | |- context [String.eqb ?a name] => destruct (String.eqb a name) eqn:?
         end;
    try reflexivity;
    repeat match goal with
           | H : String.eqb _ _ = true |- _ => apply String.eqb_eq in H; subst
           end;
    discriminate.
Qed.
(** ** A turn in two halves *)

(** [processMessage] is [route] followed by [respond], inside the
    [try] block. *)
Lemma processMessage_route w (userId message : string)
    (userProfile : option Profile) s :
  processMessage req w userId message userProfile s
  = try_catch
      (bind (route req w userId message userProfile)
         (fun ca => respond w userId message userProfile (fst ca) (snd ca)))
      (fallback w message) s.
Proof.
  unfold processMessage, route, try_catch, bind, ret, this.
  repeat match goal with
         | |- context [match ?m with pair _ _ => _ end] =>
             lazymatch m with
             | context [match _ with pair _ _ => _ end] => fail
             | _ => destruct m as [[?|?] ?]
             end; cbn [fst snd]
         end; reflexivity.
Qed.

Lemma set_currentAgent_id (a : string) c :
  currentAgent c = Some a -> set_currentAgent (Some a) c = c.
Proof. destruct c. cbn. now intros ->. Qed.

Lemma route_spec w (userId message : string) (userProfile : option Profile) s :
  wf req s ->
  refs_ok s ->
  exists context agentType s1 evs,
    route req w userId message userProfile s = (Ok (context, agentType), s1)
    /\ agents s1 = roster req
    /\ isInitialized s1 = true
    /\ conversationContext s1 = conversationContext s
    /\ heap s1 !! context = Some (inbound w s userId message)
    /\ (forall r, r <> context -> heap s1 !! r = heap s !! r)
    /\ match conversationContext s !! userId with
       | Some r =>
           context = r /\ next_ref s1 = next_ref s
           /\ clock_reads s1 = S (S (clock_reads s))
       | None =>
           context = next_ref s /\ next_ref s1 = S (next_ref s)
           /\ clock_reads s1 = S (S (S (clock_reads s)))
       end
    /\ trace s1 = (trace s ++ evs)%list
    /\ ((completions evs = []
         /\ (agentType = "askme" \/ agents_has (roster req) agentType = true))
        \/ (completions evs
            = [Completion (userContent message (inbound w s userId message) userProfile)]
            /\ agentType = classified (roster req) w)).
Proof.
  intros Hwf [[Hlt Hinj] Hlive].
  assert (Hstored : forall r,
             conversationContext s !! userId = Some r -> is_Some (heap s !! r))
    by (intros r Hr; eapply Hlive, Hlt, Hr).
  clear Hlt Hinj Hlive.
  assert (H : wp (route req w userId message userProfile)
                (fun o s1 =>
                   exists context agentType evs,
                     o = Ok (context, agentType)
                     /\ agents s1 = roster req
                     /\ isInitialized s1 = true
                     /\ conversationContext s1 = conversationContext s
                     /\ heap s1 !! context = Some (inbound w s userId message)
                     /\ (forall r, r <> context -> heap s1 !! r = heap s !! r)
                     /\ match conversationContext s !! userId with
                        | Some r =>
                            context = r /\ next_ref s1 = next_ref s
                            /\ clock_reads s1 = S (S (clock_reads s))
                        | None =>
                            context = next_ref s /\ next_ref s1 = S (next_ref s)
                            /\ clock_reads s1 = S (S (S (clock_reads s)))
                        end
                     /\ trace s1 = (trace s ++ evs)%list
                     /\ ((completions evs = []
                          /\ (agentType = "askme"
                              \/ agents_has (roster req) agentType = true))
                         \/ (completions evs
                             = [Completion (userContent message
                                              (inbound w s userId message) userProfile)]
                             /\ agentType = classified (roster req) w))) s).
  { unfold route. repeat walk_pre.
    all: unfold wp.
    all: match goal with
         | |- and_then _ _ (fst (determineAgent ?w0 ?m0 ?n0 ?p0 ?s0)) _ =>
             destruct (determineAgent_cases w0 m0 n0 p0 s0)
               as [(c & evs' & Hc & E & Hev)|(a & evs' & E & Hev & Ha)];
             rewrite E
         end.
    all: cbn [fst snd]; unfold and_then, wp, ret; cbn [fst snd]; st_simpl.
    all: unfold inbound, context_of.
    all: match goal with
         | H : conversationContext _ !! _ = _ |- _ => rewrite H
         end.
    all: try match goal with
             | H : conversationContext _ !! _ = Some ?n,
               Hs : forall r, conversationContext _ !! _ = Some r -> _ |- _ =>
                 destruct (Hs n H) as [c0 Hc0]; rewrite Hc0
             end.
    all: try (rewrite !lookup_alter_eq, ?lookup_insert_eq, ?Hc0 in Hc;
              cbn [fmap option_fmap option_map] in Hc; injection Hc as <-).
    all: eexists _, _, (evs ++ evs')%list.
    all: split; [reflexivity|]; split; [reflexivity|]; split; [reflexivity|].
    all: split; [reflexivity|].
    all: split;
      [rewrite !lookup_alter_eq, ?lookup_insert_eq, ?Hc0; reflexivity|].
    all: split;
      [intros r' Hr'; rewrite !lookup_alter_ne, ?lookup_insert_ne by congruence;
       reflexivity|].
    all: split; [repeat split; reflexivity|].
    all: split; [now rewrite app_assoc|].
    all: rewrite completions_app, H, Hev; cbn [app].
    all: first [right; split; reflexivity | left; split; [reflexivity|exact Ha]]. }
  unfold wp in H.
  destruct H as (context & agentType & evs & Ho & H).
  exists context, agentType, (snd (route req w userId message userProfile s)), evs.
  split; [|exact H]. rewrite <- Ho. apply surjective_pairing.
Qed.

Lemma fallback_spec w (message e : string) s :
  agents s = roster req ->
  fallback w message e s
  = (Ok (error_envelope req w message e),
     log_more [Log Error ("Error processing message: " +:+ e)] s).
Proof.
  intros Hag. unfold fallback, bind. rewrite emit_log_more.
  unfold this. cbn [agents log_more]. rewrite Hag, roster_askme. reflexivity.
Qed.

Lemma processMessage_split w (userId message : string)
    (userProfile : option Profile) s (context : nat) (agentType : string) s1 :
  route req w userId message userProfile s = (Ok (context, agentType), s1) ->
  processMessage req w userId message userProfile s
  = match respond w userId message userProfile context agentType s1 with
    | (Ok env, s') => (Ok env, s')
    | (Throw e, s') => fallback w message e s'
    end.
Proof.
  intros Hroute. rewrite processMessage_route.
  unfold try_catch, bind. rewrite Hroute. reflexivity.
Qed.

Ltac walk_respond :=
  repeat lazymatch goal with
         | |- wp (processHandoff _ _ _ _) _ _ => fail
         | _ => walk_pre
         end.

(** What a walk found, brought together: equal lookups give equal
    results. *)
Ltac found :=
  repeat first
    [ progress simplify_eq
    | match goal with
      | Hag : agents ?s = roster _, H : context [agents ?s] |- _ =>
          rewrite Hag in H
      | H : context [alter _ ?r _ !! ?r] |- _ => rewrite lookup_alter_eq in H
      | H : context [<[?r := _]> _ !! ?r] |- _ => rewrite lookup_insert_eq in H
      | H1 : heap ?s !! ?r = Some _, H2 : context [heap ?s !! ?r] |- _ =>
          rewrite H1 in H2
      | H1 : agents_get ?m ?a = Some _, H2 : context [agents_get ?m ?a] |- _ =>
          rewrite H1 in H2
      | H1 : conversationContext ?s !! ?u = _,
        H2 : context [conversationContext ?s !! ?u] |- _ =>
          rewrite H1 in H2
      | H : context [_ <$> Some _] |- _ =>
          progress cbn [fmap option_fmap option_map] in H
      | H1 : agent_processMessage ?a ?x ?m ?c ?p = _,
        H2 : agent_processMessage ?a ?x ?m ?c ?p = _ |- _ =>
          rewrite H1 in H2
      | H1 : handleHandoff ?a ?x ?hc ?c = _,
        H2 : handleHandoff ?a ?x ?hc ?c = _ |- _ =>
          rewrite H1 in H2
      | H1 : handoff ?r = _, H2 : context [handoff ?r] |- _ =>
          rewrite H1 in H2
      | H : bool_decide (_ ≠ _) = false |- _ =>
          apply bool_decide_eq_false in H; apply dec_stable in H
      end ].

(** The trace grew by log lines only. *)
Ltac logged :=
  st_simpl;
  first
    [ exists []; split; [now rewrite app_nil_r|reflexivity]
    | eexists; split;
      [rewrite <- ?app_assoc; reflexivity
      |rewrite ?completions_app;
       repeat match goal with
              | H : completions _ = [] |- _ => rewrite H
              end;
       reflexivity] ].

Ltac touched_tac :=
  unfold touched; st_simpl;
  split; [reflexivity|]; split; [reflexivity|];
  split; [first [reflexivity|apply insert_id; assumption]|];
  split; [reflexivity|];
  split;
  [rewrite ?lookup_alter_eq, ?lookup_insert_eq;
   repeat match goal with
          | H : heap _ !! _ = Some _ |- _ => rewrite H
          end;
   try reflexivity
  |split;
   [let r := fresh "r" in
    let Hr := fresh "Hr" in
    intros r Hr; rewrite ?lookup_alter_ne by congruence; reflexivity
   |logged]].

(** [respond] when the agent throws. *)
Lemma respond_agent_throws w (userId message : string)
    (userProfile : option Profile) (context : nat) (agentType : string) s1
    c (agent : Agent Ext) (e : string) :
  agents s1 = roster req ->
  heap s1 !! context = Some c ->
  agents_get (roster req) agentType = Some agent ->
  agent_processMessage agent (ext w) message (set_currentAgent (Some agentType) c)
    userProfile = Throw e ->
  exists s',
    respond w userId message userProfile context agentType s1 = (Throw e, s')
    /\ touched context (set_currentAgent (Some agentType) c) s1 s'
    /\ clock_reads s' = clock_reads s1.
Proof.
  intros Hag Hheap Hagent Hthrow.
  assert (H : wp (respond w userId message userProfile context agentType)
                (fun o s' =>
                   o = Throw e
                   /\ touched context (set_currentAgent (Some agentType) c) s1 s'
                   /\ clock_reads s' = clock_reads s1) s1).
  { walk_respond; st_simpl; found;
      try match goal with
          | H : currentAgent ?c0 = Some ?a0 |- _ =>
              rewrite (set_currentAgent_id a0 c0 H) in *
          end;
      found; try discriminate.
    all: split; [reflexivity|]; split; [|reflexivity].
    all: touched_tac. }
  unfold wp in H. destruct H as (Ho & Ht & Hc).
  exists (snd (respond w userId message userProfile context agentType s1)).
  split; [rewrite <- Ho; apply surjective_pairing|]. split; assumption.
Qed.

(** [respond] when the agent answers with a directive for an
    immediate handoff: the response is recorded, then
    [processHandoff] takes over. *)
Lemma respond_auto w (userId message : string)
    (userProfile : option Profile) (context : nat) (agentType : string) s1
    c (agent : Agent Ext) (response : AgentResponse) (h : Handoff) :
  agents s1 = roster req ->
  heap s1 !! context = Some c ->
  agents_get (roster req) agentType = Some agent ->
  agent_processMessage agent (ext w) message (set_currentAgent (Some agentType) c)
    userProfile = Ok response ->
  handoff response = Some h ->
  autoHandoff h = true ->
  exists s2,
    respond w userId message userProfile context agentType s1
    = processHandoff w userId (targetAgent h) (hd_context h) s2
    /\ touched context
         (recorded agentType response (clock w (clock_reads s1))
            (set_currentAgent (Some agentType) c)) s1 s2
    /\ clock_reads s2 = S (clock_reads s1).
Proof.
  intros Hag Hheap Hagent Hresp Hh Hauto.
  assert (H : wp (respond w userId message userProfile context agentType)
                (fun o s' =>
                   exists s2,
                     (o, s') = processHandoff w userId (targetAgent h) (hd_context h) s2
                     /\ touched context
                          (recorded agentType response (clock w (clock_reads s1))
                             (set_currentAgent (Some agentType) c)) s1 s2
                     /\ clock_reads s2 = S (clock_reads s1)) s1).
  { walk_respond; st_simpl; found;
      try match goal with
          | H : currentAgent ?c0 = Some ?a0 |- _ =>
              rewrite (set_currentAgent_id a0 c0 H) in *
          end;
      found; try discriminate.
    all: rewrite Hauto in *; found; try discriminate.
    all: unfold wp; eexists; (split; [symmetry; apply surjective_pairing|]).
    all: split; [|reflexivity].
    all: unfold recorded; rewrite Hh.
    all: touched_tac. }
  unfold wp in H. destruct H as (s2 & Ho & Ht & Hc).
  exists s2. split; [|split; assumption].
  rewrite <- Ho. apply surjective_pairing.
Qed.

(** [respond] when the agent answers without asking for an immediate
    handoff: the response is recorded, the context is stored, the
    store is swept, and the envelope is that of the response. *)
Lemma respond_plain w (userId message : string)
    (userProfile : option Profile) (context : nat) (agentType : string) s1
    c (agent : Agent Ext) (response : AgentResponse) :
  agents s1 = roster req ->
  heap s1 !! context = Some c ->
  agents_get (roster req) agentType = Some agent ->
  agent_processMessage agent (ext w) message (set_currentAgent (Some agentType) c)
    userProfile = Ok response ->
  match handoff response with
  | Some h => autoHandoff h = false
  | None => True
  end ->
  exists s',
    respond w userId message userProfile context agentType s1
    = (Ok (envelope_of agentType response), s')
    /\ agents s' = agents s1
    /\ isInitialized s' = isInitialized s1
    /\ next_ref s' = next_ref s1
    /\ clock_reads s' = S (S (clock_reads s1))
    /\ heap s' !! context
       = Some (recorded agentType response (clock w (clock_reads s1))
                 (set_currentAgent (Some agentType) c))
    /\ (forall r, r <> context -> heap s' !! r = heap s1 !! r)
    /\ (forall u,
           conversationContext s' !! u
           = match <[userId := context]> (conversationContext s1) !! u with
             | Some r =>
                 if stale s' (clock w (S (clock_reads s1)) - idle_threshold) r
                 then None else Some r
             | None => None
             end)
    /\ exists evs, trace s' = (trace s1 ++ evs)%list /\ completions evs = [].
Proof.
  intros Hag Hheap Hagent Hresp Hplain.
  assert (H : wp (respond w userId message userProfile context agentType)
                (fun o s' =>
                   o = Ok (envelope_of agentType response)
                   /\ agents s' = agents s1
                   /\ isInitialized s' = isInitialized s1
                   /\ next_ref s' = next_ref s1
                   /\ clock_reads s' = S (S (clock_reads s1))
                   /\ heap s' !! context
                      = Some (recorded agentType response (clock w (clock_reads s1))
                                (set_currentAgent (Some agentType) c))
                   /\ (forall r, r <> context -> heap s' !! r = heap s1 !! r)
                   /\ (forall u,
                          conversationContext s' !! u
                          = match <[userId := context]> (conversationContext s1) !! u with
                            | Some r =>
                                if stale s' (clock w (S (clock_reads s1)) - idle_threshold) r
                                then None else Some r
                            | None => None
                            end)
                   /\ exists evs, trace s' = (trace s1 ++ evs)%list
                                  /\ completions evs = []) s1).
  { walk_respond; st_simpl; found;
      try match goal with
          | H : currentAgent ?c0 = Some ?a0 |- _ =>
              rewrite (set_currentAgent_id a0 c0 H) in *
          end;
      found; try discriminate.
    all: try match goal with
             | H : autoHandoff ?h0 = false |- _ => rewrite H in *
             end; found; try discriminate.
    all: unfold envelope_of, recorded; rewrite ?Hh.
    all: repeat match goal with
                | H : handoff _ = _ |- _ => rewrite H
                end.
    all: split; [reflexivity|]; split; [reflexivity|]; split; [reflexivity|].
    all: split; [reflexivity|]; split; [reflexivity|].
    all: split;
      [rewrite ?lookup_alter_eq; rewrite Hheap; reflexivity|].
    all: split;
      [intros r' Hr'; rewrite ?lookup_alter_ne by congruence; reflexivity|].
    all: split; [intros u; unfold sweep_time, stale; st_simpl; apply sweep_lookup|].
    all: logged. }
  unfold wp in H. destruct H as (Ho & H).
  exists (snd (respond w userId message userProfile context agentType s1)).
  split; [rewrite <- Ho; apply surjective_pairing|exact H].
Qed.

(** [processHandoff] for a user whose context the store does not
    hold. *)
Lemma processHandoff_unstored w (userId : string) (h : Handoff) s2 :
  conversationContext s2 !! userId = None ->
  processHandoff w userId (targetAgent h) (hd_context h) s2
  = (handoff_outcome req w false h
       {| currentAgent := None; history := []; handoffRequested := false;
          lastActivity := 0; handoffTarget := None; handoffReason := None;
          handoffContext := None |},
     log_more
       [Log Error "Error processing handoff: No conversation context found for handoff"]
       s2).
Proof.
  intros Hstore. unfold processHandoff, try_catch, bind, this.
  rewrite Hstore. reflexivity.
Qed.

(** [processHandoff] for a user whose context the store holds: how
    it ends, and what it leaves in the context object. *)
Lemma processHandoff_stored w (userId : string) (h : Handoff) s2 (r : nat) c2 :
  agents s2 = roster req ->
  conversationContext s2 !! userId = Some r ->
  heap s2 !! r = Some c2 ->
  exists s',
    processHandoff w userId (targetAgent h) (hd_context h) s2
    = (handoff_outcome req w true h c2, s')
    /\ touched r
         (match agents_get (roster req) (targetAgent h) with
          | Some target =>
              match handleHandoff target (ext w)
                      (default empty_handoffContext (hd_context h))
                      (handed_over (default empty_handoffContext (hd_context h))
                         (targetAgent h) c2) with
              | Ok welcome =>
                  push_history
                    (handoff_entry (default empty_handoffContext (hd_context h))
                       (targetAgent h) welcome (clock w (clock_reads s2)))
                    (handed_over (default empty_handoffContext (hd_context h))
                       (targetAgent h) c2)
              | Throw _ =>
                  handed_over (default empty_handoffContext (hd_context h))
                    (targetAgent h) c2
              end
          | None =>
              handed_over (default empty_handoffContext (hd_context h))
                (targetAgent h) c2
          end) s2 s'.
Proof.
  intros Hag Hstore Hheap.
  assert (H : wp (processHandoff w userId (targetAgent h) (hd_context h))
                (fun o s' =>
                   o = handoff_outcome req w true h c2
                   /\ touched r
                        (match agents_get (roster req) (targetAgent h) with
                         | Some target =>
                             match handleHandoff target (ext w)
                                     (default empty_handoffContext (hd_context h))
                                     (handed_over
                                        (default empty_handoffContext (hd_context h))
                                        (targetAgent h) c2) with
                             | Ok welcome =>
                                 push_history
                                   (handoff_entry
                                      (default empty_handoffContext (hd_context h))
                                      (targetAgent h) welcome (clock w (clock_reads s2)))
                                   (handed_over
                                      (default empty_handoffContext (hd_context h))
                                      (targetAgent h) c2)
                             | Throw _ =>
                                 handed_over (default empty_handoffContext (hd_context h))
                                   (targetAgent h) c2
                             end
                         | None =>
                             handed_over (default empty_handoffContext (hd_context h))
                               (targetAgent h) c2
                         end) s2 s') s2).
  { unfold processHandoff; cbv zeta. repeat walk_pre; st_simpl; found;
      try discriminate.
    all: unfold handoff_outcome, handed_over in *; cbv zeta.
    all: repeat match goal with
                | H : agents_get _ _ = _ |- _ => rewrite H
                | H : handleHandoff _ _ _ _ = _ |- _ => rewrite H
                end.
    all: split; [reflexivity|].
    all: unfold handoff_entry; touched_tac. }
  unfold wp in H. destruct H as (Ho & H).
  exists (snd (processHandoff w userId (targetAgent h) (hd_context h) s2)).
  split; [rewrite <- Ho; apply surjective_pairing|exact H].
Qed.

Lemma registered_get (m : list (string * Agent Ext)) (a : string) :
  agents_has m a = true -> exists agent, agents_get m a = Some agent.
Proof. unfold agents_has. destruct (agents_get m a); [eauto|discriminate]. Qed.

(** What a turn does: where [route] sends it, how it ends, and what
    it leaves in the manager. *)
Lemma turn_spec w (userId message : string) (userProfile : option Profile) s :
  wf req s ->
  refs_ok s ->
  exists context agentType s1 agent evs,
    route req w userId message userProfile s = (Ok (context, agentType), s1)
    /\ agents_get (roster req) agentType = Some agent
    /\ agents s1 = roster req
    /\ heap s1 !! context = Some (inbound w s userId message)
    /\ match conversationContext s !! userId with
       | Some r => context = r /\ clock_reads s1 = S (S (clock_reads s))
       | None => context = next_ref s /\ clock_reads s1 = S (S (S (clock_reads s)))
       end
    /\ trace s1 = (trace s ++ evs)%list
    /\ ((completions evs = []
         /\ (agentType = "askme" \/ agents_has (roster req) agentType = true))
        \/ (completions evs
            = [Completion (userContent message (inbound w s userId message) userProfile)]
            /\ agentType = classified (roster req) w))
    /\ fst (processMessage req w userId message userProfile s)
       = Ok match turn_outcome req w
                    (bool_decide (is_Some (conversationContext s !! userId)))
                    message userProfile agentType agent
                    (set_currentAgent (Some agentType) (inbound w s userId message))
                    (clock w (clock_reads s1)) with
            | Ok env => env
            | Throw e => error_envelope req w message e
            end
    /\ agents (snd (processMessage req w userId message userProfile s)) = roster req
    /\ isInitialized (snd (processMessage req w userId message userProfile s)) = true
    /\ heap (snd (processMessage req w userId message userProfile s)) !! context
       = Some (turn_leaves req w
                 (bool_decide (is_Some (conversationContext s !! userId)))
                 message userProfile agentType agent
                 (set_currentAgent (Some agentType) (inbound w s userId message))
                 (clock_reads s1))
    /\ (forall r, r <> context ->
          heap (snd (processMessage req w userId message userProfile s)) !! r
          = heap s !! r)
    /\ completions (trace (snd (processMessage req w userId message userProfile s)))
       = completions (trace s1)
    /\ (forall u,
          conversationContext (snd (processMessage req w userId message userProfile s))
            !! u
          = if turn_stores w message userProfile agent
                 (set_currentAgent (Some agentType) (inbound w s userId message))
            then
              match <[userId := context]> (conversationContext s) !! u with
              | Some r =>
                  if stale (snd (processMessage req w userId message userProfile s))
                       (clock w (S (clock_reads s1)) - idle_threshold) r
                  then None else Some r
              | None => None
              end
            else conversationContext s !! u).
Proof.
  intros Hwf Hrefs.
  destruct (route_spec w userId message userProfile s Hwf Hrefs)
    as (context & agentType & s1 & evs & Hroute & Hag & Hinit & Hstore & Hheap
        & Hothers & Hmatch & Htrace & Hcases).
  assert (Hagent : exists agent, agents_get (roster req) agentType = Some agent).
  { destruct Hcases as [[_ [->|Hreg]]|[_ ->]].
    - eexists. apply roster_askme.
    - now apply registered_get.
    - destruct (classified_registered (roster req) w) as [->|Hreg].
      + eexists. apply roster_askme.
      + now apply registered_get. }
  destruct Hagent as [agent Hagent].
  exists context, agentType, s1, agent, evs.
  split; [exact Hroute|]. split; [exact Hagent|]. split; [exact Hag|].
  split; [exact Hheap|].
  split; [destruct (conversationContext s !! userId); tauto|].
  split; [exact Htrace|]. split; [exact Hcases|].
  rewrite (processMessage_split w userId message userProfile s context agentType s1 Hroute).
  unfold turn_outcome, turn_leaves, turn_stores.
  destruct (agent_processMessage agent (ext w) message
              (set_currentAgent (Some agentType) (inbound w s userId message))
              userProfile) as [response|e] eqn:Hinv.
  - destruct (handoff response) as [h|] eqn:Hh;
      [destruct (autoHandoff h) eqn:Hauto|].
    + (* an immediate handoff *)
      destruct (respond_auto w userId message userProfile context agentType s1
                  _ agent response h Hag Hheap Hagent Hinv Hh Hauto)
        as (s2 & Hrespond & Ht & Hclock).
      rewrite Hrespond.
      destruct Ht as (Ha2 & Hi2 & Hs2 & Hn2 & Hh2 & Ho2 & evs2 & Ht2 & Hev2).
      cbn [negb].
      destruct (conversationContext s !! userId) as [r|] eqn:Hu.
      * destruct Hmatch as (-> & _ & _).
        rewrite bool_decide_eq_true_2 by eauto.
        destruct (processHandoff_stored w userId h s2 r _
                    ltac:(congruence) ltac:(congruence) Hh2)
          as (s' & Hph & Ha' & Hi' & Hs' & Hn' & Hh' & Ho' & evs' & Ht' & Hev').
        rewrite Hph. rewrite Hclock in Hh'.
        unfold handoff_outcome, handoff_leaves in *.
        assert (Hfacts :
                  agents s' = roster req /\ isInitialized s' = true
                  /\ (forall r', r' <> r -> heap s' !! r' = heap s !! r')
                  /\ completions (trace s') = completions (trace s1)
                  /\ (forall u, conversationContext s' !! u = conversationContext s !! u)).
        { split; [congruence|]. split; [congruence|]. split.
          - intros r' Hr'. now rewrite Ho', Ho2, Hothers.
          - split; [|intros u; congruence].
            rewrite Ht', Ht2, !completions_app, Hev', Hev2. now rewrite !app_nil_r. }
        destruct Hfacts as (F1 & F2 & F3 & F4 & F5).
        destruct (agents_get (roster req) (targetAgent h)) as [target|];
          [destruct (handleHandoff target _ _ _) as [welcome|e]|];
          rewrite ?fallback_spec by exact F1; cbn [fst snd]; st_simpl;
          (split; [reflexivity|]); (split; [exact F1|]); (split; [exact F2|]);
          (split; [exact Hh'|]); (split; [exact F3|]);
          (split; [|exact F5]);
          rewrite ?completions_app, F4; cbn; now rewrite ?app_nil_r.
      * destruct Hmatch as (-> & _ & _).
        rewrite bool_decide_eq_false_2 by (intros [? ?]; discriminate).
        rewrite processHandoff_unstored by congruence.
        unfold handoff_outcome, handoff_leaves.
        rewrite fallback_spec by (st_simpl; congruence). cbn [fst snd]. st_simpl.
        split; [reflexivity|]. split; [congruence|]. split; [congruence|].
        split; [exact Hh2|].
        split; [intros r' Hr'; now rewrite Ho2, Hothers|].
        split; [|intros u; congruence].
        rewrite Ht2, !completions_app, Hev2. cbn. now rewrite !app_nil_r.
    + (* a directive for the next turn *)
      destruct (respond_plain w userId message userProfile context agentType s1
                  _ agent response Hag Hheap Hagent Hinv)
        as (s' & Hrespond & Ha' & Hi' & Hn' & Hc' & Hh' & Ho' & Hs' & evs' & Ht' & Hev').
      { now rewrite Hh. }
      rewrite Hrespond. cbn [fst snd negb].
      split; [reflexivity|]. split; [congruence|]. split; [congruence|].
      split; [exact Hh'|].
      split; [intros r' Hr'; now rewrite Ho', Hothers|].
      split; [rewrite Ht', completions_app, Hev'; now rewrite app_nil_r|].
      intros u. rewrite Hs', Hstore. reflexivity.
    + destruct (respond_plain w userId message userProfile context agentType s1
                  _ agent response Hag Hheap Hagent Hinv)
        as (s' & Hrespond & Ha' & Hi' & Hn' & Hc' & Hh' & Ho' & Hs' & evs' & Ht' & Hev').
      { now rewrite Hh. }
      rewrite Hrespond. cbn [fst snd negb].
      split; [reflexivity|]. split; [congruence|]. split; [congruence|].
      split; [exact Hh'|].
      split; [intros r' Hr'; now rewrite Ho', Hothers|].
      split; [rewrite Ht', completions_app, Hev'; now rewrite app_nil_r|].
      intros u. rewrite Hs', Hstore. reflexivity.
  - destruct (respond_agent_throws w userId message userProfile context agentType s1
                _ agent e Hag Hheap Hagent Hinv)
      as (s' & Hrespond & Ht & Hclock).
    rewrite Hrespond.
    destruct Ht as (Ha' & Hi' & Hs' & Hn' & Hh' & Ho' & evs' & Ht' & Hev').
    rewrite fallback_spec by congruence. cbn [fst snd]. st_simpl.
    split; [reflexivity|]. split; [congruence|]. split; [congruence|].
    split; [exact Hh'|]. split; [intros r Hr; rewrite Ho', Hothers by exact Hr; reflexivity|].
    split; [rewrite Ht', !completions_app, Hev'; cbn; now rewrite !app_nil_r|].
    intros u. congruence.
Qed.

Lemma envelope_of_full (agentType : string) (response : AgentResponse) :
  full_envelope (envelope_of agentType response).
Proof. unfold full_envelope, envelope_of. cbn. eauto 10. Qed.

Lemma handoff_envelope_full (targetAgent : string) (response : AgentResponse) :
  full_envelope (handoff_envelope targetAgent response).
Proof. unfold full_envelope, handoff_envelope. cbn. eauto 10. Qed.

Lemma turn_outcome_full w (stored : bool) (message : string)
    (userProfile : option Profile) (agentType : string) (agent : Agent Ext)
    c (t : Z) (env : Envelope) :
  turn_outcome req w stored message userProfile agentType agent c t = Ok env ->
  full_envelope env.
Proof.
  unfold turn_outcome, handoff_outcome.
  repeat match goal with
         | |- context [match ?x with _ => _ end] => destruct x
         end;
    try discriminate; intros [= <-];
    first [apply envelope_of_full|apply handoff_envelope_full].
Qed.

(** C4, as the code has it.  On a manager that calls have led to
    from a new one ([wf], [refs_ok]), [processMessage] never throws,
    and what it returns is settled by the agent that [route] chooses:
    the full envelope [{agent, message, actions, suggestions, handoff,
    metadata}] of the response of the agent, or of the welcome of
    the target when the response asks for an immediate handoff; and,
    exactly when the agent throws [e] or that handoff fails with [e]
    (no stored context, an unregistered target, a [handleHandoff]
    that throws), the object [{agent: 'askme', message, error: true,
    originalError: e}], which has none of [actions], [suggestions],
    [handoff] and [metadata] and whose message is the apology of
    [AskMeAgent.handleError]. *)
Theorem processMessage_returns w (userId message : string)
    (userProfile : option Profile) s :
  wf req s ->
  refs_ok s ->
  exists context agentType s1 agent,
    route req w userId message userProfile s = (Ok (context, agentType), s1)
    /\ agents_get (roster req) agentType = Some agent
    /\ fst (processMessage req w userId message userProfile s)
       = Ok match turn_outcome req w
                    (bool_decide (is_Some (conversationContext s !! userId)))
                    message userProfile agentType agent
                    (set_currentAgent (Some agentType) (inbound w s userId message))
                    (clock w (clock_reads s1)) with
            | Ok env => env
            | Throw e => error_envelope req w message e
            end
    /\ (forall env,
          turn_outcome req w
            (bool_decide (is_Some (conversationContext s !! userId)))
            message userProfile agentType agent
            (set_currentAgent (Some agentType) (inbound w s userId message))
            (clock w (clock_reads s1)) = Ok env ->
          full_envelope env)
    /\ (forall e,
          ~ full_envelope (error_envelope req w message e)
          /\ env_originalError (error_envelope req w message e) = Some e).
Proof.
  intros Hwf Hrefs.
  destruct (turn_spec w userId message userProfile s Hwf Hrefs)
    as (context & agentType & s1 & agent & evs & Hroute & Hagent & _ & _ & _ & _ & _
        & Hfst & _).
  exists context, agentType, s1, agent.
  split; [exact Hroute|]. split; [exact Hagent|]. split; [exact Hfst|].
  split; [intros env; apply turn_outcome_full|].
  intros e. split; [|reflexivity].
  intros (_ & _ & _ & _ & Herr & _). discriminate Herr.
Qed.

Lemma lastActivity_inbound_fresh w s (userId message : string) (j : nat) :
  short_turn w s ->
  (j <= clock_reads s + 4)%nat ->
  ~ lastActivity (inbound w s userId message) < clock w j - idle_threshold.
Proof.
  intros Hshort Hj. unfold inbound.
  destruct (context_of s userId); cbn [lastActivity push_history set_lastActivity].
  - specialize (Hshort (clock_reads s) j ltac:(lia) Hj). lia.
  - specialize (Hshort (S (clock_reads s)) j ltac:(lia) Hj). lia.
Qed.

(** A turn in which the completion service is asked and fails, or
    names no registered agent: [askme] answers, its response is
    recorded, and the context is stored. *)
Lemma fallback_turn w (userId message : string) (userProfile : option Profile) s :
  wf req s ->
  refs_ok s ->
  misclassified (roster req) w ->
  completions (trace (snd (processMessage req w userId message userProfile s)))
    <> completions (trace s) ->
  exists context s1 response,
    route req w userId message userProfile s = (Ok (context, "askme"), s1)
    /\ agent_processMessage (AskMeAgent.new Ext (agent_now req) (askme_handlers req))
         (ext w) message
         (set_currentAgent (Some "askme") (inbound w s userId message)) userProfile
       = Ok response
    /\ handoff response = None
    /\ fst (processMessage req w userId message userProfile s)
       = Ok (envelope_of "askme" response)
    /\ heap (snd (processMessage req w userId message userProfile s)) !! context
       = Some (recorded "askme" response (clock w (clock_reads s1))
                 (set_currentAgent (Some "askme") (inbound w s userId message)))
    /\ (short_turn w s ->
        conversationContext (snd (processMessage req w userId message userProfile s))
          !! userId
        = Some context).
Proof.
  intros Hwf Hrefs Hmis Hasked.
  destruct (turn_spec w userId message userProfile s Hwf Hrefs)
    as (context & agentType & s1 & agent & evs & Hroute & Hagent & Hag & Hheap
        & Hmatch & Htrace & Hcases & Hfst & Ha' & Hi' & Hh' & Ho' & Hc' & Hs').
  destruct Hcases as [[Hev _]|[Hev Hcl]].
  { exfalso. apply Hasked. rewrite Hc', Htrace, completions_app, Hev.
    now rewrite app_nil_r. }
  rewrite (classified_askme _ _ Hmis) in Hcl. subst agentType.
  rewrite roster_askme in Hagent. injection Hagent as <-.
  destruct (askme_no_handoff (agent_now req) (askme_handlers req) (ext w) message
              (set_currentAgent (Some "askme") (inbound w s userId message))
              userProfile _ eq_refl)
    as (response & Hresp & Hnone).
  exists context, s1, response.
  split; [exact Hroute|]. split; [exact Hresp|]. split; [exact Hnone|].
  unfold turn_outcome in Hfst. unfold turn_leaves in Hh'. unfold turn_stores in Hs'.
  rewrite Hresp, Hnone in *.
  split; [exact Hfst|]. split; [exact Hh'|].
  intros Hshort. rewrite Hs', lookup_insert_eq.
  unfold stale. rewrite Hh'.
  rewrite bool_decide_eq_false_2; [reflexivity|].
  unfold recorded. rewrite Hnone.
  cbn [lastActivity push_history set_currentAgent].
  apply lastActivity_inbound_fresh; [exact Hshort|].
  destruct (conversationContext s !! userId); destruct Hmatch as [_ ->]; lia.
Qed.

(** C7. Fallback guarantee: in a turn in which the completion
    service is asked and fails, or names no registered agent, the
    turn is routed to ['askme'] and [processMessage] returns (it does
    not throw) the envelope of the response that [AskMeAgent] gives
    to the message: its [agent] is ['askme'], it carries no error and
    no handoff.  The response is recorded in the context object, and
    the store holds the context afterwards when no two readings of
    the clock in the turn are 24 hours apart. *)
Theorem fallback_guarantee w (userId message : string)
    (userProfile : option Profile) s :
  wf req s ->
  refs_ok s ->
  misclassified (roster req) w ->
  completions (trace (snd (processMessage req w userId message userProfile s)))
    <> completions (trace s) ->
  exists context s1 response env,
    route req w userId message userProfile s = (Ok (context, "askme"), s1)
    /\ agent_processMessage (AskMeAgent.new Ext (agent_now req) (askme_handlers req))
         (ext w) message
         (set_currentAgent (Some "askme") (inbound w s userId message)) userProfile
       = Ok response
    /\ fst (processMessage req w userId message userProfile s) = Ok env
    /\ env = envelope_of "askme" response
    /\ env_agent env = "askme"
    /\ env_error env = None
    /\ env_handoff env = Some HNull
    /\ heap (snd (processMessage req w userId message userProfile s)) !! context
       = Some (recorded "askme" response (clock w (clock_reads s1))
                 (set_currentAgent (Some "askme") (inbound w s userId message)))
    /\ (short_turn w s ->
        conversationContext (snd (processMessage req w userId message userProfile s))
          !! userId
        = Some context).
Proof.
  intros Hwf Hrefs Hmis Hasked.
  destruct (fallback_turn w userId message userProfile s Hwf Hrefs Hmis Hasked)
    as (context & s1 & response & Hroute & Hresp & Hnone & Hfst & Hheap & Hstore).
  exists context, s1, response, (envelope_of "askme" response).
  split; [exact Hroute|]. split; [exact Hresp|]. split; [exact Hfst|].
  split; [reflexivity|]. split; [reflexivity|]. split; [reflexivity|].
  split; [unfold envelope_of; cbn [env_handoff]; now rewrite Hnone|].
  split; [exact Hheap|exact Hstore].
Qed.




Lemma context_ok_inbound w s (userId message : string) :
  heap_ok req (heap s) -> context_ok (roster req) (inbound w s userId message).
Proof.
  intros Hheap. unfold inbound, context_of.
  destruct (conversationContext s !! userId) as [r|];
    [destruct (heap s !! r) as [c|] eqn:Hr|]; try (split; exact I).
  destruct (Hheap r c Hr) as [H1 H2]. split; assumption.
Qed.

Lemma agents_get_has (m : list (string * Agent Ext)) (a : string) (agent : Agent Ext) :
  agents_get m a = Some agent -> agents_has m a = true.
Proof. unfold agents_has. now intros ->. Qed.

Ltac exact_ok :=
  cbn [registered_or_null currentAgent handoffTarget set_currentAgent
       set_lastActivity push_history set_handoff set_handoffContext];
  first [assumption|exact I].

Lemma processMessage_invariant w (userId message : string)
    (userProfile : option Profile) s :
  names_registered req (CallProcessMessage w userId message userProfile) s ->
  invariant req s ->
  refs_ok s ->
  invariant req (snd (processMessage req w userId message userProfile s)).
Proof.
  intros Hreg (Hwf & Hun & Hheap) Hrefs.
  destruct (turn_spec w userId message userProfile s Hwf Hrefs)
    as (context & agentType & s1 & agent & evs & Hroute & Hagent & Hag & Hheap1
        & Hmatch & Htrace & Hcases & Hfst & Ha' & Hi' & Hh' & Ho' & Hc' & Hs').
  split; [unfold wf; now rewrite Hi'|]. split; [intros Hi; congruence|].
  pose proof (context_ok_inbound w s userId message Hheap) as [Hin1 Hin2].
  pose proof (agents_get_has _ _ _ Hagent) as Hregistered.
  cbn [names_registered] in Hreg. unfold issued in Hreg.
  rewrite Hroute, Hag, Hagent, Hheap1 in Hreg.
  intros r c Hr. destruct (decide (r = context)) as [->|Hne].
  - rewrite Hh' in Hr. injection Hr as <-.
    unfold turn_leaves, handoff_leaves, recorded, handed_over.
    destruct (agent_processMessage agent (ext w) message
                (set_currentAgent (Some agentType) (inbound w s userId message))
                userProfile) as [response|e].
    2:{ split; exact_ok. }
    destruct (handoff response) as [h|].
    2:{ split; exact_ok. }
    specialize (Hreg h eq_refl).
    destruct (autoHandoff h).
    2:{ split; exact_ok. }
    destruct (bool_decide _);
      [destruct (agents_get (roster req) (targetAgent h)) as [target|];
       [destruct (handleHandoff target _ _ _)|]|];
      split; exact_ok.
  - rewrite (Ho' r Hne) in Hr. eapply Hheap, Hr.
Qed.

Lemma run_invariant (call : Call) s :
  names_registered req call s ->
  invariant req s -> refs_ok s -> invariant req (run req call s).
Proof.
  destruct call as [|w u m p|w u t hc|u|u|w]; intros Hreg Hinv Hrefs;
    unfold run.
  - now apply initialize_invariant.
  - now apply processMessage_invariant.
  - now apply processHandoff_invariant.
  - exact Hinv.
  - now apply clearUserContext_invariant.
  - now apply cleanupOldContexts_invariant.
Qed.

Lemma run_all_invariant (calls : list Call) s :
  all_registered req calls s ->
  invariant req s -> refs_ok s -> invariant req (run_all req calls s).
Proof.
  revert s. induction calls as [|call calls IH]; intros s Hreg Hinv Hrefs;
    [exact Hinv|].
  destruct Hreg as [Hcall Hrest].
  cbn [run_all fold_left]. apply IH; [exact Hrest| |].
  - now apply run_invariant.
  - apply refs_ok_run; [apply Hinv|exact Hrefs].
Qed.

(** C6, as the code has it.  In every context that the store holds
    after any sequence of [initialize], [processMessage],
    [processHandoff], [getUserContext], [clearUserContext] and
    [cleanupOldContexts] calls on a new manager in which every
    handoff directive that an agent issues in a turn, and the target
    of every direct [processHandoff] call, names a registered agent,
    [currentAgent] is empty or a registered agent, and so is
    [handoffTarget]. *)
Theorem context_invariant (calls : list Call) (userId : string) c :
  all_registered req calls new ->
  context_of (run_all req calls new) userId = Some c ->
  context_ok (agents (run_all req calls new)) c.
Proof.
  intros Hreg Hc.
  destruct (run_all_invariant calls new Hreg invariant_new refs_ok_new)
    as (Hwf & Hun & Hheap).
  unfold context_of in Hc.
  destruct (conversationContext (run_all req calls new) !! userId) as [r|] eqn:Hu;
    [|discriminate].
  unfold wf in Hwf. destruct (isInitialized (run_all req calls new)).
  - rewrite Hwf. eapply Hheap, Hc.
  - destruct (Hun eq_refl) as [Hh _]. rewrite Hh, lookup_empty in Hc. discriminate.
Qed.

(** Sticky routing for a whole turn: when the stored context of the
    user names a registered agent [A], no handoff is pending and
    [A.canHandle] accepts the message on the context of the turn, the
    manager sends no classification request in the whole of
    [processMessage].  (What the agents themselves ask the completion
    service is not the manager's doing.) *)
Lemma sticky_turn_no_classification w (userId message : string)
    (userProfile : option Profile) s (r : nat) c (A : string) (agent : Agent Ext) :
  wf req s ->
  conversationContext s !! userId = Some r ->
  heap s !! r = Some c ->
  currentAgent c = Some A ->
  A <> "" ->
  handoffRequested c = false ->
  agents_get (roster req) A = Some agent ->
  canHandle agent message (inbound w s userId message) = Ok true ->
  completions (trace (snd (processMessage req w userId message userProfile s)))
  = completions (trace s).
Proof.
  intros Hwf Hstore Hheap HA Hne Hh Hag Hcan.
  unfold inbound, context_of in Hcan. rewrite Hstore, Hheap in Hcan.
  change (wp (processMessage req w userId message userProfile)
            (fun _ s' => completions (trace s') = completions (trace s)) s).
  unfold processMessage. repeat walk_pre; st_simpl; try congruence.
  unfold wp.
  match goal with
  | |- context [determineAgent w message ?r' userProfile ?s0] =>
      rewrite (determineAgent_sticky w message r' userProfile s0
                 (push_history (UserEntry message (clock w (S (clock_reads s))))
                    (set_lastActivity (clock w (clock_reads s)) c))
                 A agent)
  end.
  - cbn [fst snd]. unfold and_then.
    repeat walk_pre. all: no_new_completions.
  - st_simpl. simplify_eq. rewrite !lookup_alter_eq, Hheap. reflexivity.
  - exact HA.
  - exact Hne.
  - exact Hh.
  - exact Hag.
  - exact Hcan.
Qed.

(** An immediate handoff for a user whose context is in the store.
    When the agent to which the turn is routed answers the message,
    on the context of the turn, with a directive for an immediate
    handoff to a registered target, and [handleHandoff] of the
    target answers with a welcome (given the context that the
    manager hands over, with the response recorded in it),
    [processMessage] returns the envelope of the welcome in the name
    of the target, and the stored context is the one handed over,
    with the welcome as its last entry: it names the target and has
    no pending handoff. *)
Theorem auto_handoff_stored_context w (userId message : string)
    (userProfile : option Profile) s (r : nat) (agentType : string)
    (agent : Agent Ext) (response : AgentResponse) (h : Handoff)
    (target : Agent Ext) (welcome : AgentResponse) :
  wf req s ->
  refs_ok s ->
  conversationContext s !! userId = Some r ->
  fst (route req w userId message userProfile s) = Ok (r, agentType) ->
  agents_get (roster req) agentType = Some agent ->
  agent_processMessage agent (ext w) message
    (set_currentAgent (Some agentType) (inbound w s userId message)) userProfile
  = Ok response ->
  handoff response = Some h ->
  autoHandoff h = true ->
  agents_get (roster req) (targetAgent h) = Some target ->
  handleHandoff target (ext w) (default empty_handoffContext (hd_context h))
    (handed_over (default empty_handoffContext (hd_context h)) (targetAgent h)
       (recorded agentType response (clock w (S (S (clock_reads s))))
          (set_currentAgent (Some agentType) (inbound w s userId message))))
  = Ok welcome ->
  exists c',
    fst (processMessage req w userId message userProfile s)
    = Ok (handoff_envelope (targetAgent h) welcome)
    /\ context_of (snd (processMessage req w userId message userProfile s)) userId
       = Some c'
    /\ c' = push_history
              (handoff_entry (default empty_handoffContext (hd_context h))
                 (targetAgent h) welcome (clock w (S (S (S (clock_reads s))))))
              (handed_over (default empty_handoffContext (hd_context h))
                 (targetAgent h)
                 (recorded agentType response (clock w (S (S (clock_reads s))))
                    (set_currentAgent (Some agentType) (inbound w s userId message))))
    /\ currentAgent c' = Some (targetAgent h)
    /\ handoffRequested c' = false
    /\ handoffTarget c' = None.
Proof.
  intros Hwf Hrefs Hstore Hroute Hagent Hresp Hh Hauto Htarget Hwelcome.
  destruct (turn_spec w userId message userProfile s Hwf Hrefs)
    as (context & agentType' & s1 & agent' & evs & Hroute' & Hagent' & Hag & Hheap
        & Hmatch & Htrace & Hcases & Hfst & Ha' & Hi' & Hh' & Ho' & Hc' & Hs').
  rewrite Hroute' in Hroute. cbn [fst] in Hroute. injection Hroute as -> ->.
  rewrite Hagent in Hagent'. injection Hagent' as <-.
  rewrite Hstore in *. destruct Hmatch as [_ Hclock].
  rewrite bool_decide_eq_true_2 in * by eauto.
  unfold turn_outcome, handoff_outcome in Hfst.
  unfold turn_leaves, handoff_leaves in Hh'.
  unfold turn_stores in Hs'.
  rewrite Hresp, Hh, Hauto, Htarget, Hclock in *.
  rewrite Hwelcome in *. cbn [negb] in Hs'.
  eexists. split; [exact Hfst|].
  unfold context_of. rewrite Hs', Hstore, Hh'.
  split; [reflexivity|]. split; [reflexivity|].
  split; [reflexivity|]. split; reflexivity.
Qed.

End Routing.

Import AgentManager Spec Scenario.

(** ** The properties at work on the concrete deployment *)

(** The keyword gate of [RideNowAgent.canHandle]: a message that names
    a booking passes, a bare confirmation does not. *)
Example ridenow_canHandle_keywords :
  RideNowAgent.canHandle "ok book the cheapest one" c_ride = Ok true
  /\ RideNowAgent.canHandle "Take me to the AIRPORT" c_ride = Ok true
  /\ RideNowAgent.canHandle "yes" c_ride = Ok false
  /\ FoodieAgent.canHandle "I am hungry" c_ride = Ok true
  /\ AskMeAgent.canHandle "yes" c_ride = Ok true.
Proof. repeat split; vm_compute; reflexivity. Qed.

(** Sticky routing at work: the second message of the scenario of the
    spec, [ok book the cheapest one], stays with [ridenow]. *)
Lemma sticky_routing_witness :
  RideNowAgent.canHandle "ok book the cheapest one" c_ride = Ok true
  /\ determineAgent w_ride "ok book the cheapest one" 0 None s_ride
     = (Ok "ridenow", s_ride)
  /\ completions
       (trace (snd (determineAgent w_ride "ok book the cheapest one" 0 None s_ride)))
     = completions (trace s_ride).
Proof.
  split; [vm_compute; reflexivity|].
  apply (sticky_routing w_ride "ok book the cheapest one" 0%nat None s_ride
           c_ride "ridenow"
           (RideNowAgent.new Oracle (agent_now req) (ridenow_handlers req))).
  - vm_compute; reflexivity.
  - vm_compute; reflexivity.
  - discriminate.
  - vm_compute; reflexivity.
  - reflexivity.
  - vm_compute; reflexivity.
Defined.

(** C2 fails as stated: with a pending handoff to the registered agent
    [askme] recorded by the previous turn, the next turn issues a
    classification request and goes where the classifier says, here to
    [ridenow]. *)
Lemma deferred_handoff_reclassifies :
  heap s_deferred !! 0%nat = Some c_deferred
  /\ handoffRequested c_deferred = true
  /\ handoffTarget c_deferred = Some "askme"
  /\ agents_has (agents s_deferred) "askme" = true
  /\ fst (determineAgent w_ride "hello" 0 None s_deferred) = Ok "ridenow"
  /\ completions (trace (snd (determineAgent w_ride "hello" 0 None s_deferred)))
     <> completions (trace s_deferred)
  /\ exists env,
      fst (processMessage req w_ride "u1" "hello" None s_deferred) = Ok env
      /\ env_agent env = "ridenow".
Proof.
  repeat split; try (vm_compute; reflexivity).
  - vm_compute. discriminate.
  - eexists. split; vm_compute; reflexivity.
Qed.

Lemma deferred_handoff_classifies_witness :
  exists evs,
    determineAgent w_ride "hello" 0 None s_deferred
    = (Ok (classified (agents s_deferred) w_ride), log_more evs s_deferred)
    /\ completions evs = [Completion (userContent "hello" c_deferred None)].
Proof.
  apply (deferred_handoff_classifies w_ride "hello" 0%nat None s_deferred c_deferred).
  - vm_compute; reflexivity.
  - reflexivity.
Defined.

(** C3 fails on the code: in the first turn of a user, a response with
    an auto-handoff directive to the registered agent [askme] ends in
    the error envelope, and the store has no context for the user
    afterwards. *)
Theorem auto_handoff_first_turn_fails :
  conversationContext started !! "u1" = None
  /\ agents_has (agents started) "askme" = true
  /\ fst (processMessage req (w_handoff "askme" true) "u1" "plan a trip" None started)
     = Ok (error_envelope req (w_handoff "askme" true) "plan a trip"
             "No conversation context found for handoff")
  /\ context_of
       (snd (processMessage req (w_handoff "askme" true) "u1" "plan a trip" None started))
       "u1"
     = None.
Proof. repeat split; vm_compute; reflexivity. Qed.

(** C4 fails as stated: when the agent's [processMessage] throws, the
    returned object lacks [actions], [suggestions], [handoff] and
    [metadata], and carries the message of the error in
    [originalError]. *)
Lemma failure_envelope_exposes_error :
  exists env,
    fst (processMessage req w_boom "u1" "plan a trip" None started) = Ok env
    /\ ~ full_envelope env
    /\ env_originalError env = Some "connect ECONNREFUSED 127.0.0.1:443".
Proof.
  eexists. split; [vm_compute; reflexivity|]. split; [|reflexivity].
  intros (Hactions & _). destruct Hactions as [x Hx]. discriminate Hx.
Qed.


(** C6 fails as stated: after an auto-handoff directive that names the
    unregistered agent [nobody], the stored context has [nobody] as
    its [currentAgent]; a deferred directive records an unregistered
    [handoffTarget] as it is, and one that names the current agent
    records a [handoffTarget] equal to [currentAgent]. *)
Lemma unregistered_handoff_breaks_invariant :
  (exists c,
      context_of (run_all req calls_unregistered_auto new) "u1" = Some c
      /\ currentAgent c = Some "nobody"
      /\ agents_has (agents (run_all req calls_unregistered_auto new)) "nobody" = false
      /\ ~ context_ok (agents (run_all req calls_unregistered_auto new)) c)
  /\ (exists c,
         context_of (run_all req calls_unregistered_deferred new) "u1" = Some c
         /\ handoffTarget c = Some "nobody"
         /\ agents_has (agents (run_all req calls_unregistered_deferred new)) "nobody"
            = false)
  /\ (exists c,
         context_of (run_all req calls_self_handoff new) "u1" = Some c
         /\ handoffTarget c = currentAgent c
         /\ currentAgent c = Some "travelbuddy").
Proof.
  split; [|split].
  - eexists. split; [vm_compute; reflexivity|].
    split; [reflexivity|]. split; [vm_compute; reflexivity|].
    intros [Hcur _]. vm_compute in Hcur. discriminate Hcur.
  - eexists. split; [vm_compute; reflexivity|].
    split; [reflexivity|]. vm_compute; reflexivity.
  - eexists. split; [vm_compute; reflexivity|]. split; reflexivity.
Qed.

(** C8 fails as stated: the degraded response of RideNow has no
    metadata at all, and the one of AskMe has metadata without an
    [error] key. *)
Lemma degraded_response_without_metadata_flag :
  (exists response,
      RideNowAgent.processMessage Oracle (agent_now req) (ridenow_handlers req)
        (ext w_handler_fails) "book a cab" c_ride None
      = Ok response
      /\ metadata response = None)
  /\ (exists response md,
         AskMeAgent.processMessage Oracle (agent_now req) (askme_handlers req)
           (ext w_handler_fails) "book a cab" c_ride None
         = Ok response
         /\ metadata response = Some md
         /\ Js.get md "error" = None).
Proof.
  split.
  - eexists. split; reflexivity.
  - eexists _, _. split; [reflexivity|]. split; reflexivity.
Qed.

Lemma degraded_response_witness :
  ridenow_handlers req (ext w_handler_fails) "book a cab" c_ride None
  = Throw "userId is not defined"
  /\ RideNowAgent.processMessage Oracle (agent_now req) (ridenow_handlers req)
       (ext w_handler_fails) "book a cab" c_ride None
     = Ok (BaseAgent.handleError "book a cab" "userId is not defined")
  /\ error (BaseAgent.handleError "book a cab" "userId is not defined") = Some true.
Proof.
  split; [reflexivity|].
  destruct (degraded_response (agent_now req) (ridenow_handlers req)
              (ext w_handler_fails) "book a cab" c_ride None
              "userId is not defined" eq_refl)
    as (_ & Hride & _ & Herr & _).
  split; [exact Hride|exact Herr].
Defined.

(** A sweep at work: two days after the turn of [u1], the sweep at the
    end of a turn of [u2] evicts the context of [u1] and keeps the one
    of [u2]. *)
Example sweep_evicts_idle_context :
  context_of s_ride "u1" = Some c_ride
  /\ context_of (snd (processMessage req w_later "u2" "book a cab" None s_ride)) "u1"
     = None
  /\ is_Some
       (context_of (snd (processMessage req w_later "u2" "book a cab" None s_ride)) "u2").
Proof.
  split; [vm_compute; reflexivity|]. split; [vm_compute; reflexivity|].
  vm_compute. eexists; reflexivity.
Qed.

(** ** Further properties at work on the concrete deployment *)

Lemma turn_classifies_at_most_once_witness :
  exists evs,
    completions
      (trace (snd (processMessage req w_ride "u1" "find me a cab" None started)))
    = (completions (trace started) ++ evs)%list
    /\ (length evs <= 1)%nat.
Proof.
  apply (turn_classifies_at_most_once req w_ride "u1" "find me a cab" None started).
  reflexivity.
Defined.

Lemma turn_appends_to_history_witness :
  exists c' rest,
    heap (snd (processMessage req w_boom "u1" "plan a trip" None s_ride)) !! 0%nat
    = Some c'
    /\ lastActivity c' = clock w_boom (clock_reads s_ride)
    /\ history c'
       = (history c_ride
          ++ UserEntry "plan a trip" (clock w_boom (S (clock_reads s_ride))) :: rest)%list
    /\ (length rest <= 2)%nat
    /\ Forall (fun h => entry_type h <> "user") rest.
Proof.
  apply (turn_appends_to_history req w_boom "u1" "plan a trip" None s_ride 0%nat c_ride).
  - reflexivity.
  - vm_compute; reflexivity.
  - vm_compute; reflexivity.
Defined.


Lemma successful_turn_is_recorded_witness :
  exists c' earlier last,
    context_of (snd (processMessage req w_ride "u1" "find me a cab" None started)) "u1"
    = Some c'
    /\ currentAgent c' = Some "ridenow"
    /\ history c' = (earlier ++ [last])%list
    /\ entry_content last = Some "Here you go."
    /\ entry_type last <> "user".
Proof.
  apply (successful_turn_is_recorded req w_ride "u1" "find me a cab" None started
           {| env_agent := "ridenow";
              env_message := Some "Here you go.";
              env_actions := Some [];
              env_suggestions := Some ["Book now"];
              env_handoff := Some HNull;
              env_metadata :=
                Some [("agent", Js.VStr "RideNow AI");
                      ("timestamp", Js.VNum 1700000000500)];
              env_error := None;
              env_originalError := None |}).
  - reflexivity.
  - intros i j Hi Hj. unfold w_ride, world, ticking, idle_threshold. cbn [clock].
    change (clock_reads started) with 0%nat in Hi, Hj. lia.
  - vm_compute; reflexivity.
  - reflexivity.
Defined.

Lemma askme_keeps_conversation_witness :
  exists env c',
    fst (processMessage req w_ride "u1" "find me a cab to the airport" None s_askme)
    = Ok env
    /\ env_agent env = "askme"
    /\ env_error env = None
    /\ env_handoff env = Some HNull
    /\ completions
         (trace (snd (processMessage req w_ride "u1" "find me a cab to the airport"
                        None s_askme)))
       = completions (trace s_askme)
    /\ heap (snd (processMessage req w_ride "u1" "find me a cab to the airport"
                    None s_askme)) !! 0%nat
       = Some c'
    /\ currentAgent c' = Some "askme"
    /\ handoffRequested c' = false.
Proof.
  apply (askme_keeps_conversation req w_ride "u1" "find me a cab to the airport"
           None s_askme 0%nat c_askme).
  - reflexivity.
  - vm_compute; reflexivity.
  - vm_compute; reflexivity.
  - vm_compute; reflexivity.
  - vm_compute; reflexivity.
Defined.

Lemma contexts_are_not_shared_witness :
  is_Some (context_of (run_all req calls_two_users new) "u2")
  /\ forall userId',
      conversationContext (run_all req calls_two_users new) !! userId' = Some 1%nat ->
      userId' = "u2".
Proof.
  apply (contexts_are_not_shared req calls_two_users "u2" 1%nat).
  vm_compute; reflexivity.
Defined.

Lemma turn_leaves_other_users_witness :
  context_of
    (snd (processMessage req w_boom "u2" "plan a trip" None
            (run_all req calls_two_users new)))
    "u1"
  = Some c_ride
  /\ context_of (run_all req calls_two_users new) "u1" = Some c_ride.
Proof.
  split; [vm_compute; reflexivity|].
  apply (turn_leaves_other_users req w_boom "u2" "plan a trip" None
           (run_all req calls_two_users new) "u1" c_ride).
  - apply wf_run_all.
  - apply refs_ok_run_all; [reflexivity|apply refs_ok_new].
  - discriminate.
  - vm_compute; reflexivity.
Defined.

Lemma processHandoff_without_context_witness :
  processHandoff w_ride "u1" "askme" None started
  = (Throw "No conversation context found for handoff",
     log_more
       [Log Error "Error processing handoff: No conversation context found for handoff"]
       started).
Proof.
  apply (processHandoff_without_context w_ride "u1" "askme" None started).
  vm_compute; reflexivity.
Defined.

Lemma processHandoff_unregistered_target_witness :
  fst (processHandoff w_ride "u1" "nobody" None s_ride)
  = Throw "Target agent nobody not found"
  /\ context_of (snd (processHandoff w_ride "u1" "nobody" None s_ride)) "u1"
     = Some (handed_over empty_handoffContext "nobody" c_ride)
  /\ clock_reads (snd (processHandoff w_ride "u1" "nobody" None s_ride))
     = clock_reads s_ride.
Proof.
  apply (processHandoff_unregistered_target w_ride "u1" "nobody" None s_ride
           0%nat c_ride).
  - vm_compute; reflexivity.
  - vm_compute; reflexivity.
  - reflexivity.
Defined.

Lemma processHandoff_transfers_witness :
  fst (processHandoff w_ride "u1" "shopsmart" None s_ride)
  = Ok {| env_agent := "shopsmart";
          env_message := Some "Welcome over here.";
          env_actions := Some [];
          env_suggestions := Some [];
          env_handoff := Some HTrue;
          env_metadata := Some [];
          env_error := None;
          env_originalError := None |}
  /\ context_of (snd (processHandoff w_ride "u1" "shopsmart" None s_ride)) "u1"
     = Some (push_history
               (handoff_entry empty_handoffContext "shopsmart" welcome
                  (clock w_ride (clock_reads s_ride)))
               (handed_over empty_handoffContext "shopsmart" c_ride))
  /\ conversationContext (snd (processHandoff w_ride "u1" "shopsmart" None s_ride))
     = conversationContext s_ride
  /\ trace (snd (processHandoff w_ride "u1" "shopsmart" None s_ride)) = trace s_ride.
Proof.
  apply (processHandoff_transfers w_ride "u1" "shopsmart" None s_ride 0%nat c_ride
           (ShopSmartAgent req) welcome).
  - vm_compute; reflexivity.
  - vm_compute; reflexivity.
  - reflexivity.
  - reflexivity.
Defined.

Lemma sweep_twice_witness :
  conversationContext
    (snd (cleanupOldContexts w_next_day (snd (cleanupOldContexts w_ride s_ride))))
  = filter (fun entry : string * nat =>
              stale s_ride
                (sweep_time w_next_day (snd (cleanupOldContexts w_ride s_ride))
                 - idle_threshold)
                (snd entry) = false)
      (conversationContext s_ride).
Proof.
  apply (sweep_twice w_ride w_next_day s_ride).
  vm_compute. discriminate.
Defined.

Lemma auto_handoff_unsaved_context_witness :
  fst (respond (w_handoff "askme" true) "u1" "plan a trip" None 0
         "travelbuddy" s_created)
  = Throw "No conversation context found for handoff"
  /\ conversationContext
       (snd (respond (w_handoff "askme" true) "u1" "plan a trip" None 0
               "travelbuddy" s_created)) !! "u1"
     = None.
Proof.
  apply (auto_handoff_unsaved_context (w_handoff "askme" true) "u1"
           "plan a trip" None 0%nat "travelbuddy" s_created c_created
           (TravelBuddyAgent req) (handoff_response "askme" true)
           {| targetAgent := "askme"; reason := "user asked a general question";
              hd_context := Some {| fromAgent := Some "TravelBuddy AI"; hc_rest := [] |};
              autoHandoff := true |}).
  - vm_compute; reflexivity.
  - vm_compute; reflexivity.
  - reflexivity.
  - intros c'. reflexivity.
  - reflexivity.
  - reflexivity.
Defined.

(** ** The order handlers of the Foodie agent *)

Section FoodieOrders.
Import FoodieAgent.
Variable extractLocation : string -> option string.
Variable gst_of : Z -> Z.

Lemma nothing_selected_initial : nothing_selected initialOrderState.
Proof. repeat split. Qed.

Lemma tryBlock_nothing_selected (turn : Turn) (orderStates : gmap string OrderState) :
  (forall key orderState,
      orderStates !! key = Some orderState -> nothing_selected orderState) ->
  forall key orderState,
    snd (tryBlock extractLocation gst_of turn orderStates) !! key = Some orderState ->
    nothing_selected orderState.
Proof.
  intros Hinv.
  assert (Hcur : nothing_selected (default initialOrderState (orderStates !! "anonymous"))).
  { destruct (orderStates !! "anonymous") as [st|] eqn:E; cbn.
    - eapply Hinv, E.
    - apply nothing_selected_initial. }
  destruct Hcur as (Hrest & Hitems & Htotal).
  unfold tryBlock.
  repeat match goal with
         | |- context [if String.eqb ?a ?b then _ else _] => destruct (String.eqb a b)
         end; cbn [snd fst]; try exact Hinv.
  - unfold handleFoodOrder.
    destruct (or_else (or_else _ _) None) as [location|]; cbn [snd]; [|exact Hinv].
    destruct (length _ =? 0)%nat; cbn [snd]; [exact Hinv|].
    intros key st. destruct (decide ("anonymous" = key)) as [<-|Hne].
    + rewrite lookup_insert_eq. intros [= <-]. repeat split; assumption.
    + rewrite lookup_insert_ne by exact Hne. apply Hinv.
  - unfold handleAddToCart. rewrite Hrest.
    destruct (or_else (item_name _) None) as [itemName|]; cbn [snd]; exact Hinv.
Qed.

Lemma after_nothing_selected (turns : list Turn) (orderStates : gmap string OrderState) :
  (forall key orderState,
      orderStates !! key = Some orderState -> nothing_selected orderState) ->
  forall key orderState,
    after extractLocation gst_of turns orderStates !! key = Some orderState ->
    nothing_selected orderState.
Proof.
  revert orderStates. induction turns as [|turn turns IH]; intros orderStates Hinv.
  - exact Hinv.
  - cbn [after fold_left]. apply IH. now apply tryBlock_nothing_selected.
Qed.

(** The cart never fills: whatever the turns of the agent were, no
    order state that the agent holds has a restaurant or an item in
    the cart, and its total is zero.  No handler assigns
    [orderState.restaurant], and without a restaurant [handleAddToCart]
    finds no menu. *)
Theorem cart_stays_empty (turns : list Turn) (key : string) (orderState : OrderState) :
  after extractLocation gst_of turns ∅ !! key = Some orderState ->
  nothing_selected orderState.
Proof.
  apply after_nothing_selected. intros k st Hk. now rewrite lookup_empty in Hk.
Qed.

(** A checkout always finds the cart empty: after any turns of the
    agent, a turn whose intent is [checkout] is answered with the
    reply for an empty cart. *)
Theorem checkout_finds_empty_cart (turns : list Turn) (turn : Turn) :
  intent (turn_analysis turn) = "checkout" ->
  fst (tryBlock extractLocation gst_of turn (after extractLocation gst_of turns ∅))
  = Ok emptyCartReply.
Proof.
  intros Hintent. unfold tryBlock. rewrite Hintent. cbn [String.eqb Ascii.eqb Bool.eqb fst].
  unfold handleCheckout.
  assert (H : nothing_selected
                (default initialOrderState
                   (after extractLocation gst_of turns ∅ !! "anonymous"))).
  { destruct (after extractLocation gst_of turns ∅ !! "anonymous") as [st|] eqn:E; cbn.
    - eapply after_nothing_selected; [|exact E]. intros k st0 Hk. now rewrite lookup_empty in Hk.
    - apply nothing_selected_initial. }
  destruct H as (_ & -> & _). reflexivity.
Qed.

End FoodieOrders.

(** ** The booking handler of the RideNow agent *)

Section RideBooking.
Import RideNowAgent.
Variables extractLocation extractDestination extractTime : string -> option string.

(** When something is missing, the rider is asked for the pickup
    first and for the destination otherwise: the general question of
    [askForMissingInfo] is never put. *)
Lemma asked_in_order (rideState : RideState) :
  validateRideRequirements rideState <> [] ->
  rr_actions (askForMissingInfo (validateRideRequirements rideState) rideState)
  = [LocationInput
       match pickup rideState with
       | None => "pickup"
       | Some _ => "destination"
       end].
Proof.
  unfold validateRideRequirements, askForMissingInfo.
  destruct (pickup rideState), (destination rideState); cbn; intros H;
    try reflexivity.
  now contradiction H.
Qed.

Lemma insert_by_fare_perm (ride : Ride) (sorted : list Ride) :
  Permutation (insert_by_fare ride sorted) (ride :: sorted).
Proof.
  induction sorted as [|ride' rest IH]; cbn; [reflexivity|].
  destruct (fare ride <=? fare ride'); [reflexivity|].
  rewrite IH. apply perm_swap.
Qed.

Lemma insert_by_fare_sorted (ride : Ride) (sorted : list Ride) :
  StronglySorted (fun a b => fare a <= fare b) sorted ->
  StronglySorted (fun a b => fare a <= fare b) (insert_by_fare ride sorted).
Proof.
  induction 1 as [|ride' rest Hrest IH Hall]; cbn.
  - repeat constructor.
  - destruct (fare ride <=? fare ride') eqn:E.
    + apply Z.leb_le in E. constructor; [now constructor|].
      constructor; [exact E|].
      eapply Forall_impl; [exact Hall|]. cbn. intros; lia.
    + apply Z.leb_gt in E. constructor; [exact IH|].
      rewrite insert_by_fare_perm. constructor; [lia|exact Hall].
Qed.

(** Without a preferred ride type, the rides come back ordered by
    fare, cheapest first, and they are the same rides. *)
Theorem rides_are_sorted_by_fare (rides : list Ride)
    (userPreferences : option User.RidePreferences) :
  Js.truthy_str
    (match userPreferences with
     | Some preferences => User.preferredRideType preferences
     | None => None
     end) = false ->
  Permutation (selectRides rides userPreferences) rides
  /\ StronglySorted (fun a b => fare a <= fare b) (selectRides rides userPreferences).
Proof.
  intros Hpref. unfold selectRides. rewrite Hpref. unfold sort_by_fare.
  induction rides as [|ride rides [IHp IHs]]; cbn [fold_right].
  - split; constructor.
  - split.
    + rewrite insert_by_fare_perm. now constructor.
    + now apply insert_by_fare_sorted.
Qed.

(** The booking handler never gets as far as offering rides: it asks
    for a missing place, reports that there are no rides, or throws;
    what it throws is [userId is not defined] or, when the analysis
    has no entities, the TypeError of reading [destination] from
    [undefined] or [null].  It never adds a user to [rideStates]. *)
Theorem booking_never_offers_rides (message : string) (analysis : Analysis)
    (context : ConversationContext) (userProfile : option User.t)
    (rideStates : gmap string RideState) :
  match fst (bookRide extractLocation extractDestination extractTime message
               analysis context userProfile rideStates) with
  | Ok reply =>
      (exists destination, entities analysis = EntitiesOf destination)
      /\ ((exists field, rr_actions reply = [LocationInput field])
          \/ reply = noRidesReply)
  | Throw e =>
      match entities analysis with
      | EntitiesOf _ => e = "userId is not defined"
      | EntitiesUndefined =>
          e = "Cannot read properties of undefined (reading 'destination')"
      | EntitiesNull =>
          e = "Cannot read properties of null (reading 'destination')"
      end
  end
  /\ forall key,
      snd (bookRide extractLocation extractDestination extractTime message
             analysis context userProfile rideStates) !! key = None
      <-> rideStates !! key = None.
Proof.
  unfold bookRide, userId_of.
  set (rideState := default initialRideState (rideStates !! "anonymous")).
  unfold handleRideBooking, read_destination.
  assert (Hkeys : forall st' key,
             match rideStates !! "anonymous" with
             | Some _ => <["anonymous" := st']> rideStates
             | None => rideStates
             end !! key = None <-> rideStates !! key = None).
  { intros st' key. destruct (rideStates !! "anonymous") eqn:E; [|reflexivity].
    destruct (decide ("anonymous" = key)) as [<-|Hne].
    - rewrite lookup_insert_eq, E. split; discriminate.
    - now rewrite lookup_insert_ne. }
  destruct (entities analysis) as [| |entity];
    [cbn [fst snd]; split; [reflexivity|apply Hkeys]..|].
  set (st := from_option set_bookingTime id _ _).
  destruct (0 <? length (validateRideRequirements st))%nat eqn:Hmissing.
  - cbn [fst snd]. split; [|apply Hkeys].
    split; [eauto|].
    left. apply Nat.ltb_lt in Hmissing.
    rewrite asked_in_order; [eauto|].
    intros E. rewrite E in Hmissing. cbn in Hmissing. lia.
  - destruct (length _ =? 0)%nat; cbn [fst snd unbound]; (split; [|apply Hkeys]);
      eauto.
Qed.

(** A complete booking request fails: for a user with a saved
    address who names a destination, as soon as a ride is available
    the handler throws [userId is not defined], the identifier that
    [handleRideBooking] reads without declaring it. *)
Theorem complete_booking_throws (message : string) (analysis : Analysis)
    (context : ConversationContext) (user : User.t) (address : User.Address)
    (others : list User.Address) (rideStates : gmap string RideState) :
  User.addresses user = address :: others ->
  Js.truthy_str (entity_destination analysis) = true ->
  selectRides mockRides
    (match User.preferences user with
     | Some preferences => User.ride preferences
     | None => None
     end) <> [] ->
  fst (bookRide extractLocation extractDestination extractTime message
         analysis context (Some user) rideStates)
  = Throw "userId is not defined".
Proof.
  intros Haddr Hdest Hrides.
  unfold bookRide, userId_of, handleRideBooking, read_destination.
  unfold entity_destination in Hdest.
  destruct (entities analysis) as [| |[place|]]; try discriminate Hdest.
  rewrite Haddr. cbn [head option_map].
  unfold or_else at 3. rewrite Hdest. unfold or_else at 2. rewrite Hdest.
  cbn [from_option].
  set (rideState := default initialRideState (rideStates !! "anonymous")).
  assert (Hvalid : forall st,
             pickup st <> None -> destination st <> None ->
             validateRideRequirements st = []).
  { intros st Hp Hd. unfold validateRideRequirements.
    destruct (pickup st); [|contradiction]. destruct (RideNowAgent.destination st);
      [reflexivity|contradiction]. }
  match goal with
  | |- context [validateRideRequirements ?st] =>
      rewrite (Hvalid st)
  end.
  - cbn [length Nat.ltb Nat.leb]. unfold getAvailableRides.
    destruct (selectRides mockRides _) as [|ride rides]; [contradiction|].
    reflexivity.
  - destruct (or_else (extractTime message) None), (or_else (extractLocation message) None);
      cbn; discriminate.
  - destruct (or_else (extractTime message) None), (or_else (extractLocation message) None);
      cbn; discriminate.
Qed.
End RideBooking.

(** ** The keyword gates and the response format *)

Section Agents.

Lemma prefix_app (needle hay rest : string) :
  String.prefix needle hay = true -> String.prefix needle (hay +:+ rest) = true.
Proof.
  revert hay. induction needle as [|c needle IH]; intros hay.
  - intros _. now destruct (hay +:+ rest).
  - destruct hay as [|c' hay]; [discriminate|].
    change (String c' hay +:+ rest) with (String c' (hay +:+ rest)).
    cbn [String.prefix].
    destruct (Ascii.ascii_dec c c'); [apply IH|discriminate].
Qed.

Lemma includes_prefix (hay needle : string) :
  String.prefix needle hay = true -> Js.includes hay needle = true.
Proof. intros H. destruct hay; cbn [Js.includes]; now rewrite H. Qed.

Lemma includes_cons (c : ascii) (hay needle : string) :
  Js.includes hay needle = true -> Js.includes (String c hay) needle = true.
Proof. intros H. cbn [Js.includes]. rewrite H. apply orb_true_r. Qed.

Lemma includes_app_r (hay needle rest : string) :
  Js.includes hay needle = true -> Js.includes (hay +:+ rest) needle = true.
Proof.
  induction hay as [|c hay IH].
  - cbn [Js.includes]. rewrite orb_false_r. intros H.
    apply includes_prefix. now apply (prefix_app needle "" rest).
  - change (String c hay +:+ rest) with (String c (hay +:+ rest)).
    cbn [Js.includes]. intros H. apply orb_true_iff in H as [H|H].
    + apply (prefix_app needle (String c hay) rest) in H.
      change (String c hay +:+ rest) with (String c (hay +:+ rest)) in H.
      now rewrite H.
    + rewrite (IH H). apply orb_true_r.
Qed.

Lemma includes_app_l (before hay needle : string) :
  Js.includes hay needle = true -> Js.includes (before +:+ hay) needle = true.
Proof.
  intros H. induction before as [|c before IH]; [exact H|].
  change (String c before +:+ hay) with (String c (before +:+ hay)).
  now apply includes_cons.
Qed.

Lemma toLowerCase_app (a b : string) :
  Js.toLowerCase (a +:+ b) = Js.toLowerCase a +:+ Js.toLowerCase b.
Proof.
  induction a as [|c a IH]; [reflexivity|].
  change (String c a +:+ b) with (String c (a +:+ b)).
  cbn [Js.toLowerCase]. rewrite IH. reflexivity.
Qed.

Lemma keyword_gate_grows (keywords : list string) (message before after : string) :
  existsb
    (fun keyword => Js.includes (Js.toLowerCase message) (Js.toLowerCase keyword))
    keywords = true ->
  existsb
    (fun keyword =>
       Js.includes (Js.toLowerCase (before +:+ message +:+ after))
         (Js.toLowerCase keyword))
    keywords = true.
Proof.
  rewrite !existsb_exists. intros (keyword & Hin & Hk). exists keyword.
  split; [exact Hin|]. rewrite !toLowerCase_app.
  now apply includes_app_l, includes_app_r.
Qed.

(** The keyword gates of the ride and the food agent are monotone:
    text added before and after a message that the agent accepts
    never makes the agent refuse it, whatever the case of the letters
    and whatever the context. *)
Theorem keyword_gate_is_monotone (message before after : string)
    (c c' : ConversationContext) :
  (RideNowAgent.canHandle message c = Ok true ->
   RideNowAgent.canHandle (before +:+ message +:+ after) c' = Ok true)
  /\ (FoodieAgent.canHandle message c = Ok true ->
      FoodieAgent.canHandle (before +:+ message +:+ after) c' = Ok true).
Proof.
  unfold RideNowAgent.canHandle, FoodieAgent.canHandle.
  split; intros [= H]; f_equal; now apply keyword_gate_grows.
Qed.

Lemma get_set (o : Js.Object) (k k' : string) (v : Js.Val) :
  Js.get (Js.set o k v) k' = if String.eqb k k' then Some v else Js.get o k'.
Proof.
  induction o as [|[k0 v0] o IH]; cbn [Js.set Js.get]; [reflexivity|].
  destruct (String.eqb k0 k) eqn:E0.
  - apply String.eqb_eq in E0. subst k0. cbn [Js.get].
    now destruct (String.eqb k k').
  - cbn [Js.get]. rewrite IH. destruct (String.eqb k0 k') eqn:E1; [|reflexivity].
    apply String.eqb_eq in E1. subst k0. now rewrite String.eqb_sym, E0.
Qed.

Lemma get_spread (a b : Js.Object) (k : string) :
  Js.get (Js.spread a b) k
  = match Js.get (rev b) k with
    | Some v => Some v
    | None => Js.get a k
    end.
Proof.
  unfold Js.spread. revert a. induction b as [|[k0 v0] b IH]; intros a; [reflexivity|].
  cbn [fold_left fst snd rev]. rewrite IH, get_set.
  assert (Happ : forall (x y : Js.Object),
             Js.get (x ++ y)%list k
             = match Js.get x k with Some v => Some v | None => Js.get y k end).
  { induction x as [|[k1 v1] x IHx]; intros y; cbn [app Js.get]; [reflexivity|].
    destruct (String.eqb k1 k); [reflexivity|apply IHx]. }
  rewrite Happ. destruct (Js.get (rev b) k); [reflexivity|]. cbn [Js.get].
  now destruct (String.eqb k0 k).
Qed.

(** A formatted response is stamped: its metadata names the agent
    and carries the time of the call under [agent] and [timestamp],
    unless the metadata of the caller sets these keys itself, and every
    key of the caller is in it with the value the caller gave last. *)
Theorem formatResponse_stamps (name : string) (now : Z) (msg : string)
    (acts : list Action) (sugg : list string) (md : Js.Object) :
  exists stamped,
    metadata (BaseAgent.formatResponse name now msg acts sugg md) = Some stamped
    /\ Js.get stamped "agent"
       = Some (default (Js.VStr name) (Js.get (rev md) "agent"))
    /\ Js.get stamped "timestamp"
       = Some (default (Js.VNum now) (Js.get (rev md) "timestamp"))
    /\ forall key value,
        Js.get (rev md) key = Some value -> Js.get stamped key = Some value.
Proof.
  eexists. split; [reflexivity|]. rewrite !get_spread.
  split; [|split].
  - now destruct (Js.get (rev md) "agent").
  - now destruct (Js.get (rev md) "timestamp").
  - intros key value Hk. now rewrite get_spread, Hk.
Qed.
End Agents.

(** ** The routes that read and write the user document *)

Section UserDocument.
Import User Routes.

Lemma includes_In (l : list string) (x : string) : includes l x = true <-> In x l.
Proof.
  unfold includes. rewrite existsb_exists. split.
  - intros (y & Hy & E). apply String.eqb_eq in E. now subst.
  - intros Hx. exists x. split; [exact Hx|apply String.eqb_refl].
Qed.

Lemma unique_In (seen l : list string) (x : string) :
  In x (unique seen l) <-> In x l /\ ~ In x seen.
Proof.
  revert seen. induction l as [|y l IH]; intros seen; cbn [unique].
  - cbn. tauto.
  - destruct (includes seen y) eqn:E.
    + apply includes_In in E. rewrite IH. cbn. split.
      * tauto.
      * intros [[<-|Hx] Hn]; [contradiction|tauto].
    + assert (Hy : ~ In y seen) by (rewrite <- includes_In, E; discriminate).
      cbn [In]. rewrite IH. cbn [In].
      destruct (decide (y = x)) as [->|Hne]; [tauto|]. tauto.
Qed.

Lemma unique_NoDup (seen l : list string) : List.NoDup (unique seen l).
Proof.
  revert seen. induction l as [|y l IH]; intros seen; cbn [unique].
  - constructor.
  - destruct (includes seen y); [apply IH|].
    constructor; [|apply IH]. rewrite unique_In. cbn. tauto.
Qed.

(** The favourites that the route saves: no agent twice, exactly
    the agents of the request, every one of them a valid identifier,
    so at most six. *)
Theorem favorite_agents_saved (agents favorites : list string) :
  putFavoriteAgents agents = Success 200 favorites ->
  List.NoDup favorites
  /\ (forall agent, In agent favorites <-> In agent agents)
  /\ (forall agent, In agent favorites -> In agent validAgents)
  /\ (length favorites <= 6)%nat.
Proof.
  unfold putFavoriteAgents.
  destruct (0 <? length _)%nat eqn:E; [discriminate|]. intros [= <-].
  apply Nat.ltb_ge in E.
  assert (Hvalid : forall agent, In agent agents -> In agent validAgents).
  { intros agent Hin. apply includes_In.
    destruct (includes validAgents agent) eqn:Hv; [reflexivity|].
    assert (Hf : In agent
                   (List.filter (fun agent => negb (includes validAgents agent)) agents)).
    { apply filter_In. split; [exact Hin|]. now rewrite Hv. }
    destruct (List.filter _ agents); [contradiction|cbn in E; lia]. }
  assert (Hin : forall agent, In agent (unique [] agents) <-> In agent agents).
  { intros agent. rewrite unique_In. cbn. tauto. }
  split; [apply unique_NoDup|]. split; [exact Hin|]. split.
  - intros agent Ha. apply Hvalid, Hin, Ha.
  - change 6%nat with (length validAgents).
    apply List.NoDup_incl_length; [apply unique_NoDup|].
    intros agent Ha. apply Hvalid, Hin, Ha.
Qed.

(** *** Defaults *)

Section Subdocuments.
Context {A : Type} `{Subdocument A}.
Hypothesis isDefault_setDefault : forall b (doc : A), isDefault (setDefault b doc) = b.

Lemma defaults_cons (doc : A) (docs : list A) :
  defaults (doc :: docs) = ((if isDefault doc then 1 else 0) + defaults docs)%nat.
Proof. unfold defaults. cbn [List.filter]. now destruct (isDefault doc). Qed.

Lemma defaults_app (docs docs' : list A) :
  defaults (docs ++ docs') = (defaults docs + defaults docs')%nat.
Proof. unfold defaults. now rewrite List.filter_app, length_app. Qed.

Lemma defaults_delete (index : nat) (docs : list A) (deleted : A) :
  docs !! index = Some deleted ->
  defaults docs
  = ((if isDefault deleted then 1 else 0) + defaults (delete index docs))%nat.
Proof.
  revert index. induction docs as [|doc docs IH]; intros [|index] Hd;
    try discriminate Hd.
  - injection Hd as ->. apply defaults_cons.
  - change (delete (S index) (doc :: docs)) with (doc :: delete index docs).
    rewrite !defaults_cons, (IH index Hd). lia.
Qed.

Lemma defaults_unset (docs : list A) : defaults (map (setDefault false) docs) = 0%nat.
Proof.
  induction docs as [|doc docs IH]; [reflexivity|].
  cbn [map]. now rewrite defaults_cons, isDefault_setDefault, IH.
Qed.

Lemma findIndex_Some (p : A -> bool) (docs : list A) (index : nat) :
  findIndex p docs = Some index ->
  exists doc, docs !! index = Some doc /\ p doc = true.
Proof.
  revert index. induction docs as [|doc docs IH]; intros index; cbn; [discriminate|].
  destruct (p doc) eqn:E.
  - intros [= <-]. eauto.
  - destruct (findIndex p docs) as [i|]; cbn; [|discriminate].
    intros [= <-]. now apply IH.
Qed.

Lemma findIndex_first (p : A -> bool) (docs : list A) (index : nat) :
  findIndex p docs = Some index ->
  forall i doc, (i < index)%nat -> docs !! i = Some doc -> p doc = false.
Proof.
  revert index. induction docs as [|doc docs IH]; intros index; cbn; [discriminate|].
  destruct (p doc) eqn:E.
  - intros [= <-] i doc' Hi. lia.
  - destruct (findIndex p docs) as [j|]; cbn; [|discriminate].
    intros [= <-] [|i] doc' Hi Hd.
    + injection Hd as <-. exact E.
    + apply (IH j eq_refl i doc'); [lia|exact Hd].
Qed.

Lemma deleteSubdocument_spec (notFound id : string) (docs saved : list A) :
  deleteSubdocument notFound id docs = Success 200 saved ->
  exists index deleted,
    docs !! index = Some deleted
    /\ _id deleted = id
    /\ (forall i earlier,
           (i < index)%nat -> docs !! i = Some earlier -> _id earlier <> id)
    /\ saved
       = match delete index docs with
         | first :: others =>
             (if isDefault deleted then setDefault true first else first) :: others
         | [] => []
         end
    /\ (one_default docs -> one_default saved)
    /\ ((defaults docs <= 1)%nat -> (defaults saved <= 1)%nat).
Proof.
  unfold deleteSubdocument.
  destruct (findIndex _ docs) as [index|] eqn:Hfind; [|discriminate].
  destruct (findIndex_Some _ _ _ Hfind) as (deleted & Hdel & Hid).
  apply String.eqb_eq in Hid. rewrite Hdel. intros [= <-].
  exists index, deleted. split; [exact Hdel|]. split; [exact Hid|].
  split.
  { intros i earlier Hi He Heq.
    pose proof (findIndex_first _ _ _ Hfind i earlier Hi He) as Hp.
    cbn in Hp. rewrite Heq, String.eqb_refl in Hp. discriminate Hp. }
  pose proof (defaults_delete index docs deleted Hdel) as Hcount.
  destruct (delete index docs) as [|first others] eqn:Hrest.
  - split; [reflexivity|]. split; [now left|]. intros _. cbn. lia.
  - destruct (isDefault deleted) eqn:Hd.
    + split; [reflexivity|].
      assert (Hone : (defaults docs <= 1)%nat -> defaults (setDefault true first :: others) = 1%nat).
      { intros Hle. rewrite defaults_cons in *. rewrite isDefault_setDefault.
        destruct (isDefault first); lia. }
      split.
      * intros [->|Hone']; [discriminate Hdel|]. right. apply Hone. lia.
      * intros Hle. rewrite Hone; [lia|exact Hle].
    + split; [reflexivity|]. split.
      * intros [->|Hone']; [discriminate Hdel|]. right. lia.
      * lia.
Qed.
End Subdocuments.

Lemma paymentMethod_setDefault (b : bool) (pm : PaymentMethod) :
  isDefault (setDefault b pm) = b.
Proof. reflexivity. Qed.

Lemma address_setDefault (b : bool) (address : Address) :
  isDefault (setDefault b address) = b.
Proof. reflexivity. Qed.

(** Deleting an address: the route answers 200 only for the
    identifier of a stored address; it removes the first address
    with that identifier and leaves the others in their order, and
    when the deleted address was the default it makes the first of
    the others the default.  So addresses with exactly one default
    still have exactly one, unless none is left, and at most one
    default stays at most one. *)
Theorem deleteAddress_keeps_default (addressId : string)
    (addresses saved : list Address) :
  deleteAddress addressId addresses = Success 200 saved ->
  exists index deleted,
    addresses !! index = Some deleted
    /\ addr_id deleted = addressId
    /\ (forall i earlier,
           (i < index)%nat -> addresses !! i = Some earlier ->
           addr_id earlier <> addressId)
    /\ saved
       = match delete index addresses with
         | first :: others =>
             (if addr_isDefault deleted then setDefault true first else first)
             :: others
         | [] => []
         end
    /\ (one_default addresses -> one_default saved)
    /\ ((defaults addresses <= 1)%nat -> (defaults saved <= 1)%nat).
Proof.
  intros Hdel.
  exact (deleteSubdocument_spec address_setDefault _ _ _ _ Hdel).
Qed.

Lemma cast_to_false_cases (v : BodyValue) :
  cast_to_false v = false ->
  truthy v = true ->
  castBoolean v = Some true \/ castBoolean v = None.
Proof.
  unfold cast_to_false. intros Hc Ht. rewrite Ht in Hc. cbn [andb] in Hc.
  apply bool_decide_eq_false in Hc.
  destruct (castBoolean v) as [[|]|]; auto. now contradiction Hc.
Qed.

Lemma serve_one_default (request : PaymentRequest) (paymentMethods : list PaymentMethod) :
  plainly_flagged request ->
  one_default paymentMethods -> one_default (serve request paymentMethods).
Proof.
  intros Hflag Hone. unfold serve.
  destruct request as [newId type provider identifier def md|id].
  - unfold postPaymentMethod. destruct (negb _); [exact Hone|].
    cbn [plainly_flagged] in Hflag.
    destruct (truthy def) eqn:Ht.
    + destruct (cast_to_false_cases def Hflag Ht) as [-> | ->]; [|exact Hone].
      right. rewrite defaults_app, defaults_cons.
      cbn [isDefault paymentMethod_subdocument pm_isDefault].
      change (defaults (A := PaymentMethod) []) with 0%nat.
      rewrite (defaults_unset paymentMethod_setDefault). reflexivity.
    + cbn [castBoolean]. right. rewrite defaults_app, defaults_cons.
      cbn [isDefault paymentMethod_subdocument pm_isDefault].
      change (defaults (A := PaymentMethod) []) with 0%nat.
      destruct Hone as [->|Hone]; [reflexivity|].
      destruct paymentMethods; [discriminate Hone|]. cbn [length Nat.eqb]. lia.
  - destruct (deletePaymentMethod id paymentMethods) as [status msg|status saved] eqn:E;
      [exact Hone|].
    assert (status = 200%nat) as ->.
    { unfold deletePaymentMethod, deleteSubdocument in E.
      destruct (findIndex _ _); [now injection E|discriminate]. }
    destruct (deleteSubdocument_spec paymentMethod_setDefault _ _ _ _ E)
      as (index & deleted & _ & _ & _ & _ & H4 & _).
    now apply H4.
Qed.

(** The payment methods have exactly one default, unless there are
    none: after any requests to add or to delete a payment method,
    starting from a user without payment methods, as long as no
    request carries as [isDefault] one of the strings that the
    handler takes for true and the schema casts to false (['false'],
    ['0'], ['no']). *)
Theorem payment_methods_have_one_default (requests : list PaymentRequest) :
  Forall plainly_flagged requests ->
  one_default (fold_left (fun saved request => serve request saved) requests []).
Proof.
  assert (H : forall saved,
             Forall plainly_flagged requests ->
             one_default saved ->
             one_default (fold_left (fun saved request => serve request saved)
                            requests saved)).
  { induction requests as [|request requests IH]; intros saved Hf Hs; [exact Hs|].
    inversion Hf as [|? ? Hrequest Hrest]; subst.
    cbn [fold_left]. apply IH; [exact Hrest|]. now apply serve_one_default. }
  intros Hf. apply H; [exact Hf|]. now left.
Qed.

(** Such a string breaks the rule: the first payment method of a
    user, added with [isDefault: 'false'], is not the default, and the
    user has none. *)
Example text_false_leaves_no_default (newId : string) :
  cast_to_false (Text "false") = true
  /\ serve (AddPaymentMethod newId "UPI" None "user@upi" (Text "false") None) []
     = [{| pm_id := newId; pm_type := "UPI"; pm_provider := None;
           pm_identifier := "user@upi"; pm_isDefault := false;
           pm_metadata := None |}]
  /\ ~ one_default
        (serve (AddPaymentMethod newId "UPI" None "user@upi" (Text "false") None) []).
Proof.
  split; [reflexivity|]. split; [reflexivity|].
  intros [H|H]; [discriminate H|]. cbn in H. discriminate H.
Qed.

(** The saved history never exceeds 100 conversations: the route
    keeps the newest ones, the conversation of the request last. *)
Theorem history_is_capped (now : Z) (agentType : string) (context : Js.Object)
    (history : list Conversation) :
  agentType <> "" ->
  exists saved dropped,
    postHistory now (Some agentType) (Some context) history = Success 200 saved
    /\ length saved = Nat.min 100 (S (length history))
    /\ (history ++ [{| User.agentType := agentType; conv_context := context;
                       conv_timestamp := now |}] = dropped ++ saved)%list
    /\ last saved
       = Some {| User.agentType := agentType; conv_context := context;
                 conv_timestamp := now |}.
Proof.
  intros Hne. unfold postHistory. cbn [Js.truthy_str].
  destruct (String.eqb agentType "") eqn:E; [apply String.eqb_eq in E; contradiction|].
  cbn [negb].
  set (entry := {| User.agentType := agentType; conv_context := context;
                   conv_timestamp := now |}).
  destruct (100 <? length (history ++ [entry]))%nat eqn:Hlen.
  - apply Nat.ltb_lt in Hlen. rewrite length_app in Hlen. cbn in Hlen.
    exists (Js.slice_last 100 (history ++ [entry])),
      (take (length (history ++ [entry]) - 100) (history ++ [entry])).
    split; [reflexivity|]. unfold Js.slice_last. split; [|split].
    + rewrite length_skipn, length_app, Nat.min_l by lia. cbn [length]. lia.
    + now rewrite take_drop.
    + rewrite length_app. cbn [length].
      replace (length history + 1 - 100)%nat with (length history - 99)%nat by lia.
      rewrite skipn_app. 
      replace (length history - 99 - length history)%nat with 0%nat by lia.
      cbn [skipn]. apply last_snoc.
  - apply Nat.ltb_ge in Hlen. rewrite length_app in Hlen. cbn in Hlen.
    exists (history ++ [entry])%list, []. split; [reflexivity|].
    split; [rewrite length_app, Nat.min_r by lia; cbn [length]; lia|].
    split; [reflexivity|apply last_snoc].
Qed.
End UserDocument.

(** ** Agent usage *)

Section AgentUsage.
Import User Routes.

Lemma usage_of_count (usage : list (string * Z)) (agent key : string) :
  usage_of (count usage agent) key
  = if String.eqb agent key then Some (default 0 (usage_of usage key) + 1)
    else usage_of usage key.
Proof.
  induction usage as [|[k n] usage IH]; cbn [count usage_of].
  - destruct (String.eqb agent key); reflexivity.
  - destruct (String.eqb k agent) eqn:Eka.
    + apply String.eqb_eq in Eka. subst k. cbn [usage_of].
      destruct (String.eqb agent key); reflexivity.
    + cbn [usage_of]. rewrite IH.
      destruct (String.eqb k key) eqn:Ekk; [|reflexivity].
      apply String.eqb_eq in Ekk. subst k. now rewrite String.eqb_sym, Eka.
Qed.

Lemma usage_of_fold (history : list Conversation) (usage : list (string * Z))
    (key : string) :
  usage_of (fold_left (fun usage conv => count usage (agentType conv)) history usage) key
  = if (conversations_with key history =? 0)%nat then usage_of usage key
    else Some (default 0 (usage_of usage key) + Z.of_nat (conversations_with key history)).
Proof.
  revert usage. induction history as [|conv history IH]; intros usage; [reflexivity|].
  cbn [fold_left]. rewrite IH, usage_of_count. unfold conversations_with.
  cbn [List.filter]. destruct (String.eqb (agentType conv) key); cbn [length].
  - destruct (length _ =? 0)%nat eqn:E.
    + apply Nat.eqb_eq in E. rewrite E. cbn. f_equal.
    + cbn [Nat.eqb default from_option id]. f_equal. lia.
  - reflexivity.
Qed.

Lemma usage_of_agentUsage (history : list Conversation) (key : string) :
  usage_of (agentUsage history) key
  = if (conversations_with key history =? 0)%nat then None
    else Some (Z.of_nat (conversations_with key history)).
Proof. unfold agentUsage. rewrite usage_of_fold. cbn. now destruct (_ =? 0)%nat. Qed.

Lemma usage_of_In (usage : list (string * Z)) (key : string) :
  In key (map fst usage) <-> is_Some (usage_of usage key).
Proof.
  induction usage as [|[k n] usage IH]; cbn [map fst In usage_of].
  - split; [contradiction|]. intros [x Hx]. discriminate Hx.
  - destruct (String.eqb k key) eqn:E.
    + apply String.eqb_eq in E. split; eauto.
    + rewrite IH. split; [intros [->|Hs]; [|exact Hs]|intros Hs; now right].
      now rewrite String.eqb_refl in E.
Qed.

Lemma insert_index_In (n x : N) (l : list N) :
  In x (insert_index n l) <-> x = n \/ In x l.
Proof.
  induction l as [|m l IH]; cbn [insert_index In]; [intuition congruence|].
  destruct (n <=? m)%N; cbn [In]; [intuition congruence|]. rewrite IH.
  intuition congruence.
Qed.

Lemma sorted_indices_In (x : N) (l : list N) :
  In x (fold_right insert_index [] l) <-> In x l.
Proof.
  induction l as [|n l IH]; cbn [fold_right In]; [tauto|].
  rewrite insert_index_In, IH. intuition congruence.
Qed.

Lemma array_index_pretty (key : string) (n : N) :
  array_index key = Some n -> pretty n = key.
Proof.
  unfold array_index. destruct key as [|c key]; [discriminate|].
  destruct (parse_digits 0 _) as [m|]; [|discriminate].
  destruct (String.eqb (pretty m) _) eqn:E; cbn [andb]; [|discriminate].
  apply String.eqb_eq in E. destruct (m <? _)%N; [|discriminate].
  now intros [= <-].
Qed.

Lemma Object_keys_In (obj : list (string * Z)) (key : string) :
  In key (Object_keys obj) <-> In key (map fst obj).
Proof.
  unfold Object_keys. rewrite in_app_iff, in_map_iff, filter_In. split.
  - intros [(n & Hn & Hin)|[Hin _]]; [|exact Hin].
    apply sorted_indices_In, list_elem_of_In, list_elem_of_omap in Hin.
    destruct Hin as (key' & Hkey' & Hidx). apply array_index_pretty in Hidx.
    apply list_elem_of_In. congruence.
  - intros Hin. destruct (array_index key) as [n|] eqn:Hidx.
    + left. exists n. split; [now apply array_index_pretty|].
      apply sorted_indices_In, list_elem_of_In, list_elem_of_omap.
      exists key. split; [now apply list_elem_of_In|exact Hidx].
    + right. split; [exact Hin|]. apply negb_true_iff, bool_decide_eq_false.
      intros [x Hx]. discriminate Hx.
Qed.

(** One step of the reduction. *)
Lemma reduce_Some (usage : list (string * Z)) (keys : list string) (key : string) :
  is_Some
    (fold_left
       (fun a b =>
          if greater (usage_of usage (property_key a)) (usage_of usage b)
          then a else Some b)
       keys (Some key)).
Proof.
  revert key. induction keys as [|b keys IH]; intros key; cbn [fold_left]; [eauto|].
  destruct (greater _ _); apply IH.
Qed.

Lemma greater_irrefl (x : option Z) : greater x x = false.
Proof. destruct x as [x|]; [apply Z.ltb_irrefl|reflexivity]. Qed.

Lemma reduce_None (usage : list (string * Z)) (keys : list string) :
  fold_left
    (fun a b =>
       if greater (usage_of usage (property_key a)) (usage_of usage b)
       then a else Some b)
    keys None = None ->
  ~ In "null" keys.
Proof.
  induction keys as [|b keys IH]; cbn [fold_left In]; [tauto|].
  destruct (greater _ _) eqn:E.
  - intros Hnone [->|Hin]; [|now apply IH].
    cbn [property_key] in E. now rewrite greater_irrefl in E.
  - intros Hnone. destruct (reduce_Some usage keys b) as [x Hx]. congruence.
Qed.

Lemma reduce_max (usage : list (string * Z)) (keys : list string) (a : option string) :
  (forall b, In b keys -> is_Some (usage_of usage b)) ->
  let r :=
    fold_left
      (fun a b =>
         if greater (usage_of usage (property_key a)) (usage_of usage b)
         then a else Some b)
      keys a in
  (r = a \/ exists key, r = Some key /\ In key keys)
  /\ (forall b n, In b keys -> usage_of usage b = Some n ->
        exists m, usage_of usage (property_key r) = Some m /\ n <= m)
  /\ (forall n, usage_of usage (property_key a) = Some n ->
        exists m, usage_of usage (property_key r) = Some m /\ n <= m).
Proof.
  revert a. induction keys as [|b keys IH]; intros a Hkeys; cbn zeta; cbn [fold_left].
  - split; [now left|]. split; [contradiction|]. intros n Hn. exists n. split; [exact Hn|lia].
  - destruct (Hkeys b (or_introl eq_refl)) as [nb Hb].
    assert (Hkeys' : forall b', In b' keys -> is_Some (usage_of usage b'))
      by (intros; apply Hkeys; now right).
    destruct (greater _ _) eqn:E.
    + destruct (IH a Hkeys') as (Hr & Hall & Ha).
      split; [destruct Hr as [Hr|(key & Hr & Hin)]; [now left|right; exists key; cbn; auto]|].
      split; [|exact Ha].
      intros b' n [<-|Hin] Hn; [|now apply (Hall b' n)].
      rewrite Hb in *. injection Hn as <-.
      destruct (usage_of usage (property_key a)) as [na|] eqn:Ena; [|discriminate E].
      cbn in E. apply Z.ltb_lt in E.
      destruct (Ha na eq_refl) as (m & Hm & Hle). exists m. split; [exact Hm|lia].
    + destruct (IH (Some b) Hkeys') as (Hr & Hall & Hb').
      cbn [property_key] in Hb'.
      split; [right; destruct Hr as [Hr|(key & Hr & Hin)];
              [exists b; cbn; auto|exists key; cbn; auto]|].
      split.
      * intros b' n [<-|Hin] Hn; [now apply Hb'|now apply (Hall b' n)].
      * intros n Hn. rewrite Hn, Hb in E. cbn in E. apply Z.ltb_ge in E.
        destruct (Hb' nb Hb) as (m & Hm & Hle). exists m. split; [exact Hm|lia].
Qed.

(** [mostUsedAgent] names an agent with which the user had the most
    conversations; it is [null] for an empty history only.  The
    agent types are those for which the usage object counts as
    modelled: none of them names a property of [Object.prototype]. *)
Theorem mostUsedAgent_is_most_used (history : list Conversation) :
  plain_agent_types history ->
  match mostUsedAgent (agentUsage history) with
  | None => history = []
  | Some agent =>
      (0 < conversations_with agent history)%nat
      /\ forall other,
          (conversations_with other history <= conversations_with agent history)%nat
  end.
Proof.
  intros _. unfold mostUsedAgent.
  assert (Hkeys : forall b, In b (Object_keys (agentUsage history)) ->
                    is_Some (usage_of (agentUsage history) b)).
  { intros b Hb. now apply usage_of_In, Object_keys_In. }
  destruct (reduce_max (agentUsage history) (Object_keys (agentUsage history)) None Hkeys)
    as (Hr & Hall & _).
  pose proof (reduce_None (agentUsage history) (Object_keys (agentUsage history))) as Hnone.
  destruct (fold_left _ _ None) as [agent|].
  - destruct Hr as [Hr|(key & [= <-] & Hin)]; [discriminate Hr|].
    destruct (Hkeys agent Hin) as [n Hn]. pose proof Hn as Hn'.
    rewrite usage_of_agentUsage in Hn'.
    destruct (conversations_with agent history =? 0)%nat eqn:E; [discriminate|].
    apply Nat.eqb_neq in E. injection Hn' as <-. split; [lia|].
    intros other.
    destruct (conversations_with other history =? 0)%nat eqn:Eo;
      [apply Nat.eqb_eq in Eo; lia|].
    assert (Ho : usage_of (agentUsage history) other
                 = Some (Z.of_nat (conversations_with other history)))
      by (now rewrite usage_of_agentUsage, Eo).
    assert (Hino : In other (Object_keys (agentUsage history))).
    { apply Object_keys_In, usage_of_In. rewrite Ho. eauto. }
    destruct (Hall other _ Hino Ho) as (m & Hm & Hle).
    cbn [property_key] in Hm. rewrite Hn in Hm. injection Hm as <-. lia.
  - specialize (Hnone eq_refl).
    assert (Hnull : usage_of (agentUsage history) "null" = None).
    { destruct (usage_of (agentUsage history) "null") eqn:E; [|reflexivity].
      exfalso. apply Hnone, Object_keys_In, usage_of_In. rewrite E. eauto. }
    destruct history as [|conv history]; [reflexivity|]. exfalso.
    assert (Hc : usage_of (agentUsage (conv :: history)) (agentType conv) <> None).
    { rewrite usage_of_agentUsage. unfold conversations_with. cbn [List.filter].
      rewrite String.eqb_refl. cbn. discriminate. }
    destruct (usage_of (agentUsage (conv :: history)) (agentType conv)) as [n|] eqn:En;
      [|contradiction].
    assert (Hin : In (agentType conv) (Object_keys (agentUsage (conv :: history)))).
    { apply Object_keys_In, usage_of_In. rewrite En. eauto. }
    destruct (Hall _ _ Hin En) as (m & Hm & _). cbn [property_key] in Hm. congruence.
Qed.
End AgentUsage.

Lemma handoff_route_stays_with_askme_witness :
  exists env c',
    fst (ChatRoutes.postHandoff req w_ride "u1" (Some "ridenow") None s_askme)
    = Ok (Routes.Success 200 env)
    /\ env_agent env = "askme"
    /\ env_handoff env = Some HNull
    /\ heap (snd (ChatRoutes.postHandoff req w_ride "u1" (Some "ridenow") None s_askme))
         !! 0%nat
       = Some c'
    /\ currentAgent c' = Some "askme".
Proof.
  apply (handoff_route_stays_with_askme req w_ride "u1" "ridenow" None s_askme
           0%nat c_askme).
  - reflexivity.
  - vm_compute; reflexivity.
  - vm_compute; reflexivity.
  - vm_compute; reflexivity.
  - vm_compute; reflexivity.
  - discriminate.
Defined.

Lemma cart_stays_empty_witness :
  exists orderState,
    FoodieAgent.after no_match five_percent [order_pizza] ∅ !! "anonymous"
    = Some orderState
    /\ FoodieAgent.stage orderState = "restaurant_selection"
    /\ FoodieAgent.nothing_selected orderState.
Proof.
  eexists. split; [vm_compute; reflexivity|]. split; [reflexivity|].
  apply (cart_stays_empty no_match five_percent [order_pizza] "anonymous").
  vm_compute; reflexivity.
Defined.

Lemma checkout_finds_empty_cart_witness :
  fst (FoodieAgent.tryBlock no_match five_percent checkout
         (FoodieAgent.after no_match five_percent [order_pizza] ∅))
  = Ok FoodieAgent.emptyCartReply.
Proof.
  apply (checkout_finds_empty_cart no_match five_percent [order_pizza] checkout).
  reflexivity.
Defined.

Lemma rides_are_sorted_by_fare_witness :
  Permutation (RideNowAgent.selectRides RideNowAgent.mockRides None)
    RideNowAgent.mockRides
  /\ StronglySorted (fun a b => RideNowAgent.fare a <= RideNowAgent.fare b)
       (RideNowAgent.selectRides RideNowAgent.mockRides None).
Proof.
  apply (rides_are_sorted_by_fare RideNowAgent.mockRides None).
  reflexivity.
Defined.

Lemma complete_booking_throws_witness :
  fst (RideNowAgent.bookRide no_match no_match no_match "take me to the airport"
         to_airport c_ride (Some rider) ∅)
  = Throw "userId is not defined".
Proof.
  apply (complete_booking_throws no_match no_match no_match "take me to the airport"
           to_airport c_ride rider home [office] ∅).
  - reflexivity.
  - reflexivity.
  - vm_compute. discriminate.
Defined.

Lemma favorite_agents_saved_witness :
  List.NoDup ["foodie"; "askme"]
  /\ (forall agent, In agent ["foodie"; "askme"] <-> In agent ["foodie"; "askme"; "foodie"])
  /\ (forall agent, In agent ["foodie"; "askme"] -> In agent Routes.validAgents)
  /\ (length ["foodie"; "askme"] <= 6)%nat.
Proof.
  apply (favorite_agents_saved ["foodie"; "askme"; "foodie"] ["foodie"; "askme"]).
  vm_compute; reflexivity.
Defined.

Lemma deleteAddress_keeps_default_witness :
  exists (index : nat) deleted,
    [home; office] !! index = Some deleted
    /\ User.addr_id deleted = "a1"
    /\ (forall (i : nat) earlier,
           (i < index)%nat -> [home; office] !! i = Some earlier ->
           User.addr_id earlier <> "a1")
    /\ [User.setDefault true office]
       = match delete index [home; office] with
         | first :: others =>
             (if User.addr_isDefault deleted then User.setDefault true first else first)
             :: others
         | [] => []
         end
    /\ (Routes.one_default [home; office] ->
        Routes.one_default [User.setDefault true office])
    /\ ((Routes.defaults [home; office] <= 1)%nat ->
        (Routes.defaults [User.setDefault true office] <= 1)%nat).
Proof.
  apply (deleteAddress_keeps_default "a1" [home; office] [User.setDefault true office]).
  vm_compute; reflexivity.
Defined.

Lemma payment_methods_have_one_default_witness :
  Routes.one_default
    (fold_left (fun saved request => Routes.serve request saved)
       [Routes.AddPaymentMethod "p1" "UPI" None "user@upi" Routes.Absent None;
        Routes.AddPaymentMethod "p2" "CARD" (Some "Visa") "4242"
          (Routes.Text "yes") None;
        Routes.AddPaymentMethod "p3" "WALLET" None "wallet" (Routes.Text "maybe") None;
        Routes.DeletePaymentMethod "p2"]
       []).
Proof.
  apply (payment_methods_have_one_default
           [Routes.AddPaymentMethod "p1" "UPI" None "user@upi" Routes.Absent None;
            Routes.AddPaymentMethod "p2" "CARD" (Some "Visa") "4242"
              (Routes.Text "yes") None;
            Routes.AddPaymentMethod "p3" "WALLET" None "wallet" (Routes.Text "maybe")
              None;
            Routes.DeletePaymentMethod "p2"]).
  repeat constructor.
Defined.

Lemma history_is_capped_witness :
  exists saved dropped,
    Routes.postHistory (t0 + 3) (Some "askme") (Some []) three_conversations
    = Routes.Success 200 saved
    /\ length saved = Nat.min 100 (S (length three_conversations))
    /\ (three_conversations
        ++ [{| User.agentType := "askme"; User.conv_context := [];
               User.conv_timestamp := t0 + 3 |}]
        = dropped ++ saved)%list
    /\ last saved
       = Some {| User.agentType := "askme"; User.conv_context := [];
                 User.conv_timestamp := t0 + 3 |}.
Proof.
  apply (history_is_capped (t0 + 3) "askme" [] three_conversations).
  discriminate.
Defined.

Lemma mostUsedAgent_is_most_used_witness :
  Routes.mostUsedAgent (Routes.agentUsage three_conversations) = Some "foodie"
  /\ match Routes.mostUsedAgent (Routes.agentUsage three_conversations) with
     | None => three_conversations = []
     | Some agent =>
         (0 < Routes.conversations_with agent three_conversations)%nat
         /\ forall other,
             (Routes.conversations_with other three_conversations
              <= Routes.conversations_with agent three_conversations)%nat
     end.
Proof.
  split; [vm_compute; reflexivity|].
  apply (mostUsedAgent_is_most_used three_conversations).
  intros conv [<-|[<-|[<-|[]]]]; vm_compute;
    intros H; repeat (destruct H as [H|H]; [discriminate H|]); exact H.
Defined.

Lemma keyword_gate_is_monotone_witness :
  RideNowAgent.canHandle "Book a CAB" c_created = Ok true
  /\ RideNowAgent.canHandle ("please " +:+ "Book a CAB" +:+ " now") c_askme = Ok true
  /\ FoodieAgent.canHandle "pizza" c_created = Ok true
  /\ FoodieAgent.canHandle ("one " +:+ "pizza" +:+ " to go") c_askme = Ok true.
Proof.
  pose proof (keyword_gate_is_monotone "Book a CAB" "please " " now" c_created c_askme)
    as [Hride _].
  pose proof (keyword_gate_is_monotone "pizza" "one " " to go" c_created c_askme)
    as [_ Hfood].
  assert (Hr : RideNowAgent.canHandle "Book a CAB" c_created = Ok true)
    by (vm_compute; reflexivity).
  assert (Hf : FoodieAgent.canHandle "pizza" c_created = Ok true)
    by (vm_compute; reflexivity).
  exact (conj Hr (conj (Hride Hr) (conj Hf (Hfood Hf)))).
Defined.


(** ** The revised properties at work on the concrete deployment *)

(** The states of the scenario are states that calls lead to. *)
Lemma refs_ok_started : refs_ok started.
Proof. apply (refs_ok_run_all req [CallInitialize] new); [reflexivity|apply refs_ok_new]. Qed.

Lemma refs_ok_s_ride : refs_ok s_ride.
Proof. apply (refs_ok_run_all req calls_ride new); [reflexivity|apply refs_ok_new]. Qed.

Lemma processMessage_returns_witness :
  exists context agentType s1 agent,
    route req w_boom "u1" "plan a trip" None started = (Ok (context, agentType), s1)
    /\ agents_get (roster req) agentType = Some agent
    /\ fst (processMessage req w_boom "u1" "plan a trip" None started)
       = Ok match turn_outcome req w_boom
                    (bool_decide (is_Some (conversationContext started !! "u1")))
                    "plan a trip" None agentType agent
                    (set_currentAgent (Some agentType)
                       (inbound w_boom started "u1" "plan a trip"))
                    (clock w_boom (clock_reads s1)) with
            | Ok env => env
            | Throw e => error_envelope req w_boom "plan a trip" e
            end
    /\ (forall env,
          turn_outcome req w_boom
            (bool_decide (is_Some (conversationContext started !! "u1")))
            "plan a trip" None agentType agent
            (set_currentAgent (Some agentType)
               (inbound w_boom started "u1" "plan a trip"))
            (clock w_boom (clock_reads s1)) = Ok env ->
          full_envelope env)
    /\ (forall e,
          ~ full_envelope (error_envelope req w_boom "plan a trip" e)
          /\ env_originalError (error_envelope req w_boom "plan a trip" e) = Some e).
Proof.
  apply (processMessage_returns req w_boom "u1" "plan a trip" None started).
  - reflexivity.
  - exact refs_ok_started.
Defined.

Lemma fallback_guarantee_witness :
  misclassified (roster req) w_unknown
  /\ exists context s1 response env,
      route req w_unknown "u1" "hello there" None started = (Ok (context, "askme"), s1)
      /\ agent_processMessage
           (AskMeAgent.new Oracle (agent_now req) (askme_handlers req))
           (ext w_unknown) "hello there"
           (set_currentAgent (Some "askme") (inbound w_unknown started "u1" "hello there"))
           None
         = Ok response
      /\ fst (processMessage req w_unknown "u1" "hello there" None started) = Ok env
      /\ env = envelope_of "askme" response
      /\ env_agent env = "askme"
      /\ env_error env = None
      /\ env_handoff env = Some HNull
      /\ heap (snd (processMessage req w_unknown "u1" "hello there" None started))
           !! context
         = Some (recorded "askme" response (clock w_unknown (clock_reads s1))
                   (set_currentAgent (Some "askme")
                      (inbound w_unknown started "u1" "hello there")))
      /\ (short_turn w_unknown started ->
          conversationContext
            (snd (processMessage req w_unknown "u1" "hello there" None started))
            !! "u1"
          = Some context).
Proof.
  split; [vm_compute; reflexivity|].
  apply (fallback_guarantee req w_unknown "u1" "hello there" None started).
  - reflexivity.
  - exact refs_ok_started.
  - vm_compute; reflexivity.
  - vm_compute. discriminate.
Defined.


(** In the scenario every directive names an agent of the roster. *)
Lemma calls_registered_all_registered : all_registered req calls_registered new.
Proof.
  unfold calls_registered. cbn [all_registered names_registered].
  repeat split;
    intros h Hh; vm_compute in Hh;
    first [discriminate Hh | injection Hh as <-; vm_compute; reflexivity].
Qed.

Lemma context_invariant_witness :
  context_of (run_all req calls_registered new) "u1"
  = Some (object_at (run_all req calls_registered new) 0)
  /\ context_ok (agents (run_all req calls_registered new))
       (object_at (run_all req calls_registered new) 0).
Proof.
  split; [vm_compute; reflexivity|].
  apply (context_invariant req calls_registered "u1"
           (object_at (run_all req calls_registered new) 0)).
  - exact calls_registered_all_registered.
  - vm_compute; reflexivity.
Defined.

Lemma sticky_turn_no_classification_witness :
  completions
    (trace (snd (processMessage req w_ride "u1" "ok book the cheapest one" None s_ride)))
  = completions (trace s_ride).
Proof.
  apply (sticky_turn_no_classification req w_ride "u1" "ok book the cheapest one"
           None s_ride 0%nat c_ride "ridenow"
           (RideNowAgent.new Oracle (agent_now req) (ridenow_handlers req))).
  - reflexivity.
  - vm_compute; reflexivity.
  - vm_compute; reflexivity.
  - vm_compute; reflexivity.
  - discriminate.
  - vm_compute; reflexivity.
  - reflexivity.
  - vm_compute; reflexivity.
Defined.

Lemma auto_handoff_stored_context_witness :
  exists c',
    fst (processMessage req (w_handoff "askme" true) "u1" "plan my holiday" None s_ride)
    = Ok (handoff_envelope "askme" askme_welcome)
    /\ context_of
         (snd (processMessage req (w_handoff "askme" true) "u1" "plan my holiday"
                 None s_ride))
         "u1"
       = Some c'
    /\ c' = push_history
              (handoff_entry {| fromAgent := Some "TravelBuddy AI"; hc_rest := [] |}
                 "askme" askme_welcome
                 (clock (w_handoff "askme" true) (S (S (S (clock_reads s_ride))))))
              (handed_over {| fromAgent := Some "TravelBuddy AI"; hc_rest := [] |}
                 "askme"
                 (recorded "travelbuddy" (handoff_response "askme" true)
                    (clock (w_handoff "askme" true) (S (S (clock_reads s_ride))))
                    (set_currentAgent (Some "travelbuddy")
                       (inbound (w_handoff "askme" true) s_ride "u1"
                          "plan my holiday"))))
    /\ currentAgent c' = Some "askme"
    /\ handoffRequested c' = false
    /\ handoffTarget c' = None.
Proof.
  apply (auto_handoff_stored_context req (w_handoff "askme" true) "u1"
           "plan my holiday" None s_ride 0%nat "travelbuddy"
           (TravelBuddyAgent req) (handoff_response "askme" true)
           {| targetAgent := "askme"; reason := "user asked a general question";
              hd_context := Some {| fromAgent := Some "TravelBuddy AI"; hc_rest := [] |};
              autoHandoff := true |}
           (AskMeAgent.new Oracle (agent_now req) (askme_handlers req))
           askme_welcome).
  - reflexivity.
  - exact refs_ok_s_ride.
  - vm_compute; reflexivity.
  - vm_compute; reflexivity.
  - reflexivity.
  - reflexivity.
  - reflexivity.
  - reflexivity.
  - reflexivity.
  - vm_compute; reflexivity.
Defined.
